(** * of::vk::Shader and ofVkRenderer: a shallow embedding

    The development follows two translation units of the Vulkan renderer:
    [vk/Shader.cpp] (loading of SPIR-V, reflection of uniform blocks,
    descriptor-set-layout keys) and [vk/ofVkRenderer.cpp] (surface format
    selection, descriptor pool and descriptor set setup, the per-frame
    submit/present sequence and mesh drawing).

    Conventions
    - fixed-width unsigned integers are [Z] values; arithmetic that can
      overflow is wrapped explicitly with [u32];
    - a [std::map<K,V>] is a [gmap K V] and is iterated in ascending key
      order through [Cxx.items_Z] / [Cxx.items_str];
    - a [std::vector<T>] is a [list T];
    - calls into Vulkan, shaderc, spirv-cross, SpookyHash, the file system
      and the logger are not part of the translation units: results they
      return enter as parameters, calls that only have an effect are
      recorded in a trace. *)

From Stdlib Require Import ZArith Lia.
From stdpp Require Import base tactics option list sorting numbers gmap strings.

#[local] Open Scope Z_scope.

(* ===================================================================== *)
(** * C++ building blocks *)
(* ===================================================================== *)

Module Cxx.

(** [uint32_t] wrap-around. *)
Definition u32 (z : Z) : Z := z mod 2 ^ 32.

(** The [n] little-endian bytes of the object representation of an unsigned
    integer. *)
Fixpoint le_bytes (n : nat) (z : Z) : list Z :=
  match n with
  | O => []
  | S n' => (z mod 256) :: le_bytes n' (z / 256)
  end.

(** Reading a byte buffer as [uint32_t] words ([reinterpret_cast<uint32_t*>]
    over [size / sizeof(uint32_t)] elements): trailing bytes that do not fill
    a word are dropped. *)
Fixpoint words_of_bytes (fuel : nat) (bs : list Z) : list Z :=
  match fuel with
  | O => []
  | S fuel' =>
      match bs with
      | b0 :: b1 :: b2 :: b3 :: rest =>
          (b0 + 256 * b1 + 65536 * b2 + 16777216 * b3)
            :: words_of_bytes fuel' rest
      | _ => []
      end
  end.

(** Ordering of the entries of a [std::map] by key. *)
Definition key_le {K V : Type} (R : relation K) : relation (K * V) :=
  λ a b, R a.1 b.1.

#[global] Instance key_le_dec {K V : Type} (R : relation K)
  `{!RelDecision R} : RelDecision (@key_le K V R).
Proof. intros a b. unfold key_le. apply _. Defined.

(** Iteration over a [std::map] visits the entries in ascending key order. *)
Definition items_Z {V : Type} (m : gmap Z V) : list (Z * V) :=
  merge_sort (key_le Z.le) (map_to_list m).

Definition items_str {V : Type} (m : gmap string V) : list (string * V) :=
  merge_sort (key_le String.le) (map_to_list m).

(** [std::vector::resize]: keeps the leading elements, value-initialises new
    ones. *)
Definition resize_vec {A : Type} (n : nat) (dflt : A) (v : list A) : list A :=
  take n v ++ replicate (n - length v)%nat dflt.

End Cxx.

(* ===================================================================== *)
(** * The Vulkan constants and structures the code touches *)
(* ===================================================================== *)

Module Vk.

Definition VK_SUCCESS : Z := 0.

Definition VK_FORMAT_UNDEFINED : Z := 0.
Definition VK_FORMAT_B8G8R8A8_UNORM : Z := 44.
Definition VK_FORMAT_R32G32B32_SFLOAT : Z := 106.
Definition VK_FORMAT_R32G32B32A32_SFLOAT : Z := 109.

Definition VK_SHADER_STAGE_VERTEX_BIT : Z := 1.
Definition VK_SHADER_STAGE_FRAGMENT_BIT : Z := 16.

Definition VK_DESCRIPTOR_TYPE_UNIFORM_BUFFER_DYNAMIC : Z := 8.

Definition VK_PIPELINE_STAGE_TOP_OF_PIPE_BIT : Z := 1.
Definition VK_PIPELINE_STAGE_BOTTOM_OF_PIPE_BIT : Z := 8192.
Definition VK_PIPELINE_STAGE_ALL_COMMANDS_BIT : Z := 65536.

Definition VK_VERTEX_INPUT_RATE_VERTEX : Z := 0.

Definition VK_IMAGE_LAYOUT_COLOR_ATTACHMENT_OPTIMAL : Z := 2.
Definition VK_IMAGE_LAYOUT_PRESENT_SRC_KHR : Z := 1000001002.

Definition VK_INDEX_TYPE_UINT32 : Z := 1.

(** [VkDescriptorSetLayoutBinding]; the sampler pointer is an address. *)
Record VkDescriptorSetLayoutBinding := {
  binding : Z;
  descriptorType : Z;
  descriptorCount : Z;
  stageFlags : Z;
  pImmutableSamplers : Z
}.

Record VkSurfaceFormatKHR := {
  format : Z;
  colorSpace : Z
}.

Record VkDescriptorPoolSize := {
  pool_type : Z;
  pool_descriptorCount : Z
}.

Record VkVertexInputBindingDescription := {
  vib_binding : Z;
  vib_stride : Z;
  vib_inputRate : Z
}.

Record VkVertexInputAttributeDescription := {
  via_location : Z;
  via_binding : Z;
  via_format : Z;
  via_offset : Z
}.

End Vk.

(* ===================================================================== *)
(** * of::vk::Shader *)
(* ===================================================================== *)

Module Shader.
Import Cxx Vk.

(** ** Data declared in [vk/Shader.h] *)

(** [UniformRange]: offset and range of one member of a uniform block. *)
Record UniformRange := {
  ur_offset : Z;
  ur_range : Z
}.

Record BindingInfo := {
  bi_set : Z;
  bi_binding : VkDescriptorSetLayoutBinding;
  bi_size : Z;
  bi_name : string;
  bi_memberRanges : gmap string UniformRange
}.

Record SetLayout := {
  bindings : list BindingInfo;
  key : Z
}.

Record VertexInfo := {
  attribute : list VkVertexInputAttributeDescription;
  bindingDescription : list VkVertexInputBindingDescription;
  vi_counts : Z * Z
}.

(** Lines written through [ofLog*]. *)
Inductive LogEntry :=
| ErrShaderFileNotFound (filename : string)
| NoticeLoadingSpirv (filename : string)
| NoticeCompilingGlsl (filename : string)
| ErrShaderCompile (filename : string)
| OkShaderCompile (filename : string)
| ErrCreatingModule (filename : string)
| NoticeStageBanner (stage : Z)
| WarnNoSetId (name : string)
| WarnNoBindingNumber (name : string)
| NoticeUniformBlock (name : string) (set binding : option Z)
| NoticeMember (index : nat) (name : string)
| ErrIncompatibleBindings (name : string)
| NoticeVertexAttributeLocations
| NoticeVertexAttribute (location : Z) (name : string)
| ErrSparseDescriptorSet (missing : Z).

(** Ghost record of the expensive steps a call to [setup] went through. *)
Inductive Step :=
| StepCreateShaderModule (stage : Z)
| StepReflect
| StepBuildSetLayouts.

(** The members of [of::vk::Shader], with the layouts handed over to
    [Context::storeDescriptorSetLayout], the log and the ghost steps. *)
Record State := {
  mSources : gmap Z string;
  mModules : gmap Z Z;
  mStages : list (Z * Z);
  mSpvCrossCompilers : gmap Z (list Z);
  mSpvHash : gmap Z Z;
  mUniforms : gmap string BindingInfo;
  mVertexInfo : VertexInfo;
  mDescriptorSetLayoutKeys : list Z;
  storedLayouts : list SetLayout;
  log : list LogEntry;
  steps : list Step
}.

Definition with_log (es : list LogEntry) (s : State) : State :=
  {| mSources := mSources s; mModules := mModules s; mStages := mStages s;
     mSpvCrossCompilers := mSpvCrossCompilers s; mSpvHash := mSpvHash s;
     mUniforms := mUniforms s; mVertexInfo := mVertexInfo s;
     mDescriptorSetLayoutKeys := mDescriptorSetLayoutKeys s;
     storedLayouts := storedLayouts s;
     log := log s ++ es; steps := steps s |}.

Definition with_step (st : Step) (s : State) : State :=
  {| mSources := mSources s; mModules := mModules s; mStages := mStages s;
     mSpvCrossCompilers := mSpvCrossCompilers s; mSpvHash := mSpvHash s;
     mUniforms := mUniforms s; mVertexInfo := mVertexInfo s;
     mDescriptorSetLayoutKeys := mDescriptorSetLayoutKeys s;
     storedLayouts := storedLayouts s;
     log := log s; steps := steps s ++ [st] |}.

Definition with_mSpvHash (h : gmap Z Z) (s : State) : State :=
  {| mSources := mSources s; mModules := mModules s; mStages := mStages s;
     mSpvCrossCompilers := mSpvCrossCompilers s; mSpvHash := h;
     mUniforms := mUniforms s; mVertexInfo := mVertexInfo s;
     mDescriptorSetLayoutKeys := mDescriptorSetLayoutKeys s;
     storedLayouts := storedLayouts s;
     log := log s; steps := steps s |}.

Definition with_mUniforms (u : gmap string BindingInfo) (s : State) : State :=
  {| mSources := mSources s; mModules := mModules s; mStages := mStages s;
     mSpvCrossCompilers := mSpvCrossCompilers s; mSpvHash := mSpvHash s;
     mUniforms := u; mVertexInfo := mVertexInfo s;
     mDescriptorSetLayoutKeys := mDescriptorSetLayoutKeys s;
     storedLayouts := storedLayouts s;
     log := log s; steps := steps s |}.

Definition with_mVertexInfo (v : VertexInfo) (s : State) : State :=
  {| mSources := mSources s; mModules := mModules s; mStages := mStages s;
     mSpvCrossCompilers := mSpvCrossCompilers s; mSpvHash := mSpvHash s;
     mUniforms := mUniforms s; mVertexInfo := v;
     mDescriptorSetLayoutKeys := mDescriptorSetLayoutKeys s;
     storedLayouts := storedLayouts s;
     log := log s; steps := steps s |}.

Definition with_module (stage module : Z) (code : list Z) (s : State) : State :=
  {| mSources := mSources s;
     mModules := <[stage := module]> (mModules s);
     mStages := mStages s ++ [(stage, module)];
     mSpvCrossCompilers := <[stage := code]> (mSpvCrossCompilers s);
     mSpvHash := mSpvHash s;
     mUniforms := mUniforms s; mVertexInfo := mVertexInfo s;
     mDescriptorSetLayoutKeys := mDescriptorSetLayoutKeys s;
     storedLayouts := storedLayouts s;
     log := log s; steps := steps s |}.

Definition with_layout (l : SetLayout) (s : State) : State :=
  {| mSources := mSources s; mModules := mModules s; mStages := mStages s;
     mSpvCrossCompilers := mSpvCrossCompilers s; mSpvHash := mSpvHash s;
     mUniforms := mUniforms s; mVertexInfo := mVertexInfo s;
     mDescriptorSetLayoutKeys := mDescriptorSetLayoutKeys s ++ [key l];
     storedLayouts := storedLayouts s ++ [l];
     log := log s; steps := steps s |}.

(** ** What spirv-cross reports about a module *)

(** One uniform block: its name, the [DescriptorSet] and [Binding]
    decorations when the decoration mask has them, the declared struct size,
    the names of the struct members, and the active buffer ranges with the
    member name of each. *)
Record UboResource := {
  ubo_name : string;
  ubo_set : option Z;
  ubo_binding : option Z;
  ubo_size : Z;
  ubo_members : list string;
  ubo_ranges : list (string * UniformRange)
}.

(** One stage input: name, [Location] decoration when present, and the
    width, vector size and column count of its type. *)
Record StageInput := {
  si_name : string;
  si_location : option Z;
  si_width : Z;
  si_vecsize : Z;
  si_columns : Z
}.

Record ShaderResources := {
  uniform_buffers : list UboResource;
  stage_inputs : list StageInput
}.

Inductive shaderc_shader_kind :=
| shaderc_glsl_infer_from_source
| shaderc_glsl_default_vertex_shader
| shaderc_glsl_default_fragment_shader.

(** ** The world outside the translation unit, at the time of a call *)
Record Env := {
  file_exists : string → bool;
  file_extension : string → string;
  ofBufferFromFile : string → list Z;
  CompileGlslToSpv : list Z → shaderc_shader_kind → string → option (list Z);
  vkCreateShaderModule : list Z → Z * Z;
  get_shader_resources : list Z → ShaderResources
}.

(** ** The functions of [vk/Shader.cpp] *)

Section Code.

(** [SpookyHash::Hash64 (message, length, seed)] over the bytes of the
    message. *)
Variable Hash64 : list Z → Z → Z.

(** [std::sort (first, last, comp)]. *)
Variable std_sort :
  (BindingInfo → BindingInfo → bool) → list BindingInfo → list BindingInfo.

(** Contents of the two alignment holes of the [i]-th element of the
    temporary [std::vector<BindingInfoPOD>]: the bytes after [set] and the
    bytes after [size]. Nothing in the code writes them. *)
Variable pod_padding : nat → list Z * list Z.

Definition isSpirCodeDirty (shaderStage : Z) (spirCode_ : list Z) (s : State)
  : bool * State :=
  let spirvHash := Hash64 (flat_map (le_bytes 4) spirCode_) 0 in
  match mSpvHash s !! shaderStage with
  | None =>
      (* hash not found so must be dirty *)
      (true, with_mSpvHash (<[shaderStage := spirvHash]> (mSpvHash s)) s)
  | Some stored => (bool_decide (stored ≠ spirvHash), s)
  end.

(** [getSpirV] fills [spirCode]; the second component holds the lines it
    logs. *)
Definition getSpirV (env : Env) (shaderStage : Z) (fileName : string)
  (spirCode : list Z) : list Z * list LogEntry :=
  if decide (file_extension env fileName = "spv") then
    let fileBuf := ofBufferFromFile env fileName in
    (words_of_bytes (length fileBuf) fileBuf, [NoticeLoadingSpirv fileName])
  else
    let shaderType :=
      if decide (shaderStage = VK_SHADER_STAGE_VERTEX_BIT)
      then shaderc_glsl_default_vertex_shader
      else if decide (shaderStage = VK_SHADER_STAGE_FRAGMENT_BIT)
      then shaderc_glsl_default_fragment_shader
      else shaderc_glsl_infer_from_source in
    let fileBuf := ofBufferFromFile env fileName in
    match CompileGlslToSpv env fileBuf shaderType fileName with
    | None =>
        (spirCode, [NoticeCompilingGlsl fileName; ErrShaderCompile fileName])
    | Some module =>
        (module, [NoticeCompilingGlsl fileName; OkShaderCompile fileName])
    end.

Definition createVkShaderModule (env : Env) (shaderType : Z)
  (fileName : string) (spirCode : list Z) (s : State) : State :=
  let s0 := with_step (StepCreateShaderModule shaderType) s in
  let '(err, module) := vkCreateShaderModule env spirCode in
  if decide (err = VK_SUCCESS)
  then with_module shaderType module spirCode s0
  else with_log [ErrCreatingModule fileName] s0.

(** [BindingInfo] as [operator[]] of [mUniforms] creates it. *)
Definition BindingInfo_default : BindingInfo :=
  {| bi_set := 0;
     bi_binding := {| binding := 0; descriptorType := 0; descriptorCount := 0;
                      stageFlags := 0; pImmutableSamplers := 0 |};
     bi_size := 0; bi_name := ""; bi_memberRanges := ∅ |}.

Definition set_stageFlags (f : Z) (b : VkDescriptorSetLayoutBinding)
  : VkDescriptorSetLayoutBinding :=
  {| binding := binding b; descriptorType := descriptorType b;
     descriptorCount := descriptorCount b; stageFlags := f;
     pImmutableSamplers := pImmutableSamplers b |}.

Definition processResource (ubo : UboResource) (shaderStage : Z) (s : State)
  : State :=
  let storageSize := u32 (ubo_size ubo) in
  let descriptor_set := default 0 (ubo_set ubo) in
  let bindingNumber := default 0 (ubo_binding ubo) in
  let warnSet :=
    match ubo_set ubo with
    | Some _ => []
    | None => [WarnNoSetId (ubo_name ubo)]
    end in
  let warnBinding :=
    match ubo_binding ubo with
    | Some _ => []
    | None => [WarnNoBindingNumber (ubo_name ubo)]
    end in
  let notices :=
    NoticeUniformBlock (ubo_name ubo) (ubo_set ubo) (ubo_binding ubo)
      :: imap NoticeMember (ubo_members ubo) in
  (* shaderStage defines from which shader stages this layout is accessible *)
  let layoutAccessibleFromStages := shaderStage in
  let newBinding :=
    {| binding := bindingNumber;
       descriptorType := VK_DESCRIPTOR_TYPE_UNIFORM_BUFFER_DYNAMIC;
       descriptorCount := 1;
       stageFlags := layoutAccessibleFromStages;
       pImmutableSamplers := 0 |} in
  let '(newBinding', errs) :=
    match mUniforms s !! ubo_name ubo with
    | Some existingBinding =>
        if decide (bi_set existingBinding ≠ descriptor_set
                   ∨ binding (bi_binding existingBinding) ≠ bindingNumber)
        then (newBinding, [ErrIncompatibleBindings (ubo_name ubo)])
        else (set_stageFlags
                (Z.lor (stageFlags newBinding)
                       (stageFlags (bi_binding existingBinding)))
                newBinding, [])
    | None => (newBinding, [])
    end in
  let slot := default BindingInfo_default (mUniforms s !! ubo_name ubo) in
  let entry :=
    {| bi_set := descriptor_set;
       bi_binding := newBinding';
       bi_size := storageSize;
       bi_name := ubo_name ubo;
       bi_memberRanges :=
         foldl (λ mr r, <[r.1 := r.2]> mr) (bi_memberRanges slot)
               (ubo_ranges ubo) |} in
  with_mUniforms (<[ubo_name ubo := entry]> (mUniforms s))
    (with_log (warnSet ++ warnBinding ++ notices ++ errs) s).

Definition attribute_default : VkVertexInputAttributeDescription :=
  {| via_location := 0; via_binding := 0; via_format := 0; via_offset := 0 |}.

Definition bindingDescription_default : VkVertexInputBindingDescription :=
  {| vib_binding := 0; vib_stride := 0; vib_inputRate := 0 |}.

Definition processVertexInput (acc : VertexInfo * list LogEntry)
  (ia : nat * StageInput) : VertexInfo * list LogEntry :=
  let '(v, lg) := acc in
  let '(i, attributeInput) := ia in
  let location := default (Z.of_nat i) (si_location attributeInput) in
  let bd :=
    {| vib_binding := location;
       vib_stride :=
         u32 (u32 ((si_width attributeInput / 8) * si_vecsize attributeInput)
              * si_columns attributeInput);
       vib_inputRate := VK_VERTEX_INPUT_RATE_VERTEX |} in
  let old := default attribute_default (attribute v !! i) in
  let at' :=
    {| via_location := location;
       via_binding := location;
       via_format :=
         if decide (si_vecsize attributeInput = 3)
         then VK_FORMAT_R32G32B32_SFLOAT
         else if decide (si_vecsize attributeInput = 4)
         then VK_FORMAT_R32G32B32A32_SFLOAT
         else via_format old;
       via_offset := via_offset old |} in
  ({| attribute := <[i := at']> (attribute v);
      bindingDescription := <[i := bd]> (bindingDescription v);
      vi_counts := vi_counts v |},
   lg ++ [NoticeVertexAttribute location (si_name attributeInput)]).

Definition processVertexInputs (shaderResources : ShaderResources) (s : State)
  : State :=
  let n := length (stage_inputs shaderResources) in
  let v0 :=
    {| attribute := resize_vec n attribute_default (attribute (mVertexInfo s));
       bindingDescription :=
         resize_vec n bindingDescription_default
                    (bindingDescription (mVertexInfo s));
       vi_counts := vi_counts (mVertexInfo s) |} in
  let '(v1, lg) :=
    foldl processVertexInput (v0, [NoticeVertexAttributeLocations])
          (imap pair (stage_inputs shaderResources)) in
  let v2 :=
    {| attribute := attribute v1;
       bindingDescription := bindingDescription v1;
       vi_counts := (u32 (Z.of_nat (length (bindingDescription v1))),
                     u32 (Z.of_nat (length (attribute v1)))) |} in
  with_mVertexInfo v2 (with_log lg s).

Definition reflect_stage (env : Env) (s : State) (c : Z * list Z) : State :=
  let '(shaderStage, ir) := c in
  let banner :=
    if decide (Z.land shaderStage VK_SHADER_STAGE_VERTEX_BIT ≠ 0)
    then [NoticeStageBanner VK_SHADER_STAGE_VERTEX_BIT]
    else if decide (Z.land shaderStage VK_SHADER_STAGE_FRAGMENT_BIT ≠ 0)
    then [NoticeStageBanner VK_SHADER_STAGE_FRAGMENT_BIT]
    else [] in
  let shaderResources := get_shader_resources env ir in
  let s1 :=
    foldl (λ acc resource, processResource resource shaderStage acc)
          (with_log banner s) (uniform_buffers shaderResources) in
  if decide (Z.land shaderStage VK_SHADER_STAGE_VERTEX_BIT ≠ 0)
  then processVertexInputs shaderResources s1
  else s1.

Definition reflect (env : Env) (s : State) : State :=
  foldl (reflect_stage env) (with_step StepReflect s)
        (items_Z (mSpvCrossCompilers s)).

(** The plain-old-data copy of a binding that [calculateHash] hashes. *)
Record BindingInfoPOD := {
  pod_set : Z;
  pod_binding : VkDescriptorSetLayoutBinding;
  pod_size : Z
}.

Definition toPOD (b : BindingInfo) : BindingInfoPOD :=
  {| pod_set := bi_set b; pod_binding := bi_binding b; pod_size := bi_size b |}.

(** Object representation of one element of the vector: [set] at offset 0,
    [binding] (four 32-bit fields and a 64-bit pointer) at offset 8, [size] at
    offset 32; the holes at offsets 4 and 36 come from [holes]. *)
Definition object_bytes (holes : list Z * list Z) (p : BindingInfoPOD)
  : list Z :=
  le_bytes 4 (pod_set p) ++ holes.1
    ++ le_bytes 4 (binding (pod_binding p))
    ++ le_bytes 4 (descriptorType (pod_binding p))
    ++ le_bytes 4 (descriptorCount (pod_binding p))
    ++ le_bytes 4 (stageFlags (pod_binding p))
    ++ le_bytes 8 (pImmutableSamplers (pod_binding p))
    ++ le_bytes 4 (pod_size p) ++ holes.2.

(** The message handed to the hash: the elements of [podBindingInfo] laid out
    one after the other. *)
Definition hash_message (podBindingInfo : list BindingInfoPOD) : list Z :=
  concat (imap (λ i p, object_bytes (pod_padding i) p) podBindingInfo).

Definition calculateHash (l : SetLayout) : SetLayout :=
  let podBindingInfo := map toPOD (bindings l) in
  {| bindings := bindings l;
     key := Hash64 (hash_message podBindingInfo) 0 |}.

(** First loop of [buildSetLayouts]: group [BindingInfo] by "set". *)
Definition group_by_set (u : gmap string BindingInfo)
  : gmap Z (list BindingInfo) :=
  foldl (λ bindingInfoMap kv,
           <[bi_set kv.2 :=
               default [] (bindingInfoMap !! bi_set kv.2) ++ [kv.2]]>
             bindingInfoMap)
        ∅ (items_str u).

Definition by_binding_number (lhs rhs : BindingInfo) : bool :=
  bool_decide (binding (bi_binding lhs) < binding (bi_binding rhs)).

(** Second loop: sort uniforms of every set by binding number asc. *)
Definition sort_sets (bindingInfoMap : gmap Z (list BindingInfo))
  : gmap Z (list BindingInfo) :=
  std_sort by_binding_number <$> bindingInfoMap.

(** Body of the third loop; the accumulator holds the counter [i]. *)
Definition build_layout (acc : Z * State) (descriptorSet : Z * list BindingInfo)
  : Z * State :=
  let '(i, s) := acc in
  let '(setNumber, vec) := descriptorSet in
  let s1 :=
    if decide (setNumber ≠ i)
    then with_log [ErrSparseDescriptorSet i] s
    else s in
  let layout := calculateHash {| bindings := vec; key := 0 |} in
  (u32 (i + 1), with_layout layout s1).

Definition buildSetLayouts (s : State) : State :=
  let bindingInfoMap := sort_sets (group_by_set (mUniforms s)) in
  (foldl build_layout (0, with_step StepBuildSetLayouts s)
         (items_Z bindingInfoMap)).2.

(** Body of the loop of [setup] over [mSettings.sources]. *)
Definition setup_source (env : Env) (acc : bool * State) (source : Z * string)
  : bool * State :=
  let '(shaderDirty, s) := acc in
  let '(shaderType, filename) := source in
  if file_exists env filename then
    let '(spirCode, lines) := getSpirV env shaderType filename [] in
    let '(spirCodeDirty, s2) :=
      isSpirCodeDirty shaderType spirCode (with_log lines s) in
    let s3 :=
      if spirCodeDirty
      then createVkShaderModule env shaderType filename spirCode s2
      else s2 in
    (shaderDirty || spirCodeDirty, s3)
  else (shaderDirty, with_log [ErrShaderFileNotFound filename] s).

Definition setup (env : Env) (s : State) : State :=
  let '(shaderDirty, s1) :=
    foldl (setup_source env) (false, s) (items_Z (mSources s)) in
  if shaderDirty then buildSetLayouts (reflect env s1) else s1.

End Code.

(** ** Vocabulary for statements about bindings and layouts *)

(** Two bindings carry the same plain-old-data: set, every field of the
    [VkDescriptorSetLayoutBinding], and size. *)
Definition same_pod_fields (a b : BindingInfo) : Prop :=
  bi_set a = bi_set b
  ∧ binding (bi_binding a) = binding (bi_binding b)
  ∧ descriptorType (bi_binding a) = descriptorType (bi_binding b)
  ∧ descriptorCount (bi_binding a) = descriptorCount (bi_binding b)
  ∧ stageFlags (bi_binding a) = stageFlags (bi_binding b)
  ∧ pImmutableSamplers (bi_binding a) = pImmutableSamplers (bi_binding b)
  ∧ bi_size a = bi_size b.

(** Two bindings agree on set, binding, descriptorType, stageFlags and
    size. *)
Definition same_five_fields (a b : BindingInfo) : Prop :=
  bi_set a = bi_set b
  ∧ binding (bi_binding a) = binding (bi_binding b)
  ∧ descriptorType (bi_binding a) = descriptorType (bi_binding b)
  ∧ stageFlags (bi_binding a) = stageFlags (bi_binding b)
  ∧ bi_size a = bi_size b.

(** The entry [processResource] leaves in [mUniforms] for block [ubo] found
    in stage [shaderStage], given the entry [old] that was there before. *)
Definition merged_entry (ubo : UboResource) (shaderStage : Z)
  (old : option BindingInfo) : BindingInfo :=
  {| bi_set := default 0 (ubo_set ubo);
     bi_binding :=
       {| binding := default 0 (ubo_binding ubo);
          descriptorType := VK_DESCRIPTOR_TYPE_UNIFORM_BUFFER_DYNAMIC;
          descriptorCount := 1;
          stageFlags :=
            match old with
            | Some e =>
                if decide (bi_set e ≠ default 0 (ubo_set ubo)
                           ∨ binding (bi_binding e)
                             ≠ default 0 (ubo_binding ubo))
                then shaderStage
                else Z.lor shaderStage (stageFlags (bi_binding e))
            | None => shaderStage
            end;
          pImmutableSamplers := 0 |};
     bi_size := u32 (ubo_size ubo);
     bi_name := ubo_name ubo;
     bi_memberRanges :=
       foldl (λ mr r, <[r.1 := r.2]> mr)
             (bi_memberRanges (default BindingInfo_default old))
             (ubo_ranges ubo) |}.

(** The little-endian bytes of a SPIR-V word sequence, as hashed by
    [isSpirCodeDirty]. *)
Definition spirv_bytes (spirCode : list Z) : list Z :=
  flat_map (le_bytes 4) spirCode.

(** The fields [processResource] fills in the same way for every block. *)
Definition reflected_binding (b : BindingInfo) : Prop :=
  descriptorType (bi_binding b) = VK_DESCRIPTOR_TYPE_UNIFORM_BUFFER_DYNAMIC
  ∧ descriptorCount (bi_binding b) = 1
  ∧ pImmutableSamplers (bi_binding b) = 0.

(** Reflection of a sequence of uniform blocks, each with the stage it was
    found in: what [reflect] does to [mUniforms]. *)
Definition discover (ds : list (UboResource * Z)) (s : State) : State :=
  foldl (λ acc d, processResource d.1 d.2 acc) s ds.

(** Blocks of the same name are the same block. *)
Definition consistent (ds : list (UboResource * Z)) : Prop :=
  ∀ d d', d ∈ ds → d' ∈ ds → ubo_name d.1 = ubo_name d'.1 → d.1 = d'.1.

(** The errors the third loop of [buildSetLayouts] logs when it meets the
    set numbers [ks] with its counter at [i]. *)
Fixpoint sparse_errors (i : Z) (ks : list Z) : list LogEntry :=
  match ks with
  | [] => []
  | k :: ks' =>
      (if decide (k ≠ i) then [ErrSparseDescriptorSet i] else [])
        ++ sparse_errors (u32 (i + 1)) ks'
  end.

(** Some binding of the shader lives in descriptor set [k]. *)
Definition set_used (s : State) (k : Z) : Prop :=
  ∃ name b, mUniforms s !! name = Some b ∧ bi_set b = k.

(** The descriptor set numbers [buildSetLayouts] goes through, in order. *)
Definition observed_sets (s : State) : list Z :=
  (items_Z (group_by_set (mUniforms s))).*1.

(** Every entry of [mUniforms] is filed under its own name, has the fields
    reflection gives every block, and a size that fits [uint32_t]. *)
Definition well_formed_uniforms (u : gmap string BindingInfo) : Prop :=
  map_Forall (λ name b, bi_name b = name ∧ reflected_binding b
                        ∧ 0 ≤ bi_size b < 2 ^ 32) u.

(** Modules, reflection compilers and pipeline stages go together: a stage
    has a module exactly when it has a compiler, and the module of a stage
    is among the pipeline stages. *)
Definition modules_consistent (s : State) : Prop :=
  (∀ stage, is_Some (mModules s !! stage)
            ↔ is_Some (mSpvCrossCompilers s !! stage))
  ∧ (∀ stage module, mModules s !! stage = Some module →
       (stage, module) ∈ mStages s).

(** Two states hold the same modules, stages and compilers. *)
Definition same_modules (s1 s2 : State) : Prop :=
  mModules s1 = mModules s2 ∧ mStages s1 = mStages s2
  ∧ mSpvCrossCompilers s1 = mSpvCrossCompilers s2.

(** The bindings of descriptor set [k], in the order [mUniforms] is iterated
    in. *)
Definition bindings_of_set (s : State) (k : Z) : list BindingInfo :=
  filter (λ b, bi_set b = k) ((items_str (mUniforms s)).*2).

End Shader.

(* ===================================================================== *)
(** * ofVkRenderer *)
(* ===================================================================== *)

Module Renderer.
Import Cxx Vk.

(** How a call ends: it returns, the process exits through [ofExit], an
    [assert] fails, or a vector is indexed out of range. *)
Inductive Ending :=
| Returned
| Exited (code : Z)
| AssertFailed
| OutOfRange.

Inductive LogEntry :=
| ErrNoValidFormat
| NoticePresentSupported (supported : bool).

(** The value type of the map [Shader::getBindings] returns, as the renderer
    reads it. *)
Record Binding := {
  layout : VkDescriptorSetLayoutBinding
}.

Record VkWriteDescriptorSet := {
  sType : Z;
  pNext : Z;
  dstSet : Z;
  dstBinding : Z;
  dstArrayElement : Z;
  wds_descriptorCount : Z;
  wds_descriptorType : Z;
  pImageInfo : Z;
  pBufferInfo : Z;
  pTexelBufferView : Z
}.

Definition VK_STRUCTURE_TYPE_WRITE_DESCRIPTOR_SET : Z := 35.

(** A value-initialised element of [std::vector<VkWriteDescriptorSet>]. *)
Definition VkWriteDescriptorSet_zero : VkWriteDescriptorSet :=
  {| sType := 0; pNext := 0; dstSet := 0; dstBinding := 0;
     dstArrayElement := 0; wds_descriptorCount := 0; wds_descriptorType := 0;
     pImageInfo := 0; pBufferInfo := 0; pTexelBufferView := 0 |}.

Record VkDescriptorPoolCreateInfo := {
  maxSets : Z;
  poolSizeCount : Z;
  pPoolSizes : list VkDescriptorPoolSize
}.

Record VkSubmitInfo := {
  pWaitSemaphores : list Z;
  pWaitDstStageMask : list Z;
  pCommandBuffers : list Z;
  pSignalSemaphores : list Z
}.

(** The two image barriers of [finishRender]: the one obtained from
    [of::vk::createImageBarrier] and the one filled in field by field. *)
Inductive VkImageMemoryBarrier :=
| createImageBarrier (image aspectMask oldLayout newLayout : Z)
| postPresentBarrier (srcAccessMask dstAccessMask oldLayout newLayout image : Z).

Definition VK_IMAGE_ASPECT_COLOR_BIT : Z := 1.
Definition VK_ACCESS_COLOR_ATTACHMENT_WRITE_BIT : Z := 256.
Definition VK_PIPELINE_BIND_POINT_GRAPHICS : Z := 0.

(** [ofMesh], through the two accessors [draw] uses. *)
Record ofMesh := {
  getNumVertices : Z;
  getNumIndices : Z
}.

(** Calls that leave the translation unit, in program order. *)
Inductive Call :=
| vkAllocateDescriptorSets (pool : Z) (setLayouts : list Z)
| vkUpdateDescriptorSets (writes : list VkWriteDescriptorSet)
| vkCreateDescriptorPool (info : VkDescriptorPoolCreateInfo)
| vkCmdEndRenderPass (cmd : Z)
| vkEndCommandBuffer (cmd : Z)
| Context_end
| vkQueueSubmit (queue : Z) (info : VkSubmitInfo)
| vkBeginCommandBuffer (cmd : Z)
| vkCmdPipelineBarrier (cmd srcStageMask dstStageMask : Z)
    (barrier : VkImageMemoryBarrier)
| Swapchain_queuePresent (queue : Z) (imageIndex : nat)
    (waitSemaphores : list Z)
| vkQueueWaitIdle (queue : Z)
| vkCmdBindDescriptorSets (cmd bindPoint pipelineLayout firstSet : Z)
    (sets : list Z) (dynamicOffsets : list Z)
| vkCmdBindPipeline (cmd bindPoint pipeline : Z)
| Context_storeMesh (mesh : ofMesh)
| vkCmdBindVertexBuffers (cmd firstBinding : Z) (buffers offsets : list Z)
| vkCmdDraw (cmd vertexCount instanceCount firstVertex firstInstance : Z)
| vkCmdBindIndexBuffer (cmd buffer offset indexType : Z)
| vkCmdDrawIndexed
    (cmd indexCount instanceCount firstIndex vertexOffset firstInstance : Z).

(** The members of [ofVkRenderer] the modelled functions read. Handles are
    numbers; [currentImageIndex] and [swapchainImages] stand for
    [mSwapchain.getCurrentImageIndex()] and [mSwapchain.getImage(i).imageRef]. *)
Record State := {
  mShaders : list (gmap string Binding);
  mDescriptorSetLayouts : list Z;
  mDescriptorSets : list Z;
  mDescriptorPool : Z;
  mPipelineLayouts : list Z;
  mPipelines_solid : Z;
  mQueue : Z;
  mSemaphorePresentComplete : Z;
  mSemaphoreRenderComplete : Z;
  mDrawCmdBuffer : list Z;
  mPrePresentCommandBuffer : Z;
  mPostPresentCommandBuffer : Z;
  currentImageIndex : nat;
  swapchainImages : list Z
}.

(** ** [querySurfaceCapabilities] *)

(** Answers of the driver: present support, the result of the counting call
    (the count is the length of the list), and the result and the list of the
    second call. *)
Record SurfaceAnswers := {
  presentSupported : bool;
  err_count : Z;
  err_formats : Z;
  surfaceFormats : list VkSurfaceFormatKHR
}.

Definition querySurfaceCapabilities (a : SurfaceAnswers)
  (mWindowColorFormat : VkSurfaceFormatKHR)
  : VkSurfaceFormatKHR * list LogEntry * Ending :=
  let formatCount := length (surfaceFormats a) in
  if decide (err_count a ≠ VK_SUCCESS ∨ formatCount = 0%nat)
  then (mWindowColorFormat, [ErrNoValidFormat], Exited 1)
  else if decide (err_formats a ≠ VK_SUCCESS)
  then (mWindowColorFormat, [], AssertFailed)
  else
    match surfaceFormats a with
    | [] => (mWindowColorFormat, [], OutOfRange)
    | first :: _ =>
        let chosen :=
          if decide (formatCount = 1%nat ∧ format first = VK_FORMAT_UNDEFINED)
          then VK_FORMAT_B8G8R8A8_UNORM
          else format first in
        ({| format := chosen; colorSpace := colorSpace first |},
         [NoticePresentSupported (presentSupported a)], Returned)
    end.

(** ** [setupDescriptorPool] *)

(** Inner loop body: count one binding under its descriptor type. *)
Definition count_binding (descriptorTypes : gmap Z Z) (b : string * Binding)
  : gmap Z Z :=
  let t := descriptorType (layout b.2) in
  match descriptorTypes !! t with
  | None => <[t := 1]> descriptorTypes
  | Some n => <[t := u32 (n + 1)]> descriptorTypes
  end.

Definition count_shader (descriptorTypes : gmap Z Z) (s : gmap string Binding)
  : gmap Z Z :=
  foldl count_binding descriptorTypes (items_str s).

(** Second loop body: append the pool size, accumulate [maxSets]. *)
Definition accumulate (acc : list VkDescriptorPoolSize * Z) (t : Z * Z)
  : list VkDescriptorPoolSize * Z :=
  (acc.1 ++ [{| pool_type := t.1; pool_descriptorCount := t.2 |}],
   u32 (acc.2 + t.2)).

Definition descriptorPoolInfo (shaders : list (gmap string Binding))
  : VkDescriptorPoolCreateInfo :=
  let descriptorTypes := foldl count_shader ∅ shaders in
  let '(typeCounts, maxSets) :=
    foldl accumulate ([], 0) (items_Z descriptorTypes) in
  {| maxSets := maxSets;
     poolSizeCount := u32 (Z.of_nat (length typeCounts));
     pPoolSizes := typeCounts |}.

(** [vkRes] and [pool] are what [vkCreateDescriptorPool] answers. *)
Definition setupDescriptorPool (vkRes pool : Z) (r : State)
  : State * list Call * Ending :=
  let info := descriptorPoolInfo (mShaders r) in
  let r' :=
    {| mShaders := mShaders r;
       mDescriptorSetLayouts := mDescriptorSetLayouts r;
       mDescriptorSets := mDescriptorSets r;
       mDescriptorPool := pool;
       mPipelineLayouts := mPipelineLayouts r;
       mPipelines_solid := mPipelines_solid r;
       mQueue := mQueue r;
       mSemaphorePresentComplete := mSemaphorePresentComplete r;
       mSemaphoreRenderComplete := mSemaphoreRenderComplete r;
       mDrawCmdBuffer := mDrawCmdBuffer r;
       mPrePresentCommandBuffer := mPrePresentCommandBuffer r;
       mPostPresentCommandBuffer := mPostPresentCommandBuffer r;
       currentImageIndex := currentImageIndex r;
       swapchainImages := swapchainImages r |} in
  (r', [vkCreateDescriptorPool info],
   if decide (vkRes = VK_SUCCESS) then Returned else AssertFailed).

(** ** [setupDescriptorSets] *)

(** The driver writes the handles it allocated over the start of the array
    it was given. *)
Definition written_over {A : Type} (new old : list A) : list A :=
  take (length old) (new ++ drop (length new) old).

(** The record one loop iteration builds for binding [b]. *)
Definition write_record (dstSet_ pBufferInfo_ : Z) (b : string * Binding)
  : VkWriteDescriptorSet :=
  {| sType := VK_STRUCTURE_TYPE_WRITE_DESCRIPTOR_SET;
     pNext := 0;
     dstSet := dstSet_;
     dstBinding := binding (layout b.2);
     dstArrayElement := 0;
     wds_descriptorCount := 1;
     wds_descriptorType := descriptorType (layout b.2);
     pImageInfo := 0;
     pBufferInfo := pBufferInfo_;
     pTexelBufferView := 0 |}.

(** The loop over [bindings]; [i] is the index variable, which the loop body
    never changes ([++i] stands after the closing brace of the loop). *)
Definition write_loop (dstSet_ pBufferInfo_ : Z) (i : nat)
  (writeDescriptorSets : list VkWriteDescriptorSet)
  (bindings : list (string * Binding)) : list VkWriteDescriptorSet :=
  foldl (λ w b, <[i := write_record dstSet_ pBufferInfo_ b]> w)
        writeDescriptorSets bindings.

(** [allocated] are the handles [vkAllocateDescriptorSets] answers with,
    [bufferInfo] the address of [mContext->getDescriptorBufferInfo()]. *)
Definition setupDescriptorSets (allocated : list Z) (bufferInfo : Z)
  (r : State) : State * list Call * Ending :=
  let dsl := mDescriptorSetLayouts r in
  let sets :=
    written_over allocated
      (resize_vec (length (mDescriptorSetLayouts r)) 0 (mDescriptorSets r)) in
  let r' :=
    {| mShaders := mShaders r;
       mDescriptorSetLayouts := mDescriptorSetLayouts r;
       mDescriptorSets := sets;
       mDescriptorPool := mDescriptorPool r;
       mPipelineLayouts := mPipelineLayouts r;
       mPipelines_solid := mPipelines_solid r;
       mQueue := mQueue r;
       mSemaphorePresentComplete := mSemaphorePresentComplete r;
       mSemaphoreRenderComplete := mSemaphoreRenderComplete r;
       mDrawCmdBuffer := mDrawCmdBuffer r;
       mPrePresentCommandBuffer := mPrePresentCommandBuffer r;
       mPostPresentCommandBuffer := mPostPresentCommandBuffer r;
       currentImageIndex := currentImageIndex r;
       swapchainImages := swapchainImages r |} in
  let calls0 := [vkAllocateDescriptorSets (mDescriptorPool r) dsl] in
  match mShaders r with
  | [] => (r', calls0, OutOfRange)
  | shader0 :: _ =>
      let bindings := items_str shader0 in
      let writeDescriptorSets :=
        replicate (length bindings) VkWriteDescriptorSet_zero in
      match bindings, sets with
      | [], _ =>
          (r', calls0 ++ [vkUpdateDescriptorSets writeDescriptorSets], Returned)
      | _ :: _, [] => (r', calls0, OutOfRange)
      | _ :: _, set0 :: _ =>
          let i := 0%nat in
          let written :=
            write_loop set0 bufferInfo i writeDescriptorSets bindings in
          (r', calls0 ++ [vkUpdateDescriptorSets written], Returned)
      end
  end.

(** ** [finishRender] *)

Definition endRenderPass (drawCmd : Z) : list Call :=
  [vkCmdEndRenderPass drawCmd].

Definition endDrawCommandBuffer (drawCmd : Z) : list Call :=
  endRenderPass drawCmd ++ [vkEndCommandBuffer drawCmd].

(** The [VkSubmitInfo] of the draw command buffer. *)
Definition draw_submitInfo (r : State) (drawCmd : Z) : VkSubmitInfo :=
  let pipelineStages := [VK_PIPELINE_STAGE_BOTTOM_OF_PIPE_BIT] in
  {| pWaitSemaphores := [mSemaphorePresentComplete r];
     pWaitDstStageMask := pipelineStages;
     pCommandBuffers := [drawCmd];
     pSignalSemaphores := [mSemaphoreRenderComplete r] |}.

(** A [VkSubmitInfo] cleared with [{}] that carries one command buffer. *)
Definition plain_submitInfo (cmd : Z) : VkSubmitInfo :=
  {| pWaitSemaphores := []; pWaitDstStageMask := [];
     pCommandBuffers := [cmd]; pSignalSemaphores := [] |}.

(** [err] is the answer of the first [vkQueueSubmit], the one the code
    asserts on. *)
Definition finishRender (err : Z) (r : State) : list Call * Ending :=
  let idx := currentImageIndex r in
  match mDrawCmdBuffer r !! idx with
  | None => ([], OutOfRange)
  | Some drawCmd =>
      let calls1 :=
        endDrawCommandBuffer drawCmd
          ++ [Context_end;
              vkQueueSubmit (mQueue r) (draw_submitInfo r drawCmd)] in
      if decide (err ≠ VK_SUCCESS) then (calls1, AssertFailed)
      else
        let calls2 :=
          calls1 ++ [vkBeginCommandBuffer (mPrePresentCommandBuffer r)] in
        match swapchainImages r !! idx with
        | None => (calls2, OutOfRange)
        | Some imageRef =>
            let prePresent :=
              [vkCmdPipelineBarrier (mPrePresentCommandBuffer r)
                 VK_PIPELINE_STAGE_TOP_OF_PIPE_BIT
                 VK_PIPELINE_STAGE_TOP_OF_PIPE_BIT
                 (createImageBarrier imageRef VK_IMAGE_ASPECT_COLOR_BIT
                    VK_IMAGE_LAYOUT_COLOR_ATTACHMENT_OPTIMAL
                    VK_IMAGE_LAYOUT_PRESENT_SRC_KHR);
               vkEndCommandBuffer (mPrePresentCommandBuffer r);
               vkQueueSubmit (mQueue r)
                 (plain_submitInfo (mPrePresentCommandBuffer r))] in
            let present :=
              [Swapchain_queuePresent (mQueue r) idx
                 [mSemaphoreRenderComplete r]] in
            let postPresent :=
              [vkBeginCommandBuffer (mPostPresentCommandBuffer r);
               vkCmdPipelineBarrier (mPostPresentCommandBuffer r)
                 VK_PIPELINE_STAGE_ALL_COMMANDS_BIT
                 VK_PIPELINE_STAGE_TOP_OF_PIPE_BIT
                 (postPresentBarrier 0 VK_ACCESS_COLOR_ATTACHMENT_WRITE_BIT
                    VK_IMAGE_LAYOUT_PRESENT_SRC_KHR
                    VK_IMAGE_LAYOUT_COLOR_ATTACHMENT_OPTIMAL imageRef);
               vkEndCommandBuffer (mPostPresentCommandBuffer r);
               vkQueueSubmit (mQueue r)
                 (plain_submitInfo (mPostPresentCommandBuffer r));
               vkQueueWaitIdle (mQueue r)] in
            (calls2 ++ prePresent ++ present ++ postPresent, Returned)
        end
  end.

(** ** [draw] *)

(** What [of::vk::Context] answers during [draw]: the offset of the current
    matrix state, the vertex and index offsets [storeMesh] fills in for a
    mesh, and the buffer handle. *)
Record ContextAnswers := {
  getCurrentMatrixStateOffset : Z;
  storeMesh : ofMesh → list Z * list Z;
  getVkBuffer : Z
}.

Definition draw (c : ContextAnswers) (mesh_ : ofMesh) (r : State)
  : list Call * Ending :=
  let dynamicOffsets := [u32 (getCurrentMatrixStateOffset c)] in
  match mShaders r, mDescriptorSets r,
        mDrawCmdBuffer r !! currentImageIndex r, mPipelineLayouts r with
  | _ :: _, set0 :: _, Some cmd, pipelineLayout0 :: _ =>
      let currentlyBoundDescriptorsets := [set0] in
      let '(vertexOffsets, indexOffsets) := storeMesh c mesh_ in
      let bufferRefs := replicate (length vertexOffsets) (getVkBuffer c) in
      let calls1 :=
        [vkCmdBindDescriptorSets cmd VK_PIPELINE_BIND_POINT_GRAPHICS
           pipelineLayout0 0 currentlyBoundDescriptorsets dynamicOffsets;
         vkCmdBindPipeline cmd VK_PIPELINE_BIND_POINT_GRAPHICS
           (mPipelines_solid r);
         Context_storeMesh mesh_;
         vkCmdBindVertexBuffers cmd 0 bufferRefs vertexOffsets] in
      match indexOffsets with
      | [] =>
          (* non-indexed draw *)
          (calls1 ++ [vkCmdDraw cmd (u32 (getNumVertices mesh_)) 1 0 1],
           Returned)
      | indexOffset0 :: _ =>
          (* indexed draw *)
          match bufferRefs with
          | [] => (calls1, OutOfRange)
          | bufferRef0 :: _ =>
              (calls1
                 ++ [vkCmdBindIndexBuffer cmd bufferRef0 indexOffset0
                       VK_INDEX_TYPE_UINT32;
                     vkCmdDrawIndexed cmd (u32 (getNumIndices mesh_))
                       1 0 0 1],
               Returned)
          end
      end
  | _, _, _, _ => ([], OutOfRange)
  end.

(** ** Counting bindings *)

(** The descriptor type of every binding of every shader. *)
Definition binding_types (shaders : list (gmap string Binding)) : list Z :=
  shaders ≫= λ s, (λ b, descriptorType (layout b.2)) <$> map_to_list s.

(** How many entries of [ts] are [t]. *)
Definition occurrences (t : Z) (ts : list Z) : Z :=
  Z.of_nat (length (filter (λ x, x = t) ts)).

Definition sum_Z (l : list Z) : Z := foldr Z.add 0 l.

(** Sum of the descriptor counts of a list of pool sizes. *)
Definition total_count (sizes : list VkDescriptorPoolSize) : Z :=
  sum_Z (pool_descriptorCount <$> sizes).

(** The map [m] holds, for every type that occurs in [ts], how often it
    occurs, and nothing else; its values add up to the length of [ts]. *)
Definition tallies (m : gmap Z Z) (ts : list Z) : Prop :=
  (∀ t, m !! t = if decide (t ∈ ts) then Some (occurrences t ts) else None)
  ∧ sum_Z ((map_to_list m).*2) = Z.of_nat (length ts).

(** ** Reading traces *)

Definition is_draw_call (c : Call) : bool :=
  match c with
  | vkCmdDraw _ _ _ _ _ => true
  | vkCmdDrawIndexed _ _ _ _ _ _ => true
  | _ => false
  end.

Definition is_queue_call (c : Call) : bool :=
  match c with
  | vkQueueSubmit _ _ => true
  | Swapchain_queuePresent _ _ _ => true
  | _ => false
  end.

(** The command buffer a call records into, for the calls that record. *)
Definition command_buffer_of (c : Call) : option Z :=
  match c with
  | vkCmdEndRenderPass cmd => Some cmd
  | vkCmdPipelineBarrier cmd _ _ _ => Some cmd
  | vkCmdBindDescriptorSets cmd _ _ _ _ _ => Some cmd
  | vkCmdBindPipeline cmd _ _ => Some cmd
  | vkCmdBindVertexBuffers cmd _ _ _ => Some cmd
  | vkCmdDraw cmd _ _ _ _ => Some cmd
  | vkCmdBindIndexBuffer cmd _ _ _ => Some cmd
  | vkCmdDrawIndexed cmd _ _ _ _ _ => Some cmd
  | _ => None
  end.

Definition is_present (c : Call) : bool :=
  match c with
  | Swapchain_queuePresent _ _ _ => true
  | _ => false
  end.

Definition is_barrier (c : Call) : bool :=
  match c with
  | vkCmdPipelineBarrier _ _ _ _ => true
  | _ => false
  end.

End Renderer.

(* ===================================================================== *)
(** * ofVkRenderer: device memory *)
(* ===================================================================== *)

Module Device.
Import Cxx Vk.

Record VkMemoryRequirements := {
  mem_size : Z;
  mem_alignment : Z;
  memoryTypeBits : Z
}.

Record VkMemoryType := {
  propertyFlags : Z;
  heapIndex : Z
}.

(** [memoryTypes] is the array of [VK_MAX_MEMORY_TYPES] entries, of which the
    first [memoryTypeCount] are meaningful. *)
Record VkPhysicalDeviceMemoryProperties := {
  memoryTypeCount : Z;
  memoryTypes : list VkMemoryType
}.

Record VkMemoryAllocateInfo := {
  mai_sType : Z;
  mai_pNext : Z;
  allocationSize : Z;
  memoryTypeIndex : Z
}.

Definition VK_STRUCTURE_TYPE_MEMORY_ALLOCATE_INFO : Z := 5.
Definition VK_MEMORY_PROPERTY_DEVICE_LOCAL_BIT : Z := 1.
Definition VK_MEMORY_PROPERTY_HOST_VISIBLE_BIT : Z := 2.

(** How [getMemoryAllocationInfo] ends: it returns a flag, its [assert]
    fails, or it runs into behaviour C++ leaves undefined (a shift by 32 or
    more, an index outside [memoryTypes]). *)
Inductive Outcome :=
| Returns (b : bool)
| AssertFails
| Undefined.

(** Where the search loop leaves [memoryTypeIndex]. *)
Inductive Search :=
| Stopped (memoryTypeIndex : Z)
| Strayed.

(** The [for] loop over the memory types; [remaining] counts the iterations
    left before [memoryTypeIndex] reaches [memoryTypeCount]. *)
Fixpoint search_type (props : VkPhysicalDeviceMemoryProperties)
  (memReqs : VkMemoryRequirements) (memProps : Z)
  (remaining : nat) (memoryTypeIndex : Z) : Search :=
  match remaining with
  | O => Stopped memoryTypeIndex
  | S remaining' =>
      if decide (32 ≤ memoryTypeIndex) then Strayed
      else if decide (Z.land (memoryTypeBits memReqs)
                             (u32 (Z.shiftl 1 memoryTypeIndex)) ≠ 0)
      then
        match memoryTypes props !! Z.to_nat memoryTypeIndex with
        | None => Strayed
        | Some t =>
            if decide (Z.land (propertyFlags t) memProps = memProps)
            then Stopped memoryTypeIndex
            else search_type props memReqs memProps remaining'
                             (u32 (memoryTypeIndex + 1))
        end
      else search_type props memReqs memProps remaining'
                       (u32 (memoryTypeIndex + 1))
  end.

Definition getMemoryAllocationInfo (props : VkPhysicalDeviceMemoryProperties)
  (memReqs : VkMemoryRequirements) (memProps : Z)
  (memInfo : VkMemoryAllocateInfo) : VkMemoryAllocateInfo * Outcome :=
  if decide (mem_size memReqs = 0) then
    ({| mai_sType := VK_STRUCTURE_TYPE_MEMORY_ALLOCATE_INFO; mai_pNext := 0;
        allocationSize := 0; memoryTypeIndex := u32 (-1) |},
     Returns true)
  else
    let untouched :=
      {| mai_sType := VK_STRUCTURE_TYPE_MEMORY_ALLOCATE_INFO; mai_pNext := 0;
         allocationSize := allocationSize memInfo;
         memoryTypeIndex := memoryTypeIndex memInfo |} in
    match search_type props memReqs memProps
                      (Z.to_nat (memoryTypeCount props)) 0 with
    | Strayed => (untouched, Undefined)
    | Stopped i =>
        if decide (memoryTypeCount props ≤ i)
        then (untouched, AssertFails)
        else
          ({| mai_sType := VK_STRUCTURE_TYPE_MEMORY_ALLOCATE_INFO;
              mai_pNext := 0;
              allocationSize := mem_size memReqs;
              memoryTypeIndex := i |},
           Returns true)
    end.

(** ** Vocabulary *)

(** Memory type [i] is allowed by the requirements and has every property
    asked for. *)
Definition suitable (props : VkPhysicalDeviceMemoryProperties)
  (memReqs : VkMemoryRequirements) (memProps : Z) (i : Z) : Prop :=
  Z.testbit (memoryTypeBits memReqs) i = true
  ∧ ∃ t, memoryTypes props !! Z.to_nat i = Some t
         ∧ Z.land (propertyFlags t) memProps = memProps.

End Device.

(* ===================================================================== *)
(** * ofVkRenderer: command buffers, framebuffers and the start of a frame *)
(* ===================================================================== *)

Module Frame.
Import Cxx Vk.

(** Floating point values are only handed on, never computed with: a value
    is a literal or the conversion of an unsigned integer. *)
Inductive float :=
| float_0
| float_1
| float_of_uint32 (z : Z).

Record Viewport := {
  vp_x : float;
  vp_y : float;
  vp_width : float;
  vp_height : float
}.

Record VkViewport := {
  x : float;
  y : float;
  width : float;
  height : float;
  minDepth : float;
  maxDepth : float
}.

Record VkRect2D := {
  offset_x : Z;
  offset_y : Z;
  extent_width : Z;
  extent_height : Z
}.

Record VkRenderPassBeginInfo := {
  renderPass : Z;
  framebuffer : Z;
  renderArea : VkRect2D;
  clearColor : list float;
  clearDepthStencil : float * Z
}.

Record VkFramebufferCreateInfo := {
  fb_renderPass : Z;
  fb_attachments : list Z;
  fb_width : Z;
  fb_height : Z;
  fb_layers : Z
}.

(** Calls that leave the translation unit: those of [Renderer.Call] and the
    ones the functions below add. *)
Inductive Call :=
| known (c : Renderer.Call)
| vkFreeCommandBuffers (pool : Z) (buffers : list Z)
| vkAllocateCommandBuffers (pool : Z) (commandBufferCount : Z)
| vkCreateFramebuffer (info : VkFramebufferCreateInfo)
| Swapchain_acquireNextImage (semaphore : Z)
| vkResetCommandBuffer (cmd flags : Z)
| Context_begin (swapIdx : nat)
| vkCmdSetViewport (cmd : Z) (viewport : VkViewport)
| vkCmdSetScissor (cmd : Z) (scissor : VkRect2D)
| vkCmdBeginRenderPass (cmd : Z) (info : VkRenderPassBeginInfo).

(** Members of [ofVkRenderer] beside those of [Renderer.State].
    [swapchainViews] stands for [mSwapchain.getImage(i).view]. *)
Record Members := {
  mCommandPool : Z;
  mSetupCommandBuffer : Z;
  mFrameBuffers : list Z;
  mRenderPass : Z;
  mWindowWidth : Z;
  mWindowHeight : Z;
  mViewport : Viewport;
  mDefaultClearColor : list float;
  mDepthStencil_view : Z;
  swapchainViews : list Z
}.

Definition VK_NULL_HANDLE : Z := 0.

Definition with_mSetupCommandBuffer (h : Z) (m : Members) : Members :=
  {| mCommandPool := mCommandPool m; mSetupCommandBuffer := h;
     mFrameBuffers := mFrameBuffers m; mRenderPass := mRenderPass m;
     mWindowWidth := mWindowWidth m; mWindowHeight := mWindowHeight m;
     mViewport := mViewport m; mDefaultClearColor := mDefaultClearColor m;
     mDepthStencil_view := mDepthStencil_view m;
     swapchainViews := swapchainViews m |}.

Definition with_mFrameBuffers (fbs : list Z) (m : Members) : Members :=
  {| mCommandPool := mCommandPool m;
     mSetupCommandBuffer := mSetupCommandBuffer m;
     mFrameBuffers := fbs; mRenderPass := mRenderPass m;
     mWindowWidth := mWindowWidth m; mWindowHeight := mWindowHeight m;
     mViewport := mViewport m; mDefaultClearColor := mDefaultClearColor m;
     mDepthStencil_view := mDepthStencil_view m;
     swapchainViews := swapchainViews m |}.

(** The renderer state after the swapchain acquired image [idx] and with
    [cmds] as draw command buffers. *)
Definition with_frame (idx : nat) (cmds : list Z) (r : Renderer.State)
  : Renderer.State :=
  {| Renderer.mShaders := Renderer.mShaders r;
     Renderer.mDescriptorSetLayouts := Renderer.mDescriptorSetLayouts r;
     Renderer.mDescriptorSets := Renderer.mDescriptorSets r;
     Renderer.mDescriptorPool := Renderer.mDescriptorPool r;
     Renderer.mPipelineLayouts := Renderer.mPipelineLayouts r;
     Renderer.mPipelines_solid := Renderer.mPipelines_solid r;
     Renderer.mQueue := Renderer.mQueue r;
     Renderer.mSemaphorePresentComplete :=
       Renderer.mSemaphorePresentComplete r;
     Renderer.mSemaphoreRenderComplete := Renderer.mSemaphoreRenderComplete r;
     Renderer.mDrawCmdBuffer := cmds;
     Renderer.mPrePresentCommandBuffer := Renderer.mPrePresentCommandBuffer r;
     Renderer.mPostPresentCommandBuffer :=
       Renderer.mPostPresentCommandBuffer r;
     Renderer.currentImageIndex := idx;
     Renderer.swapchainImages := Renderer.swapchainImages r |}.

(** ** The setup command buffer *)

(** [allocated] is the handle [vkAllocateCommandBuffers] leaves in
    [mSetupCommandBuffer], [vkRes] the answer of [vkBeginCommandBuffer]. *)
Definition createSetupCommandBuffer (allocated vkRes : Z) (m : Members)
  : Members * list Call * Renderer.Ending :=
  let freed :=
    if decide (mSetupCommandBuffer m ≠ VK_NULL_HANDLE)
    then [vkFreeCommandBuffers (mCommandPool m) [mSetupCommandBuffer m]]
    else [] in
  (with_mSetupCommandBuffer allocated m,
   freed ++ [vkAllocateCommandBuffers (mCommandPool m) 1;
             known (Renderer.vkBeginCommandBuffer allocated)],
   if decide (vkRes ≠ VK_SUCCESS) then Renderer.AssertFailed
   else Renderer.Returned).

(** [errEnd], [errSubmit] and [errWait] are the answers of
    [vkEndCommandBuffer], [vkQueueSubmit] and [vkQueueWaitIdle]. *)
Definition flushSetupCommandBuffer (errEnd errSubmit errWait : Z)
  (mQueue : Z) (m : Members) : Members * list Call * Renderer.Ending :=
  if decide (mSetupCommandBuffer m = VK_NULL_HANDLE)
  then (m, [], Renderer.Returned)
  else
    let buf := mSetupCommandBuffer m in
    let calls1 := [known (Renderer.vkEndCommandBuffer buf)] in
    if decide (errEnd ≠ VK_SUCCESS) then (m, calls1, Renderer.AssertFailed)
    else
      let calls2 :=
        calls1
          ++ [known (Renderer.vkQueueSubmit mQueue
                       (Renderer.plain_submitInfo buf))] in
      if decide (errSubmit ≠ VK_SUCCESS)
      then (m, calls2, Renderer.AssertFailed)
      else
        let calls3 := calls2 ++ [known (Renderer.vkQueueWaitIdle mQueue)] in
        if decide (errWait ≠ VK_SUCCESS)
        then (m, calls3, Renderer.AssertFailed)
        else
          (with_mSetupCommandBuffer VK_NULL_HANDLE m,
           calls3 ++ [vkFreeCommandBuffers (mCommandPool m) [buf]],
           Renderer.Returned).

(** ** [setupFrameBuffer] *)

(** The loop over the frame buffers; [remaining] counts the iterations left,
    [answer i] is the result and the handle the [i]-th
    [vkCreateFramebuffer] answers with. *)
Fixpoint create_framebuffers (answer : nat → Z * Z) (m : Members)
  (remaining : nat) (i : nat) (fbs : list Z) (calls : list Call)
  : list Z * list Call * Renderer.Ending :=
  match remaining with
  | O => (fbs, calls, Renderer.Returned)
  | S remaining' =>
      match swapchainViews m !! i with
      | None => (fbs, calls, Renderer.OutOfRange)
      | Some view =>
          let frameBufferCreateInfo :=
            {| fb_renderPass := mRenderPass m;
               fb_attachments := [view; mDepthStencil_view m];
               fb_width := mWindowWidth m;
               fb_height := mWindowHeight m;
               fb_layers := 1 |} in
          let fbs' := <[i := (answer i).2]> fbs in
          let calls' := calls ++ [vkCreateFramebuffer frameBufferCreateInfo] in
          if decide ((answer i).1 ≠ VK_SUCCESS)
          then (fbs', calls', Renderer.AssertFailed)
          else create_framebuffers answer m remaining' (S i) fbs' calls'
      end
  end.

(** [imageCount] stands for [mSwapchain.getImageCount()]. *)
Definition setupFrameBuffer (answer : nat → Z * Z) (imageCount : nat)
  (m : Members) : Members * list Call * Renderer.Ending :=
  let resized := resize_vec imageCount 0 (mFrameBuffers m) in
  let '(fbs, calls, ending) :=
    create_framebuffers answer m (length resized) 0 resized [] in
  (with_mFrameBuffers fbs m, calls, ending).

(** ** [startRender] *)

Definition beginRenderPass (m : Members) (cmdBuf_ frameBuf_ : Z) : list Call :=
  let renderArea :=
    {| offset_x := 0; offset_y := 0;
       extent_width := mWindowWidth m; extent_height := mWindowHeight m |} in
  [vkCmdBeginRenderPass cmdBuf_
     {| renderPass := mRenderPass m;
        framebuffer := frameBuf_;
        renderArea := renderArea;
        clearColor := mDefaultClearColor m;
        clearDepthStencil := (float_1, 0) |}].

Definition beginDrawCommandBuffer (m : Members) (r : Renderer.State)
  (cmdBuf_ : Z) : list Call * Renderer.Ending :=
  let viewport :=
    {| x := float_0; y := float_0;
       width := vp_width (mViewport m);
       height := vp_height (mViewport m);
       minDepth := float_0; maxDepth := float_1 |} in
  let scissor :=
    {| offset_x := 0; offset_y := 0;
       extent_width := mWindowWidth m; extent_height := mWindowHeight m |} in
  let calls :=
    [known (Renderer.vkBeginCommandBuffer cmdBuf_);
     vkCmdSetViewport cmdBuf_ viewport;
     vkCmdSetScissor cmdBuf_ scissor] in
  match mFrameBuffers m !! Renderer.currentImageIndex r with
  | None => (calls, Renderer.OutOfRange)
  | Some frameBuf => (calls ++ beginRenderPass m cmdBuf_ frameBuf,
                      Renderer.Returned)
  end.

(** What the world answers during [startRender]: the result of
    [acquireNextImage] and the index it returns, and the handles
    [vkAllocateCommandBuffers] writes. *)
Record StartAnswers := {
  acquire_err : Z;
  acquire_index : nat;
  allocated_buffers : list Z
}.

(** Modelled from the spec: [Swapchain] is not part of the translation unit;
    its current image index is the index the last acquire returned ("Frame
    Index ... mutated once per frame by acquire"), and its image count is the
    number of its images. *)
Definition startRender (a : StartAnswers) (m : Members) (r : Renderer.State)
  : Renderer.State * list Call * Renderer.Ending :=
  let swapIdx := acquire_index a in
  let calls0 :=
    [Swapchain_acquireNextImage (Renderer.mSemaphorePresentComplete r)] in
  let r0 := with_frame swapIdx (Renderer.mDrawCmdBuffer r) r in
  if decide (acquire_err a ≠ VK_SUCCESS)
  then (r0, calls0, Renderer.AssertFailed)
  else
    let imageCount := length (Renderer.swapchainImages r) in
    let prepared :=
      if decide (length (Renderer.mDrawCmdBuffer r) = imageCount)
      then
        (* if command buffer has been previously recorded, re-use it *)
        match Renderer.mDrawCmdBuffer r !! swapIdx with
        | None => None
        | Some cmd =>
            Some (Renderer.mDrawCmdBuffer r, [vkResetCommandBuffer cmd 0])
        end
      else
        (* allocate a draw command buffer for each swapchain image *)
        let resized := resize_vec imageCount 0 (Renderer.mDrawCmdBuffer r) in
        Some (Renderer.written_over (allocated_buffers a) resized,
              [vkAllocateCommandBuffers (mCommandPool m)
                 (u32 (Z.of_nat (length resized)))]) in
    match prepared with
    | None => (r0, calls0, Renderer.OutOfRange)
    | Some (cmds, calls1) =>
        let r1 := with_frame swapIdx cmds r in
        let calls2 := calls0 ++ calls1 ++ [Context_begin swapIdx] in
        match cmds !! swapIdx with
        | None => (r1, calls2, Renderer.OutOfRange)
        | Some cmd =>
            let '(calls3, ending) := beginDrawCommandBuffer m r1 cmd in
            (r1, calls2 ++ calls3, ending)
        end
    end.

(** ** Frames *)

(** What the world answers during one frame: the answers to [startRender]
    and the result of the draw submission in [finishRender]. *)
Record FrameAnswers := {
  start : StartAnswers;
  submit_err : Z
}.

(** One frame without drawing: [startRender], then [finishRender]. *)
Definition frame (a : FrameAnswers) (m : Members) (r : Renderer.State)
  : Renderer.State * list Call * Renderer.Ending :=
  let '(r1, calls1, ending1) := startRender (start a) m r in
  match ending1 with
  | Renderer.Returned =>
      let '(calls2, ending2) := Renderer.finishRender (submit_err a) r1 in
      (r1, calls1 ++ (known <$> calls2), ending2)
  | _ => (r1, calls1, ending1)
  end.

(** Frame after frame, until one does not return. *)
Fixpoint frames (answers : list FrameAnswers) (m : Members)
  (r : Renderer.State) : Renderer.State * list Call * Renderer.Ending :=
  match answers with
  | [] => (r, [], Renderer.Returned)
  | a :: rest =>
      let '(r1, calls1, ending1) := frame a m r in
      match ending1 with
      | Renderer.Returned =>
          let '(r2, calls2, ending2) := frames rest m r1 in
          (r2, calls1 ++ calls2, ending2)
      | _ => (r1, calls1, ending1)
      end
  end.

(** ** Reading traces *)

Definition is_allocation (c : Call) : bool :=
  match c with
  | vkAllocateCommandBuffers _ _ => true
  | _ => false
  end.

Definition freed_buffers (c : Call) : list Z :=
  match c with
  | vkFreeCommandBuffers _ bufs => bufs
  | _ => []
  end.

(** One step in the life of the setup command buffer. *)
Inductive SetupStep :=
| Create (allocated vkRes : Z)
| Flush (errEnd errSubmit errWait : Z).

(** A sequence of steps, until one does not return; the handles that were
    allocated are collected beside the calls. *)
Fixpoint setup_steps (steps : list SetupStep) (mQueue : Z) (m : Members)
  : Members * list Call * list Z * Renderer.Ending :=
  match steps with
  | [] => (m, [], [], Renderer.Returned)
  | st :: rest =>
      let '(m1, calls1, ending1) :=
        match st with
        | Create allocated vkRes => createSetupCommandBuffer allocated vkRes m
        | Flush e1 e2 e3 => flushSetupCommandBuffer e1 e2 e3 mQueue m
        end in
      let handles1 :=
        match st with
        | Create allocated _ => [allocated]
        | Flush _ _ _ => []
        end in
      match ending1 with
      | Renderer.Returned =>
          let '(m2, calls2, handles2, ending2) := setup_steps rest mQueue m1 in
          (m2, calls1 ++ calls2, handles1 ++ handles2, ending2)
      | _ => (m1, calls1, handles1, ending1)
      end
  end.

(** The setup command buffer that is held, if any. *)
Definition live_setup_buffer (m : Members) : list Z :=
  if decide (mSetupCommandBuffer m ≠ VK_NULL_HANDLE)
  then [mSetupCommandBuffer m] else [].

(** The handles of [hs] that are not [VK_NULL_HANDLE]. *)
Definition non_null (hs : list Z) : list Z :=
  filter (λ h, h ≠ VK_NULL_HANDLE) hs.

(** The [vkCreateFramebuffer] call of the loop iteration that sees the image
    view [view]. *)
Definition framebuffer_call (m : Members) (view : Z) : Call :=
  vkCreateFramebuffer
    {| fb_renderPass := mRenderPass m;
       fb_attachments := [view; mDepthStencil_view m];
       fb_width := mWindowWidth m;
       fb_height := mWindowHeight m;
       fb_layers := 1 |}.

End Frame.

(* ===================================================================== *)
(** * ofVkRenderer: the depth stencil image *)
(* ===================================================================== *)

Module Depth.
Import Cxx Vk.

Definition VK_IMAGE_TYPE_2D : Z := 1.
Definition VK_SAMPLE_COUNT_1_BIT : Z := 1.
Definition VK_IMAGE_TILING_OPTIMAL : Z := 0.
Definition VK_IMAGE_USAGE_TRANSFER_SRC_BIT : Z := 1.
Definition VK_IMAGE_USAGE_DEPTH_STENCIL_ATTACHMENT_BIT : Z := 32.
Definition VK_IMAGE_VIEW_TYPE_2D : Z := 1.
Definition VK_IMAGE_ASPECT_DEPTH_BIT : Z := 2.
Definition VK_IMAGE_ASPECT_STENCIL_BIT : Z := 4.
Definition VK_IMAGE_LAYOUT_UNDEFINED : Z := 0.
Definition VK_IMAGE_LAYOUT_DEPTH_STENCIL_ATTACHMENT_OPTIMAL : Z := 3.

Record VkImageCreateInfo := {
  imageType : Z;
  img_format : Z;
  extent : Z * Z * Z;
  mipLevels : Z;
  arrayLayers : Z;
  samples : Z;
  tiling : Z;
  usage : Z;
  img_flags : Z
}.

Record VkImageViewCreateInfo := {
  viewType : Z;
  view_format : Z;
  view_flags : Z;
  aspectMask : Z;
  baseMipLevel : Z;
  levelCount : Z;
  baseArrayLayer : Z;
  layerCount : Z;
  view_image : Z
}.

(** The member [mDepthStencil]. *)
Record DepthStencil := {
  image : Z;
  mem : Z;
  view : Z
}.

Inductive Call :=
| known (c : Renderer.Call)
| vkCreateImage (info : VkImageCreateInfo)
| vkGetImageMemoryRequirements (image : Z)
| vkAllocateMemory (info : Device.VkMemoryAllocateInfo)
| vkBindImageMemory (image mem offset : Z)
| vkCreateImageView (info : VkImageViewCreateInfo).

(** The members of [ofVkRenderer] that [setupDepthStencil] touches. *)
Record Members := {
  mDepthFormat : Z;
  mWindowWidth : Z;
  mWindowHeight : Z;
  mSetupCommandBuffer : Z;
  mPhysicalDeviceMemoryProperties : Device.VkPhysicalDeviceMemoryProperties;
  mDepthStencil : DepthStencil
}.

Definition with_mDepthStencil (d : DepthStencil) (m : Members) : Members :=
  {| mDepthFormat := mDepthFormat m; mWindowWidth := mWindowWidth m;
     mWindowHeight := mWindowHeight m;
     mSetupCommandBuffer := mSetupCommandBuffer m;
     mPhysicalDeviceMemoryProperties := mPhysicalDeviceMemoryProperties m;
     mDepthStencil := d |}.

(** What the driver answers: the result of each call and the handle or the
    requirements it writes. *)
Record Answers := {
  err_image : Z;
  new_image : Z;
  memReqs : Device.VkMemoryRequirements;
  err_alloc : Z;
  new_mem : Z;
  err_bind : Z;
  err_view : Z;
  new_view : Z
}.

(** [memInfo] is the local [VkMemoryAllocateInfo memInfo;], which the
    function declares without initialising it. *)
Definition setupDepthStencil (a : Answers)
  (memInfo : Device.VkMemoryAllocateInfo) (m : Members)
  : Members * list Call * Renderer.Ending :=
  let image_ :=
    {| imageType := VK_IMAGE_TYPE_2D;
       img_format := mDepthFormat m;
       extent := (mWindowWidth m, mWindowHeight m, 1);
       mipLevels := 1;
       arrayLayers := 1;
       samples := VK_SAMPLE_COUNT_1_BIT;
       tiling := VK_IMAGE_TILING_OPTIMAL;
       usage := Z.lor VK_IMAGE_USAGE_DEPTH_STENCIL_ATTACHMENT_BIT
                      VK_IMAGE_USAGE_TRANSFER_SRC_BIT;
       img_flags := 0 |} in
  let depthStencilView (image_handle : Z) :=
    {| viewType := VK_IMAGE_VIEW_TYPE_2D;
       view_format := mDepthFormat m;
       view_flags := 0;
       aspectMask := Z.lor VK_IMAGE_ASPECT_DEPTH_BIT
                           VK_IMAGE_ASPECT_STENCIL_BIT;
       baseMipLevel := 0;
       levelCount := 1;
       baseArrayLayer := 0;
       layerCount := 1;
       view_image := image_handle |} in
  let d1 := {| image := new_image a; mem := mem (mDepthStencil m);
               view := view (mDepthStencil m) |} in
  let calls1 := [vkCreateImage image_] in
  if decide (err_image a ≠ VK_SUCCESS)
  then (with_mDepthStencil d1 m, calls1, Renderer.AssertFailed)
  else
    let calls2 := calls1 ++ [vkGetImageMemoryRequirements (image d1)] in
    let '(memInfo', outcome) :=
      Device.getMemoryAllocationInfo (mPhysicalDeviceMemoryProperties m)
        (memReqs a) Device.VK_MEMORY_PROPERTY_DEVICE_LOCAL_BIT memInfo in
    match outcome with
    | Device.AssertFails =>
        (with_mDepthStencil d1 m, calls2, Renderer.AssertFailed)
    | Device.Undefined =>
        (with_mDepthStencil d1 m, calls2, Renderer.OutOfRange)
    | Device.Returns _ =>
        let d2 := {| image := image d1; mem := new_mem a; view := view d1 |} in
        let calls3 := calls2 ++ [vkAllocateMemory memInfo'] in
        if decide (err_alloc a ≠ VK_SUCCESS)
        then (with_mDepthStencil d2 m, calls3, Renderer.AssertFailed)
        else
          let calls4 := calls3 ++ [vkBindImageMemory (image d2) (mem d2) 0] in
          if decide (err_bind a ≠ VK_SUCCESS)
          then (with_mDepthStencil d2 m, calls4, Renderer.AssertFailed)
          else
            let transferBarrier :=
              Renderer.createImageBarrier (image d2)
                (Z.lor VK_IMAGE_ASPECT_DEPTH_BIT VK_IMAGE_ASPECT_STENCIL_BIT)
                VK_IMAGE_LAYOUT_UNDEFINED
                VK_IMAGE_LAYOUT_DEPTH_STENCIL_ATTACHMENT_OPTIMAL in
            (* Append pipeline barrier to current setup commandBuffer *)
            let calls5 :=
              calls4
                ++ [known (Renderer.vkCmdPipelineBarrier
                             (mSetupCommandBuffer m)
                             VK_PIPELINE_STAGE_TOP_OF_PIPE_BIT
                             VK_PIPELINE_STAGE_TOP_OF_PIPE_BIT
                             transferBarrier)] in
            let d3 := {| image := image d2; mem := mem d2;
                         view := new_view a |} in
            (with_mDepthStencil d3 m,
             calls5 ++ [vkCreateImageView (depthStencilView (image d2))],
             if decide (err_view a ≠ VK_SUCCESS) then Renderer.AssertFailed
             else Renderer.Returned)
    end.

End Depth.

(* ===================================================================== *)
(** * Concrete inputs *)
(* ===================================================================== *)

Module Examples.
Import Cxx Vk.

(** A uniform-buffer binding as the renderer sees it. *)
Definition ubo_binding_at (b : Z) : Renderer.Binding :=
  {| Renderer.layout :=
       {| binding := b;
          descriptorType := VK_DESCRIPTOR_TYPE_UNIFORM_BUFFER_DYNAMIC;
          descriptorCount := 1;
          stageFlags := VK_SHADER_STAGE_VERTEX_BIT;
          pImmutableSamplers := 0 |} |}.

(** A shader with two uniform blocks. *)
Definition two_blocks : gmap string Renderer.Binding :=
  <["DefaultMatrices" := ubo_binding_at 0]>
    (<["Style" := ubo_binding_at 1]> ∅).

(** A renderer with one shader, one descriptor set layout, two swapchain
    images and the second one current. *)
Definition renderer0 : Renderer.State :=
  {| Renderer.mShaders := [two_blocks];
     Renderer.mDescriptorSetLayouts := [71];
     Renderer.mDescriptorSets := [81];
     Renderer.mDescriptorPool := 60;
     Renderer.mPipelineLayouts := [91];
     Renderer.mPipelines_solid := 92;
     Renderer.mQueue := 10;
     Renderer.mSemaphorePresentComplete := 21;
     Renderer.mSemaphoreRenderComplete := 22;
     Renderer.mDrawCmdBuffer := [31; 32];
     Renderer.mPrePresentCommandBuffer := 41;
     Renderer.mPostPresentCommandBuffer := 42;
     Renderer.currentImageIndex := 1;
     Renderer.swapchainImages := [51; 52] |}.

(** A mesh without indices and one with indices. *)
Definition triangle : Renderer.ofMesh :=
  {| Renderer.getNumVertices := 3; Renderer.getNumIndices := 0 |}.

Definition quad : Renderer.ofMesh :=
  {| Renderer.getNumVertices := 4; Renderer.getNumIndices := 6 |}.

(** A context that stores positions and colours, and the indices when the
    mesh has some. *)
Definition context0 : Renderer.ContextAnswers :=
  {| Renderer.getCurrentMatrixStateOffset := 256;
     Renderer.storeMesh := λ m,
       ([0; 1024],
        if decide (Renderer.getNumIndices m = 0) then [] else [2048]);
     Renderer.getVkBuffer := 95 |}.

(** *** Stand-ins for the library functions, for evaluation *)

(** A polynomial hash in place of SpookyHash. *)
Definition toy_hash (msg : list Z) (seed : Z) : Z :=
  foldl (λ h b, (h * 31 + b) mod 2 ^ 64) seed msg.

(** A sort that honours the contract of [std::sort]. *)
Definition merge_sort_by (comp : Shader.BindingInfo → Shader.BindingInfo → bool)
  (l : list Shader.BindingInfo) : list Shader.BindingInfo :=
  @merge_sort _ (λ a b, comp b a = false)
    (λ a b, decide (comp b a = false)) l.

(** Alignment holes that happen to hold zeroes, and holes that hold what
    was on the stack. *)
Definition zero_holes (i : nat) : list Z * list Z :=
  ([0; 0; 0; 0], [0; 0; 0; 0]).

Definition stale_holes (i : nat) : list Z * list Z :=
  ([222; 173; 190; 239], [0; 0; 0; 0]).

(** *** Bindings and layouts *)

Definition ubo_layout_binding (b count flags : Z)
  : VkDescriptorSetLayoutBinding :=
  {| binding := b;
     descriptorType := VK_DESCRIPTOR_TYPE_UNIFORM_BUFFER_DYNAMIC;
     descriptorCount := count;
     stageFlags := flags;
     pImmutableSamplers := 0 |}.

Definition matrices_info : Shader.BindingInfo :=
  {| Shader.bi_set := 0;
     Shader.bi_binding := ubo_layout_binding 0 1 VK_SHADER_STAGE_VERTEX_BIT;
     Shader.bi_size := 192;
     Shader.bi_name := "DefaultMatrices";
     Shader.bi_memberRanges :=
       <["projectionMatrix" :=
           {| Shader.ur_offset := 0; Shader.ur_range := 64 |}]> ∅ |}.

(** The same binding with another name and another member table. *)
Definition matrices_info_renamed : Shader.BindingInfo :=
  {| Shader.bi_set := 0;
     Shader.bi_binding := ubo_layout_binding 0 1 VK_SHADER_STAGE_VERTEX_BIT;
     Shader.bi_size := 192;
     Shader.bi_name := "Matrices";
     Shader.bi_memberRanges :=
       <["modelMatrix" :=
           {| Shader.ur_offset := 64; Shader.ur_range := 64 |}]> ∅ |}.


Definition layout_of (b : Shader.BindingInfo) : Shader.SetLayout :=
  {| Shader.bindings := [b]; Shader.key := 0 |}.

(** *** Uniform blocks as spirv-cross reports them *)

Definition matrices_block : Shader.UboResource :=
  {| Shader.ubo_name := "DefaultMatrices";
     Shader.ubo_set := Some 0;
     Shader.ubo_binding := Some 0;
     Shader.ubo_size := 192;
     Shader.ubo_members := ["projectionMatrix"; "modelMatrix"; "viewMatrix"];
     Shader.ubo_ranges :=
       [("projectionMatrix",
         {| Shader.ur_offset := 0; Shader.ur_range := 64 |})] |}.

Definition style_block : Shader.UboResource :=
  {| Shader.ubo_name := "Style";
     Shader.ubo_set := Some 0;
     Shader.ubo_binding := Some 1;
     Shader.ubo_size := 16;
     Shader.ubo_members := ["globalColor"];
     Shader.ubo_ranges :=
       [("globalColor", {| Shader.ur_offset := 0; Shader.ur_range := 16 |})] |}.

(** A block in descriptor set 2, while no block is in set 1. *)
Definition lights_block : Shader.UboResource :=
  {| Shader.ubo_name := "Lights";
     Shader.ubo_set := Some 2;
     Shader.ubo_binding := Some 0;
     Shader.ubo_size := 64;
     Shader.ubo_members := ["position"];
     Shader.ubo_ranges :=
       [("position", {| Shader.ur_offset := 0; Shader.ur_range := 16 |})] |}.

(** A freshly constructed shader with a vertex and a fragment source. *)
Definition shader0 : Shader.State :=
  {| Shader.mSources :=
       <[VK_SHADER_STAGE_VERTEX_BIT := "vert.spv"]>
         (<[VK_SHADER_STAGE_FRAGMENT_BIT := "frag.spv"]> ∅);
     Shader.mModules := ∅;
     Shader.mStages := [];
     Shader.mSpvCrossCompilers := ∅;
     Shader.mSpvHash := ∅;
     Shader.mUniforms := ∅;
     Shader.mVertexInfo :=
       {| Shader.attribute := []; Shader.bindingDescription := [];
          Shader.vi_counts := (0, 0) |};
     Shader.mDescriptorSetLayoutKeys := [];
     Shader.storedLayouts := [];
     Shader.log := [];
     Shader.steps := [] |}.

(** A shader whose blocks live in descriptor sets 0 and 2. *)
Definition shader_sets_0_2 : Shader.State :=
  Shader.discover
    [(matrices_block, VK_SHADER_STAGE_VERTEX_BIT);
     (lights_block, VK_SHADER_STAGE_VERTEX_BIT)] shader0.

Definition buildSetLayouts0 : Shader.State → Shader.State :=
  Shader.buildSetLayouts toy_hash merge_sort_by zero_holes.

(** The same blocks found in two different orders: the vertex stage first,
    or the fragment stage first. *)
Definition found_vertex_first : list (Shader.UboResource * Z) :=
  [(matrices_block, VK_SHADER_STAGE_VERTEX_BIT);
   (style_block, VK_SHADER_STAGE_VERTEX_BIT);
   (matrices_block, VK_SHADER_STAGE_FRAGMENT_BIT)].

Definition found_fragment_first : list (Shader.UboResource * Z) :=
  [(matrices_block, VK_SHADER_STAGE_FRAGMENT_BIT);
   (matrices_block, VK_SHADER_STAGE_VERTEX_BIT);
   (style_block, VK_SHADER_STAGE_VERTEX_BIT)].

(** A block named like [matrices_block] but declared at binding 3. *)
Definition matrices_block_moved : Shader.UboResource :=
  {| Shader.ubo_name := "DefaultMatrices";
     Shader.ubo_set := Some 0;
     Shader.ubo_binding := Some 3;
     Shader.ubo_size := 192;
     Shader.ubo_members := ["projectionMatrix"; "modelMatrix"; "viewMatrix"];
     Shader.ubo_ranges :=
       [("projectionMatrix",
         {| Shader.ur_offset := 0; Shader.ur_range := 64 |})] |}.

(** *** Files on disk *)

(** A world in which every shader file is a SPIR-V binary with the bytes
    [bytes], module creation succeeds, and the module declares the block
    [DefaultMatrices]. *)
Definition env_with (bytes : list Z) : Shader.Env :=
  {| Shader.file_exists := λ _, true;
     Shader.file_extension := λ _, "spv";
     Shader.ofBufferFromFile := λ _, bytes;
     Shader.CompileGlslToSpv := λ _ _ _, None;
     Shader.vkCreateShaderModule := λ _, (VK_SUCCESS, 500);
     Shader.get_shader_resources := λ _,
       {| Shader.uniform_buffers := [matrices_block];
          Shader.stage_inputs := [] |} |}.

Definition binary_A : list Z := [3; 2; 35; 7; 0; 0; 1; 0].
Definition binary_B : list Z := [3; 2; 35; 7; 0; 0; 1; 1].

(** A shader with a vertex source only. *)
Definition shader1 : Shader.State :=
  {| Shader.mSources := <[VK_SHADER_STAGE_VERTEX_BIT := "vert.spv"]> ∅;
     Shader.mModules := ∅;
     Shader.mStages := [];
     Shader.mSpvCrossCompilers := ∅;
     Shader.mSpvHash := ∅;
     Shader.mUniforms := ∅;
     Shader.mVertexInfo :=
       {| Shader.attribute := []; Shader.bindingDescription := [];
          Shader.vi_counts := (0, 0) |};
     Shader.mDescriptorSetLayoutKeys := [];
     Shader.storedLayouts := [];
     Shader.log := [];
     Shader.steps := [] |}.

Definition setup0 : Shader.Env → Shader.State → Shader.State :=
  Shader.setup toy_hash merge_sort_by zero_holes.

End Examples.

(* ===================================================================== *)
(** * More concrete inputs *)
(* ===================================================================== *)

Module Examples2.
Import Cxx Vk.

(** A device with three memory types: host visible, device local, and
    both. *)
Definition three_types : Device.VkPhysicalDeviceMemoryProperties :=
  {| Device.memoryTypeCount := 3;
     Device.memoryTypes :=
       [{| Device.propertyFlags := 2; Device.heapIndex := 1 |};
        {| Device.propertyFlags := 1; Device.heapIndex := 0 |};
        {| Device.propertyFlags := 3; Device.heapIndex := 0 |}] |}.

(** An image of 4 MiB that may live in memory types 1 and 2. *)
Definition depth_image_reqs : Device.VkMemoryRequirements :=
  {| Device.mem_size := 4194304; Device.mem_alignment := 256;
     Device.memoryTypeBits := 6 |}.

Definition blank_allocate_info : Device.VkMemoryAllocateInfo :=
  {| Device.mai_sType := 0; Device.mai_pNext := 0;
     Device.allocationSize := 77; Device.memoryTypeIndex := 88 |}.

(** Members of a renderer with a window of 800 by 600 and two swapchain
    images, before any frame buffer exists. *)
Definition members0 : Frame.Members :=
  {| Frame.mCommandPool := 11;
     Frame.mSetupCommandBuffer := 0;
     Frame.mFrameBuffers := [];
     Frame.mRenderPass := 12;
     Frame.mWindowWidth := 800;
     Frame.mWindowHeight := 600;
     Frame.mViewport :=
       {| Frame.vp_x := Frame.float_0; Frame.vp_y := Frame.float_0;
          Frame.vp_width := Frame.float_of_uint32 800;
          Frame.vp_height := Frame.float_of_uint32 600 |};
     Frame.mDefaultClearColor :=
       [Frame.float_0; Frame.float_0; Frame.float_0; Frame.float_1];
     Frame.mDepthStencil_view := 13;
     Frame.swapchainViews := [61; 62] |}.

(** Every frame buffer creation succeeds; the [i]-th handle is [200 + i]. *)
Definition framebuffer_answers (i : nat) : Z * Z :=
  (VK_SUCCESS, 200 + Z.of_nat i).

(** The second creation fails. *)
Definition framebuffer_answers_failing (i : nat) : Z * Z :=
  (if decide (i = 1%nat) then -1 else VK_SUCCESS, 200 + Z.of_nat i).

(** The members once both frame buffers exist. *)
Definition members1 : Frame.Members :=
  (Frame.setupFrameBuffer framebuffer_answers 2 members0).1.1.

(** A renderer that has not allocated draw command buffers yet. *)
Definition renderer_fresh : Renderer.State :=
  Frame.with_frame 0 [] Examples.renderer0.

(** Answers of two frames: image 1 is acquired, then image 0; the first
    frame's allocation yields the buffers 31 and 32. *)
Definition two_frames : list Frame.FrameAnswers :=
  [{| Frame.start :=
        {| Frame.acquire_err := VK_SUCCESS; Frame.acquire_index := 1;
           Frame.allocated_buffers := [31; 32] |};
      Frame.submit_err := VK_SUCCESS |};
   {| Frame.start :=
        {| Frame.acquire_err := VK_SUCCESS; Frame.acquire_index := 0;
           Frame.allocated_buffers := [33; 34] |};
      Frame.submit_err := VK_SUCCESS |}].

(** The setup command buffer is created twice in a row, then flushed
    twice. *)
Definition setup_buffer_steps : list Frame.SetupStep :=
  [Frame.Create 501 VK_SUCCESS; Frame.Create 502 VK_SUCCESS;
   Frame.Flush VK_SUCCESS VK_SUCCESS VK_SUCCESS;
   Frame.Flush VK_SUCCESS VK_SUCCESS VK_SUCCESS].

(** *** The depth stencil image *)

Definition depth_members : Depth.Members :=
  {| Depth.mDepthFormat := 129;
     Depth.mWindowWidth := 800;
     Depth.mWindowHeight := 600;
     Depth.mSetupCommandBuffer := 501;
     Depth.mPhysicalDeviceMemoryProperties := three_types;
     Depth.mDepthStencil :=
       {| Depth.image := 0; Depth.mem := 0; Depth.view := 0 |} |}.

(** Every call succeeds. *)
Definition depth_answers : Depth.Answers :=
  {| Depth.err_image := VK_SUCCESS; Depth.new_image := 301;
     Depth.memReqs := depth_image_reqs;
     Depth.err_alloc := VK_SUCCESS; Depth.new_mem := 302;
     Depth.err_bind := VK_SUCCESS;
     Depth.err_view := VK_SUCCESS; Depth.new_view := 303 |}.

(** *** Shaders *)

(** A world without shader files. *)
Definition env_missing : Shader.Env :=
  {| Shader.file_exists := λ _, false;
     Shader.file_extension := λ _, "spv";
     Shader.ofBufferFromFile := λ _, [];
     Shader.CompileGlslToSpv := λ _ _ _, None;
     Shader.vkCreateShaderModule := λ _, (VK_SUCCESS, 500);
     Shader.get_shader_resources := λ _,
       {| Shader.uniform_buffers := []; Shader.stage_inputs := [] |} |}.

(** A world of GLSL sources that do not compile. *)
Definition env_broken_glsl : Shader.Env :=
  {| Shader.file_exists := λ _, true;
     Shader.file_extension := λ _, "vert";
     Shader.ofBufferFromFile := λ _, [35; 118];
     Shader.CompileGlslToSpv := λ _ _ _, None;
     Shader.vkCreateShaderModule := λ _, (VK_SUCCESS, 500);
     Shader.get_shader_resources := λ _,
       {| Shader.uniform_buffers := []; Shader.stage_inputs := [] |} |}.

(** A SPIR-V file of ten bytes: two words and two bytes over. *)
Definition ten_bytes : list Z := [3; 2; 35; 7; 0; 0; 1; 0; 11; 0].

(** The shader with a vertex source, after its binary was loaded in the
    world [Examples.env_with Examples.binary_A]. *)
Definition shader_loaded : Shader.State :=
  Examples.setup0 (Examples.env_with Examples.binary_A) Examples.shader1.

(** A shader that holds the block [Lights] from an earlier reflection and a
    vertex module. *)
Definition shader_with_lights : Shader.State :=
  Shader.with_module VK_SHADER_STAGE_VERTEX_BIT 500 [119734787; 65536]
    (Shader.discover [(Examples.lights_block, VK_SHADER_STAGE_VERTEX_BIT)]
       Examples.shader0).

(** Two vertex inputs: a vec3 without location decoration and a vec4 at
    location 3. *)
Definition position_input : Shader.StageInput :=
  {| Shader.si_name := "inPos"; Shader.si_location := None;
     Shader.si_width := 32; Shader.si_vecsize := 3; Shader.si_columns := 1 |}.

Definition colour_input : Shader.StageInput :=
  {| Shader.si_name := "inColor"; Shader.si_location := Some 3;
     Shader.si_width := 32; Shader.si_vecsize := 4; Shader.si_columns := 1 |}.

Definition vertex_resources : Shader.ShaderResources :=
  {| Shader.uniform_buffers := [];
     Shader.stage_inputs := [position_input; colour_input] |}.

End Examples2.

(* ===================================================================== *)
(** * Facts about the C++ building blocks *)
(* ===================================================================== *)

(** Case analysis on membership in a list that is written out. *)
Ltac explicit_elem H :=
  repeat (apply elem_of_cons in H as [H | H]);
  [.. | by apply elem_of_nil in H].

Section CxxFacts.
Import Cxx.

Lemma items_Z_perm {V : Type} (m : gmap Z V) : items_Z m ≡ₚ map_to_list m.
Proof. apply merge_sort_Permutation. Qed.

Lemma items_str_perm {V : Type} (m : gmap string V) :
  items_str m ≡ₚ map_to_list m.
Proof. apply merge_sort_Permutation. Qed.

Lemma items_str_length {V : Type} (m : gmap string V) :
  length (items_str m) = size m.
Proof. by rewrite items_str_perm, length_map_to_list. Qed.

Lemma items_Z_length {V : Type} (m : gmap Z V) :
  length (items_Z m) = size m.
Proof. by rewrite items_Z_perm, length_map_to_list. Qed.

Lemma resize_vec_length {A : Type} (n : nat) (d : A) (v : list A) :
  length (resize_vec n d v) = n.
Proof.
  unfold resize_vec. rewrite length_app, length_take, length_replicate.
  destruct (Nat.min_spec n (length v)) as [[? ->]|[? ->]]; lia.
Qed.

Lemma u32_small z : 0 ≤ z < 2 ^ 32 → u32 z = z.
Proof. intros Hz. unfold u32. by apply Z.mod_small. Qed.

Lemma le_bytes_length n z : length (le_bytes n z) = n.
Proof. revert z. induction n as [|n IH]; intros z; simpl; [done|]. by rewrite IH. Qed.

#[local] Instance key_le_Z_total {V : Type} : Total (@key_le Z V Z.le).
Proof. intros a b. unfold key_le. lia. Qed.

#[local] Instance key_le_Z_trans {V : Type} : Transitive (@key_le Z V Z.le).
Proof. intros a b c. unfold key_le. lia. Qed.

Lemma StronglySorted_le_NoDup_lt (l : list Z) :
  StronglySorted Z.le l → NoDup l → StronglySorted Z.lt l.
Proof.
  induction 1 as [|x l Hl IH Hx]; intros Hnd; [constructor|].
  apply NoDup_cons in Hnd as [Hnin Hnd].
  constructor; [by apply IH|].
  apply Forall_forall. intros y Hy.
  rewrite Forall_forall in Hx. specialize (Hx y Hy).
  assert (x ≠ y) by (intros ->; done). lia.
Qed.

Lemma StronglySorted_lt_NoDup (l : list Z) :
  StronglySorted Z.lt l → NoDup l.
Proof.
  induction 1 as [|x l Hl IH Hx]; [constructor|].
  apply NoDup_cons. split; [|done].
  intros Hin. rewrite Forall_forall in Hx. specialize (Hx x Hin). lia.
Qed.

(** The keys of a [std::map] come out strictly ascending. *)
Lemma items_Z_keys_sorted {V : Type} (m : gmap Z V) :
  StronglySorted Z.lt ((items_Z m).*1).
Proof.
  apply StronglySorted_le_NoDup_lt.
  - apply (StronglySorted_fmap fst (key_le Z.le) Z.le); [by intros ??|].
    apply Sorted_StronglySorted; [apply _|].
    apply Sorted_merge_sort. apply _.
  - rewrite items_Z_perm. apply NoDup_fst_map_to_list.
Qed.

Lemma items_Z_elem {V : Type} (m : gmap Z V) (k : Z) (v : V) :
  (k, v) ∈ items_Z m ↔ m !! k = Some v.
Proof. rewrite items_Z_perm. apply elem_of_map_to_list. Qed.

Lemma items_Z_key_elem {V : Type} (m : gmap Z V) (k : Z) :
  k ∈ (items_Z m).*1 ↔ is_Some (m !! k).
Proof.
  rewrite list_elem_of_fmap. split.
  - intros ([k' v] & -> & Hin). apply items_Z_elem in Hin. by exists v.
  - intros [v Hv]. exists (k, v). split; [done|]. by apply items_Z_elem.
Qed.

(** Mapping over the values of a [std::map] keeps the order of its keys. *)
Lemma items_Z_keys_fmap {V W : Type} (f : V → W) (m : gmap Z V) :
  (items_Z (f <$> m)).*1 = (items_Z m).*1.
Proof.
  apply (StronglySorted_unique_strong Z.lt).
  - intros; lia.
  - apply items_Z_keys_sorted.
  - apply items_Z_keys_sorted.
  - rewrite !items_Z_perm, map_to_list_fmap, <- list_fmap_compose.
    rewrite (list_fmap_ext (fst ∘ prod_map id f) fst (map_to_list m));
      [done|by intros ? [??]].
Qed.

Lemma items_str_elem {V : Type} (m : gmap string V) (k : string) (v : V) :
  (k, v) ∈ items_str m ↔ m !! k = Some v.
Proof. rewrite items_str_perm. apply elem_of_map_to_list. Qed.

End CxxFacts.

(* ===================================================================== *)
(** * Facts about ofVkRenderer *)
(* ===================================================================== *)

Section RendererFacts.
Import Cxx Vk Renderer.

(** ** Surface format *)

(** C8. With a successful, non-empty answer of the driver the call returns;
    a single entry of format UNDEFINED makes the colour format
    B8G8R8A8_UNORM, in every other case the first listed format is taken. *)
Theorem querySurfaceCapabilities_choice
  (a : SurfaceAnswers) (old first : VkSurfaceFormatKHR)
  (rest : list VkSurfaceFormatKHR) :
  err_count a = VK_SUCCESS →
  err_formats a = VK_SUCCESS →
  surfaceFormats a = first :: rest →
  ∃ chosen lg,
    querySurfaceCapabilities a old = (chosen, lg, Returned)
    ∧ (rest = [] ∧ format first = VK_FORMAT_UNDEFINED →
       format chosen = VK_FORMAT_B8G8R8A8_UNORM)
    ∧ (¬ (rest = [] ∧ format first = VK_FORMAT_UNDEFINED) →
       format chosen = format first).
Proof.
  intros Hc Hf Hl. unfold querySurfaceCapabilities. rewrite Hl, Hc, Hf.
  case_decide as H1; [by destruct H1|].
  case_decide as H2; [done|].
  eexists _, _. split; [reflexivity|]. cbn [format].
  case_decide as H3.
  - split; [done|]. intros Hneg. destruct Hneg. destruct H3 as [Hn Hu].
    split; [|done]. destruct rest; [done|]. simpl in Hn. lia.
  - split; [|done]. intros [-> Hu]. destruct H3. by split.
Qed.

Lemma querySurfaceCapabilities_choice_witness :
  ∃ chosen lg,
    querySurfaceCapabilities
      {| presentSupported := true; err_count := 0; err_formats := 0;
         surfaceFormats := [{| format := 0; colorSpace := 0 |}] |}
      {| format := 7; colorSpace := 7 |} = (chosen, lg, Returned)
    ∧ (@nil VkSurfaceFormatKHR = [] ∧ 0 = VK_FORMAT_UNDEFINED →
       format chosen = VK_FORMAT_B8G8R8A8_UNORM)
    ∧ (¬ (@nil VkSurfaceFormatKHR = [] ∧ 0 = VK_FORMAT_UNDEFINED) →
       format chosen = 0).
Proof.
  apply (querySurfaceCapabilities_choice
           {| presentSupported := true; err_count := 0; err_formats := 0;
              surfaceFormats := [{| format := 0; colorSpace := 0 |}] |}
           {| format := 7; colorSpace := 7 |}
           {| format := 0; colorSpace := 0 |} []); reflexivity.
Defined.

(** An empty format list or a failed counting call ends the process. *)
Lemma querySurfaceCapabilities_exit (a : SurfaceAnswers)
  (old : VkSurfaceFormatKHR) :
  err_count a ≠ VK_SUCCESS ∨ surfaceFormats a = [] →
  querySurfaceCapabilities a old = (old, [ErrNoValidFormat], Exited 1).
Proof.
  intros H. unfold querySurfaceCapabilities.
  destruct (decide (_ ∨ _)) as [_|Hn]; [done|].
  destruct Hn. destruct H as [? | ->]; [by left|by right].
Qed.

(** ** Descriptor writes *)

Lemma written_over_length {A : Type} (new old : list A) :
  length (written_over new old) = length old.
Proof.
  unfold written_over. rewrite length_take, length_app, length_drop.
  apply Nat.min_l. lia.
Qed.


Lemma write_loop_keeps_tail (dstSet_ pBufferInfo_ : Z)
  (bs : list (string * Binding)) (x : VkWriteDescriptorSet)
  (tl : list VkWriteDescriptorSet) :
  ∃ x', write_loop dstSet_ pBufferInfo_ 0 (x :: tl) bs = x' :: tl.
Proof.
  revert x. induction bs as [|b bs IH]; intros x; simpl; [by eexists|].
  apply IH.
Qed.

Lemma write_loop_last (dstSet_ pBufferInfo_ : Z)
  (bs : list (string * Binding)) (b : string * Binding)
  (x : VkWriteDescriptorSet) (tl : list VkWriteDescriptorSet) :
  write_loop dstSet_ pBufferInfo_ 0 (x :: tl) (bs ++ [b])
  = write_record dstSet_ pBufferInfo_ b :: tl.
Proof.
  unfold write_loop. rewrite foldl_app. simpl.
  destruct (write_loop_keeps_tail dstSet_ pBufferInfo_ bs x tl) as [x' Hx'].
  unfold write_loop in Hx'. by rewrite Hx'.
Qed.

(** C10. With more than one binding in the first shader, the array given to
    vkUpdateDescriptorSets has the record of the last binding visited at
    element 0 and value-initialised records everywhere else. *)
Theorem setupDescriptorSets_writes_element_zero
  (allocated : list Z) (bufferInfo : Z) (r : State)
  (shader0 : gmap string Binding) (others : list (gmap string Binding)) :
  mShaders r = shader0 :: others →
  (1 < size shader0)%nat →
  mDescriptorSetLayouts r ≠ [] →
  ∃ r' set0 lastb,
    last (items_str shader0) = Some lastb
    ∧ setupDescriptorSets allocated bufferInfo r
      = (r',
         [vkAllocateDescriptorSets (mDescriptorPool r)
            (mDescriptorSetLayouts r);
          vkUpdateDescriptorSets
            (write_record set0 bufferInfo lastb
               :: replicate (size shader0 - 1) VkWriteDescriptorSet_zero)],
         Returned).
Proof.
  intros Hs Hn Hl. unfold setupDescriptorSets. rewrite Hs.
  rewrite <- items_str_length in *.
  destruct (items_str shader0) as [|b0 bs] eqn:Hb using rev_ind;
    [simpl in Hn; lia|]. clear IHbs.
  rewrite last_snoc.
  set (sets := written_over allocated _).
  assert (Hlen : length sets = length (mDescriptorSetLayouts r)).
  { unfold sets. by rewrite written_over_length, resize_vec_length. }
  destruct sets as [|set0 sets'] eqn:Hsets.
  { destruct (mDescriptorSetLayouts r); [done|]. simpl in Hlen. lia. }
  eexists _, set0, b0. split; [done|].
  destruct bs as [|b1 bs]; [rewrite length_app in Hn; simpl in Hn; lia|].
  simpl app at 1. cbv iota beta.
  rewrite length_app. simpl length at 1.
  replace (S (length bs) + 1)%nat with (S (S (length bs))) by lia.
  simpl replicate.
  change (b1 :: bs ++ [b0]) with ((b1 :: bs) ++ [b0]).
  rewrite write_loop_last. simpl.
  rewrite Nat.sub_0_r. reflexivity.
Qed.

Lemma setupDescriptorSets_writes_element_zero_witness :
  ∃ r' set0 lastb,
    last (items_str Examples.two_blocks) = Some lastb
    ∧ setupDescriptorSets [81] 4096 Examples.renderer0
      = (r',
         [vkAllocateDescriptorSets 60 [71];
          vkUpdateDescriptorSets
            (write_record set0 4096 lastb
               :: replicate (size Examples.two_blocks - 1)
                    VkWriteDescriptorSet_zero)],
         Returned).
Proof.
  apply (setupDescriptorSets_writes_element_zero [81] 4096 Examples.renderer0
           Examples.two_blocks []);
    [reflexivity | vm_compute; lia | discriminate].
Defined.

(** ** Descriptor pool sizes *)

Lemma occurrences_nonneg t ts : 0 ≤ occurrences t ts.
Proof. unfold occurrences. lia. Qed.

Lemma occurrences_le_length t ts : occurrences t ts ≤ Z.of_nat (length ts).
Proof. unfold occurrences. pose proof (length_filter (λ x, x = t) ts). lia. Qed.

Lemma occurrences_absent t ts : t ∉ ts → occurrences t ts = 0.
Proof.
  intros Hn. unfold occurrences.
  induction ts as [|x ts IH]; [done|].
  apply not_elem_of_cons in Hn as [Hne Hn].
  rewrite filter_cons_False by done. by apply IH.
Qed.

Lemma occurrences_snoc_eq t ts : occurrences t (ts ++ [t]) = occurrences t ts + 1.
Proof.
  unfold occurrences. rewrite filter_app, length_app.
  rewrite filter_cons_True by done. simpl. lia.
Qed.

Lemma occurrences_snoc_ne t t' ts :
  t' ≠ t → occurrences t (ts ++ [t']) = occurrences t ts.
Proof.
  intros Hne. unfold occurrences. rewrite filter_app, length_app.
  rewrite filter_cons_False by done. simpl. lia.
Qed.

Lemma sum_Z_cons x l : sum_Z (x :: l) = x + sum_Z l.
Proof. reflexivity. Qed.

Lemma sum_Z_perm l1 l2 : l1 ≡ₚ l2 → sum_Z l1 = sum_Z l2.
Proof.
  induction 1 as [|x l1 l2 _ IH|x y l|l1 l2 l3 _ IH1 _ IH2]; simpl;
    [done|by rewrite IH|lia|by rewrite IH1].
Qed.

#[local] Instance sum_Z_proper : Proper ((≡ₚ) ==> (=)) sum_Z.
Proof. intros l1 l2. apply sum_Z_perm. Qed.

Lemma tallies_empty : tallies ∅ [].
Proof.
  split; [|by rewrite map_to_list_empty].
  intros t. rewrite lookup_empty. by rewrite decide_False by apply not_elem_of_nil.
Qed.

Lemma tallies_count_binding m ts b :
  tallies m ts →
  Z.of_nat (length ts) + 1 < 2 ^ 32 →
  tallies (count_binding m b) (ts ++ [descriptorType (layout b.2)]).
Proof.
  intros [Hlook Hsum] Hlen. unfold count_binding.
  set (t := descriptorType (layout b.2)).
  assert (Hother : ∀ t', t' ≠ t →
    (if decide (t' ∈ ts ++ [t]) then Some (occurrences t' (ts ++ [t])) else None)
    = m !! t').
  { intros t' Hne. rewrite Hlook, occurrences_snoc_ne by done.
    destruct (decide (t' ∈ ts)) as [Hin|Hin].
    - rewrite decide_True; [done|]. apply elem_of_app. by left.
    - rewrite decide_False; [done|]. intros [?|Hs]%elem_of_app; [done|].
      by apply list_elem_of_singleton in Hs. }
  assert (Hself : t ∈ ts ++ [t]).
  { apply elem_of_app. right. by apply list_elem_of_singleton. }
  pose proof (Hlook t) as Ht.
  destruct (m !! t) as [n|] eqn:Hm.
  - destruct (decide (t ∈ ts)) as [Hin|]; [|done].
    injection Ht as ->.
    pose proof (occurrences_nonneg t ts). pose proof (occurrences_le_length t ts).
    rewrite u32_small by lia. split.
    + intros t'. destruct (decide (t' = t)) as [->|Hne].
      * rewrite lookup_insert_eq, decide_True by done.
        by rewrite occurrences_snoc_eq.
      * rewrite lookup_insert_ne by done. by rewrite Hother.
    + rewrite <- insert_delete_eq.
      rewrite map_to_list_insert by apply lookup_delete_eq.
      rewrite <- (map_to_list_delete m t _ Hm) in Hsum.
      rewrite fmap_cons, sum_Z_cons in *. rewrite length_app. simpl in *. lia.
  - destruct (decide (t ∈ ts)) as [|Hnin]; [done|]. split.
    + intros t'. destruct (decide (t' = t)) as [->|Hne].
      * rewrite lookup_insert_eq, decide_True by done.
        by rewrite occurrences_snoc_eq, occurrences_absent.
      * rewrite lookup_insert_ne by done. by rewrite Hother.
    + rewrite map_to_list_insert by done.
      rewrite fmap_cons, sum_Z_cons, length_app. simpl. lia.
Qed.

Lemma tallies_count_bindings bs m seen :
  tallies m seen →
  Z.of_nat (length seen + length bs) < 2 ^ 32 →
  tallies (foldl count_binding m bs)
          (seen ++ ((λ b, descriptorType (layout b.2)) <$> bs)).
Proof.
  revert m seen. induction bs as [|b bs IH]; intros m seen Hm Hlen.
  - simpl. by rewrite app_nil_r.
  - simpl. rewrite cons_middle, app_assoc. apply IH.
    + apply tallies_count_binding; [done|]. simpl in Hlen. lia.
    + rewrite length_app. simpl in *. lia.
Qed.

Lemma tallies_count_shaders shaders m seen :
  tallies m seen →
  Z.of_nat
    (length seen
     + length (shaders ≫= λ s,
                 (λ b, descriptorType (layout b.2)) <$> items_str s))
  < 2 ^ 32 →
  tallies (foldl count_shader m shaders)
          (seen ++ (shaders ≫= λ s,
                      (λ b, descriptorType (layout b.2)) <$> items_str s)).
Proof.
  revert m seen. induction shaders as [|s shaders IH]; intros m seen Hm Hlen.
  - simpl. by rewrite app_nil_r.
  - rewrite bind_cons in *. rewrite app_assoc.
    rewrite length_app, length_fmap in Hlen. simpl foldl.
    apply IH.
    + unfold count_shader. apply tallies_count_bindings; [done|]. lia.
    + rewrite length_app, length_fmap. lia.
Qed.

Lemma iteration_types_perm (shaders : list (gmap string Binding)) :
  (shaders ≫= λ s, (λ b, descriptorType (layout b.2)) <$> items_str s)
  ≡ₚ binding_types shaders.
Proof.
  unfold binding_types. induction shaders as [|s shaders IH]; [done|].
  simpl. by rewrite IH, items_str_perm.
Qed.

Lemma tallies_perm m ts ts' : ts ≡ₚ ts' → tallies m ts → tallies m ts'.
Proof.
  intros Hp [Hlook Hsum]. split.
  - intros t. rewrite Hlook. unfold occurrences.
    destruct (decide (t ∈ ts)) as [Hin|Hin], (decide (t ∈ ts')) as [Hin'|Hin'].
    + by rewrite Hp.
    + destruct Hin'. by rewrite <- Hp.
    + destruct Hin. by rewrite Hp.
    + done.
  - by rewrite <- Hp.
Qed.

Lemma accumulate_fold (l : list (Z * Z)) (tc : list VkDescriptorPoolSize)
  (ms : Z) :
  (∀ x, x ∈ l → 0 ≤ x.2) →
  0 ≤ ms →
  ms + sum_Z (l.*2) < 2 ^ 32 →
  foldl accumulate (tc, ms) l
  = (tc ++ ((λ t, {| pool_type := t.1; pool_descriptorCount := t.2 |}) <$> l),
     ms + sum_Z (l.*2)).
Proof.
  revert tc ms. induction l as [|x l IH]; intros tc ms Hpos Hms Hsum.
  - simpl. by rewrite app_nil_r, Z.add_0_r.
  - rewrite fmap_cons, sum_Z_cons in Hsum.
    assert (0 ≤ x.2) by (apply Hpos; left).
    assert (0 ≤ sum_Z (l.*2)).
    { clear -Hpos. induction l as [|y l IHl]; [done|].
      rewrite fmap_cons, sum_Z_cons.
      assert (0 ≤ y.2) by (apply Hpos; right; left).
      assert (0 ≤ sum_Z (l.*2)); [|lia].
      apply IHl. intros z Hz. apply Hpos.
      apply elem_of_cons in Hz as [->|Hz]; [left|right; by right]. }
    simpl foldl. unfold accumulate at 2. simpl fst. simpl snd.
    rewrite u32_small by lia. rewrite IH.
    + rewrite !fmap_cons, sum_Z_cons, <- app_assoc. simpl. f_equal. lia.
    + intros z Hz. apply Hpos. by right.
    + lia.
    + lia.
Qed.

(** C6. The pool is created from one size per descriptor type that occurs
    among the bindings of all shaders, its count being the number of
    bindings of that type, and maxSets is the sum of those counts. *)
Theorem setupDescriptorPool_sizes (vkRes pool : Z) (r : State) :
  Z.of_nat (length (binding_types (mShaders r))) < 2 ^ 32 →
  ∃ info r' ending,
    setupDescriptorPool vkRes pool r
    = (r', [vkCreateDescriptorPool info], ending)
    ∧ (∀ t n,
         {| pool_type := t; pool_descriptorCount := n |} ∈ pPoolSizes info
         ↔ t ∈ binding_types (mShaders r)
           ∧ n = occurrences t (binding_types (mShaders r)))
    ∧ NoDup (pool_type <$> pPoolSizes info)
    ∧ maxSets info = total_count (pPoolSizes info)
    ∧ maxSets info = Z.of_nat (length (binding_types (mShaders r))).
Proof.
  intros Hlen. unfold setupDescriptorPool.
  eexists _, _, _. split; [reflexivity|].
  unfold descriptorPoolInfo.
  set (m := foldl count_shader ∅ (mShaders r)).
  assert (Hm : tallies m (binding_types (mShaders r))).
  { apply (tallies_perm _ _ _ (iteration_types_perm _)).
    apply (tallies_count_shaders (mShaders r) ∅ []); [apply tallies_empty|].
    simpl. by rewrite iteration_types_perm. }
  destruct Hm as [Hlook Hsum].
  assert (Hitems : ∀ t n, (t, n) ∈ items_Z m ↔ m !! t = Some n).
  { intros t n. rewrite items_Z_perm. apply elem_of_map_to_list. }
  rewrite accumulate_fold.
  - simpl. split; [|split; [|split]].
    + intros t n. rewrite list_elem_of_fmap. split.
      * intros [[t' n'] [Heq Hin]]. simpl in Heq. injection Heq as -> ->.
        apply Hitems in Hin. rewrite Hlook in Hin.
        destruct (decide (t' ∈ _)); [|done]. by injection Hin as <-.
      * intros [Hin ->]. exists (t, occurrences t (binding_types (mShaders r))).
        split; [done|]. apply Hitems. rewrite Hlook. by rewrite decide_True.
    + rewrite <- list_fmap_compose.
      rewrite (fmap_Permutation _ _ _ (items_Z_perm m)).
      apply (NoDup_fst_map_to_list m).
    + unfold total_count. rewrite <- list_fmap_compose. done.
    + by rewrite items_Z_perm.
  - intros [t n] Hin. apply Hitems in Hin. rewrite Hlook in Hin.
    destruct (decide (t ∈ _)); [|done]. injection Hin as <-.
    apply occurrences_nonneg.
  - done.
  - rewrite items_Z_perm, Hsum. lia.
Qed.

Lemma setupDescriptorPool_sizes_witness :
  ∃ info r' ending,
    setupDescriptorPool 0 61 Examples.renderer0
    = (r', [vkCreateDescriptorPool info], ending)
    ∧ (∀ t n,
         {| pool_type := t; pool_descriptorCount := n |} ∈ pPoolSizes info
         ↔ t ∈ binding_types [Examples.two_blocks]
           ∧ n = occurrences t (binding_types [Examples.two_blocks]))
    ∧ NoDup (pool_type <$> pPoolSizes info)
    ∧ maxSets info = total_count (pPoolSizes info)
    ∧ maxSets info = Z.of_nat (length (binding_types [Examples.two_blocks])).
Proof.
  apply (setupDescriptorPool_sizes 0 61 Examples.renderer0).
  vm_compute. reflexivity.
Defined.

(** Two dynamic uniform buffers: one pool size of count two, two sets. *)
Example descriptorPoolInfo_two_blocks :
  descriptorPoolInfo [Examples.two_blocks]
  = {| maxSets := 2; poolSizeCount := 1;
       pPoolSizes := [{| pool_type := 8; pool_descriptorCount := 2 |}] |}.
Proof. vm_compute. reflexivity. Qed.

(** ** Submission and presentation *)

(** C7. finishRender hands the draw command buffer to the graphics queue
    waiting on presentComplete at BOTTOM_OF_PIPE and signalling
    renderComplete; no queue call precedes that submission, every
    presentation in the trace comes after it, is for the current image and
    waits on renderComplete, and a successful submission is followed by that
    presentation. *)
Theorem finishRender_semaphore_order (err : Z) (r : State) (drawCmd : Z) :
  mDrawCmdBuffer r !! currentImageIndex r = Some drawCmd →
  ∃ pre post,
    (finishRender err r).1
    = pre
        ++ vkQueueSubmit (mQueue r)
             {| pWaitSemaphores := [mSemaphorePresentComplete r];
                pWaitDstStageMask := [VK_PIPELINE_STAGE_BOTTOM_OF_PIPE_BIT];
                pCommandBuffers := [drawCmd];
                pSignalSemaphores := [mSemaphoreRenderComplete r] |}
        :: post
    ∧ (∀ c, c ∈ pre → is_queue_call c = false)
    ∧ (∀ q i ws, Swapchain_queuePresent q i ws ∈ post →
         q = mQueue r ∧ i = currentImageIndex r
         ∧ ws = [mSemaphoreRenderComplete r])
    ∧ (err = VK_SUCCESS →
       is_Some (swapchainImages r !! currentImageIndex r) →
       (finishRender err r).2 = Returned
       ∧ Swapchain_queuePresent (mQueue r) (currentImageIndex r)
           [mSemaphoreRenderComplete r] ∈ post).
Proof.
  intros Hcmd. unfold finishRender. rewrite Hcmd.
  exists [vkCmdEndRenderPass drawCmd; vkEndCommandBuffer drawCmd; Context_end].
  assert (Hpre : ∀ c,
    c ∈ [vkCmdEndRenderPass drawCmd; vkEndCommandBuffer drawCmd; Context_end]
    → is_queue_call c = false).
  { intros c Hc. explicit_elem Hc; by subst c. }
  case_decide as Herr.
  - exists []. split; [reflexivity|]. split; [exact Hpre|].
    split; [intros q i ws Hin; by apply elem_of_nil in Hin|].
    intros Hok. by destruct Herr.
  - destruct (swapchainImages r !! currentImageIndex r) as [imageRef|] eqn:Hi.
    + eexists. split; [reflexivity|]. split; [exact Hpre|]. split.
      { intros q i ws Hin. explicit_elem Hin; by simplify_eq. }
      intros _ _. split; [done|].
      do 4 apply list_elem_of_further. apply list_elem_of_here.
    + eexists. split; [reflexivity|]. split; [exact Hpre|]. split.
      { intros q i ws Hin. explicit_elem Hin; by simplify_eq. }
      intros _ [? ?]. done.
Qed.

Lemma finishRender_semaphore_order_witness :
  ∃ pre post,
    (finishRender 0 Examples.renderer0).1
    = pre
        ++ vkQueueSubmit 10
             {| pWaitSemaphores := [21];
                pWaitDstStageMask := [VK_PIPELINE_STAGE_BOTTOM_OF_PIPE_BIT];
                pCommandBuffers := [32];
                pSignalSemaphores := [22] |}
        :: post
    ∧ (∀ c, c ∈ pre → is_queue_call c = false)
    ∧ (∀ q i ws, Swapchain_queuePresent q i ws ∈ post →
         q = 10 ∧ i = 1%nat ∧ ws = [22])
    ∧ (0 = VK_SUCCESS →
       is_Some (Renderer.swapchainImages Examples.renderer0 !! 1%nat) →
       (finishRender 0 Examples.renderer0).2 = Returned
       ∧ Swapchain_queuePresent 10 1 [22] ∈ post).
Proof.
  apply (finishRender_semaphore_order 0 Examples.renderer0 32). reflexivity.
Defined.

(** ** Drawing a mesh *)

(** The branch of draw is taken on the index offsets storeMesh filled in. *)
Lemma draw_branches_on_index_offsets
  (c : ContextAnswers) (mesh_ : ofMesh) (r : State) (cmd : Z) :
  mShaders r ≠ [] → mDescriptorSets r ≠ [] → mPipelineLayouts r ≠ [] →
  mDrawCmdBuffer r !! currentImageIndex r = Some cmd →
  ((storeMesh c mesh_).2 = [] →
   List.filter is_draw_call (draw c mesh_ r).1
   = [vkCmdDraw cmd (u32 (getNumVertices mesh_)) 1 0 1])
  ∧ ((storeMesh c mesh_).2 ≠ [] → (storeMesh c mesh_).1 ≠ [] →
     List.filter is_draw_call (draw c mesh_ r).1
     = [vkCmdDrawIndexed cmd (u32 (getNumIndices mesh_)) 1 0 0 1]).
Proof.
  intros Hs Hd Hp Hcmd. unfold draw. rewrite Hcmd.
  destruct (mShaders r) as [|sh shs]; [done|].
  destruct (mDescriptorSets r) as [|set0 sets]; [done|].
  destruct (mPipelineLayouts r) as [|pl pls]; [done|].
  destruct (storeMesh c mesh_) as [vertexOffsets indexOffsets]. simpl.
  split.
  - by intros ->.
  - intros Hi Hv. destruct indexOffsets as [|io ios]; [done|].
    by destruct vertexOffsets as [|vo vos].
Qed.

(** C9. When storeMesh reports index offsets exactly for the meshes that have
    indices, draw records exactly one draw call: a non-indexed draw of the
    mesh's vertex count for a mesh without indices, an indexed draw of the
    mesh's index count otherwise. *)
Theorem draw_records_one_draw_call
  (c : ContextAnswers) (mesh_ : ofMesh) (r : State) (cmd : Z) :
  (∀ m, (storeMesh c m).2 = [] ↔ getNumIndices m = 0) →
  (getNumIndices mesh_ ≠ 0 → (storeMesh c mesh_).1 ≠ []) →
  0 ≤ getNumVertices mesh_ < 2 ^ 32 →
  0 ≤ getNumIndices mesh_ < 2 ^ 32 →
  mShaders r ≠ [] → mDescriptorSets r ≠ [] → mPipelineLayouts r ≠ [] →
  mDrawCmdBuffer r !! currentImageIndex r = Some cmd →
  (draw c mesh_ r).2 = Returned
  ∧ List.filter is_draw_call (draw c mesh_ r).1
    = [if decide (getNumIndices mesh_ = 0)
       then vkCmdDraw cmd (getNumVertices mesh_) 1 0 1
       else vkCmdDrawIndexed cmd (getNumIndices mesh_) 1 0 0 1].
Proof.
  intros Hstore Hvert Hnv Hni Hs Hd Hp Hcmd. unfold draw. rewrite Hcmd.
  destruct (mShaders r) as [|sh shs]; [done|].
  destruct (mDescriptorSets r) as [|set0 sets]; [done|].
  destruct (mPipelineLayouts r) as [|pl pls]; [done|].
  specialize (Hstore mesh_).
  destruct (storeMesh c mesh_) as [vertexOffsets indexOffsets]. simpl in *.
  destruct indexOffsets as [|io ios].
  - assert (Hz : getNumIndices mesh_ = 0) by by apply Hstore.
    rewrite decide_True by done. simpl. by rewrite u32_small.
  - assert (Hz : getNumIndices mesh_ ≠ 0).
    { intros Hz. by apply Hstore in Hz. }
    rewrite decide_False by done.
    destruct vertexOffsets as [|vo vos]; [by destruct (Hvert Hz)|].
    simpl. by rewrite u32_small.
Qed.

Lemma draw_records_one_draw_call_witness :
  (draw Examples.context0 Examples.triangle Examples.renderer0).2 = Returned
  ∧ List.filter is_draw_call
      (draw Examples.context0 Examples.triangle Examples.renderer0).1
    = [if decide (getNumIndices Examples.triangle = 0)
       then vkCmdDraw 32 (getNumVertices Examples.triangle) 1 0 1
       else vkCmdDrawIndexed 32 (getNumIndices Examples.triangle) 1 0 0 1].
Proof.
  apply (draw_records_one_draw_call
           Examples.context0 Examples.triangle Examples.renderer0 32).
  - intros m. simpl. case_decide; split; done.
  - simpl. discriminate.
  - simpl. lia.
  - simpl. lia.
  - discriminate.
  - discriminate.
  - discriminate.
  - reflexivity.
Defined.

(** The same on a mesh with indices: one indexed draw of six indices. *)
Example draw_quad :
  List.filter is_draw_call
    (draw Examples.context0 Examples.quad Examples.renderer0).1
  = [vkCmdDrawIndexed 32 6 1 0 0 1].
Proof. reflexivity. Qed.

End RendererFacts.

(* ===================================================================== *)
(** * Facts about of::vk::Shader *)
(* ===================================================================== *)

Section ShaderFacts.
Import Cxx Vk Shader.

(** ** The hash of a SetLayout *)

Lemma same_pod_fields_toPOD (a b : BindingInfo) :
  same_pod_fields a b → toPOD a = toPOD b.
Proof.
  destruct a as [sa [ba ta ca fa pa] za na ma], b as [sb [bb tb cb fb pb] zb nb mb].
  unfold same_pod_fields, toPOD. simpl. intros (-> & -> & -> & -> & -> & -> & ->).
  reflexivity.
Qed.

Lemma toPOD_same_pod_fields (a b : BindingInfo) :
  toPOD a = toPOD b → same_pod_fields a b.
Proof.
  unfold toPOD, same_pod_fields. intros H. injection H as -> -> ->. done.
Qed.

(** Every element of the hashed vector takes 40 bytes when its two holes
    take 4 bytes each, as the layout of [BindingInfoPOD] has it. *)
Lemma object_bytes_length (holes : list Z * list Z) (p : BindingInfoPOD) :
  length holes.1 = 4%nat → length holes.2 = 4%nat →
  length (object_bytes holes p) = 40%nat.
Proof.
  intros H1 H2. unfold object_bytes.
  rewrite !length_app, !le_bytes_length, H1, H2. reflexivity.
Qed.

Example object_bytes_of_matrices :
  length (object_bytes (Examples.zero_holes 0)
            (toPOD Examples.matrices_info)) = 40%nat.
Proof. apply object_bytes_length; reflexivity. Qed.




(** The bytes in the alignment holes are part of the message. *)
Example holes_reach_the_hash :
  key (calculateHash Examples.toy_hash Examples.zero_holes
         (Examples.layout_of Examples.matrices_info))
  ≠ key (calculateHash Examples.toy_hash Examples.stale_holes
           (Examples.layout_of Examples.matrices_info)).
Proof. vm_compute. discriminate. Qed.

(** X18. For bindings as reflection makes them, with a descriptor count of
    one and no immutable samplers, agreement on set, binding,
    descriptorType, stageFlags and size is agreement on the hashed fields:
    two such layouts get the same key, whatever their names and member
    ranges. *)
Lemma calculateHash_reflected_bindings
  (Hash64 : list Z → Z → Z) (pod_padding : nat → list Z * list Z)
  (l1 l2 : SetLayout) :
  Forall reflected_binding (bindings l1) →
  Forall reflected_binding (bindings l2) →
  Forall2 same_five_fields (bindings l1) (bindings l2) →
  key (calculateHash Hash64 pod_padding l1)
  = key (calculateHash Hash64 pod_padding l2).
Proof.
  intros H1 H2 H. unfold calculateHash. simpl. do 2 f_equal.
  induction H as [|a b la lb Hab _ IH]; [done|].
  apply Forall_cons in H1 as [(_ & Hca & Hpa) H1].
  apply Forall_cons in H2 as [(_ & Hcb & Hpb) H2].
  simpl. rewrite (IH H1 H2). f_equal.
  apply same_pod_fields_toPOD.
  destruct Hab as (? & ? & ? & ? & ?).
  unfold same_pod_fields. rewrite Hca, Hcb, Hpa, Hpb. done.
Qed.

(** ** Reflection of uniform blocks *)

Lemma processResource_mUniforms (ubo : UboResource) (shaderStage : Z)
  (s : State) :
  mUniforms (processResource ubo shaderStage s)
  = <[ubo_name ubo :=
        merged_entry ubo shaderStage (mUniforms s !! ubo_name ubo)]>
      (mUniforms s).
Proof.
  unfold processResource, merged_entry.
  destruct (mUniforms s !! ubo_name ubo) as [e|]; [|reflexivity].
  case_decide; reflexivity.
Qed.

Lemma processResource_log (ubo : UboResource) (shaderStage : Z) (s : State) :
  ∃ warnings,
    log (processResource ubo shaderStage s)
    = log s ++ warnings
        ++ match mUniforms s !! ubo_name ubo with
           | Some e =>
               if decide (bi_set e ≠ default 0 (ubo_set ubo)
                          ∨ binding (bi_binding e)
                            ≠ default 0 (ubo_binding ubo))
               then [ErrIncompatibleBindings (ubo_name ubo)]
               else []
           | None => []
           end
    ∧ ∀ name, ErrIncompatibleBindings name ∉ warnings.
Proof.
  exists ((match ubo_set ubo with
           | Some _ => []
           | None => [WarnNoSetId (ubo_name ubo)]
           end)
          ++ (match ubo_binding ubo with
              | Some _ => []
              | None => [WarnNoBindingNumber (ubo_name ubo)]
              end)
          ++ NoticeUniformBlock (ubo_name ubo) (ubo_set ubo) (ubo_binding ubo)
               :: imap NoticeMember (ubo_members ubo)).
  split.
  - unfold processResource.
    destruct (mUniforms s !! ubo_name ubo) as [e|].
    + case_decide; cbn [log with_mUniforms with_log];
        by rewrite <- ?app_assoc.
    + cbn [log with_mUniforms with_log]. by rewrite <- ?app_assoc.
  - intros name Hin.
    apply elem_of_app in Hin as [Hin|Hin].
    { destruct (ubo_set ubo); explicit_elem Hin; discriminate. }
    apply elem_of_app in Hin as [Hin|Hin].
    { destruct (ubo_binding ubo); explicit_elem Hin; discriminate. }
    apply elem_of_cons in Hin as [Hin|Hin]; [discriminate|].
    apply elem_of_lookup_imap in Hin as (i & x & Heq & _). discriminate.
Qed.

(** C3. A uniform block found in two stages with the same name, set,
    binding and size (its descriptor type is always UNIFORM_BUFFER_DYNAMIC)
    ends up as one entry of mUniforms, visible from both stages: the stage
    mask is the bitwise OR of the two stages, the table grew by one entry,
    and no incompatibility was reported. *)
Theorem processResource_merges_stages
  (s : State) (ubo1 ubo2 : UboResource) (stage1 stage2 : Z) :
  mUniforms s !! ubo_name ubo1 = None →
  ubo_name ubo1 = ubo_name ubo2 →
  ubo_set ubo1 = ubo_set ubo2 →
  ubo_binding ubo1 = ubo_binding ubo2 →
  ubo_size ubo1 = ubo_size ubo2 →
  ∃ b,
    mUniforms (processResource ubo2 stage2 (processResource ubo1 stage1 s))
      !! ubo_name ubo1 = Some b
    ∧ stageFlags (bi_binding b) = Z.lor stage1 stage2
    ∧ bi_set b = default 0 (ubo_set ubo1)
    ∧ binding (bi_binding b) = default 0 (ubo_binding ubo1)
    ∧ descriptorType (bi_binding b) = VK_DESCRIPTOR_TYPE_UNIFORM_BUFFER_DYNAMIC
    ∧ bi_size b = u32 (ubo_size ubo1)
    ∧ size (mUniforms
              (processResource ubo2 stage2 (processResource ubo1 stage1 s)))
      = S (size (mUniforms s))
    ∧ ∀ name,
        ErrIncompatibleBindings name
          ∈ log (processResource ubo2 stage2 (processResource ubo1 stage1 s))
        → ErrIncompatibleBindings name ∈ log s.
Proof.
  intros Hfresh Hname Hset Hbinding Hsize.
  rewrite !processResource_mUniforms, <- Hname, Hfresh.
  rewrite !lookup_insert_eq, insert_insert_eq.
  eexists. split; [reflexivity|].
  split.
  { unfold merged_entry. cbn [bi_binding stageFlags bi_set binding].
    rewrite <- Hset, <- Hbinding.
    rewrite decide_False by (intros [?|?]; done). apply Z.lor_comm. }
  split; [unfold merged_entry; cbn [bi_set]; by rewrite Hset|].
  split; [unfold merged_entry; cbn [bi_binding binding]; by rewrite Hbinding|].
  split; [reflexivity|].
  split; [unfold merged_entry; cbn [bi_size]; by rewrite Hsize|].
  split; [by apply map_size_insert_None|].
  intros name Hin.
  destruct (processResource_log ubo2 stage2 (processResource ubo1 stage1 s))
    as (w2 & Hlog2 & Hw2).
  destruct (processResource_log ubo1 stage1 s) as (w1 & Hlog1 & Hw1).
  rewrite Hlog2, Hlog1 in Hin.
  rewrite processResource_mUniforms, <- Hname, Hfresh, lookup_insert_eq in Hin.
  unfold merged_entry in Hin. cbn [bi_set bi_binding binding] in Hin.
  rewrite <- Hset, <- Hbinding in Hin.
  rewrite decide_False in Hin by (intros [?|?]; done).
  rewrite !app_nil_r in Hin.
  apply elem_of_app in Hin as [Hin|Hin]; [|by destruct (Hw2 name)].
  apply elem_of_app in Hin as [Hin|Hin]; [done|by destruct (Hw1 name)].
Qed.

Lemma processResource_merges_stages_witness :
  ∃ b,
    mUniforms
      (processResource Examples.matrices_block VK_SHADER_STAGE_FRAGMENT_BIT
         (processResource Examples.matrices_block VK_SHADER_STAGE_VERTEX_BIT
            Examples.shader0))
      !! ubo_name Examples.matrices_block = Some b
    ∧ stageFlags (bi_binding b)
      = Z.lor VK_SHADER_STAGE_VERTEX_BIT VK_SHADER_STAGE_FRAGMENT_BIT
    ∧ bi_set b = default 0 (ubo_set Examples.matrices_block)
    ∧ binding (bi_binding b) = default 0 (ubo_binding Examples.matrices_block)
    ∧ descriptorType (bi_binding b) = VK_DESCRIPTOR_TYPE_UNIFORM_BUFFER_DYNAMIC
    ∧ bi_size b = u32 (ubo_size Examples.matrices_block)
    ∧ size (mUniforms
              (processResource Examples.matrices_block
                 VK_SHADER_STAGE_FRAGMENT_BIT
                 (processResource Examples.matrices_block
                    VK_SHADER_STAGE_VERTEX_BIT Examples.shader0)))
      = S (size (mUniforms Examples.shader0))
    ∧ ∀ name,
        ErrIncompatibleBindings name
          ∈ log (processResource Examples.matrices_block
                   VK_SHADER_STAGE_FRAGMENT_BIT
                   (processResource Examples.matrices_block
                      VK_SHADER_STAGE_VERTEX_BIT Examples.shader0))
        → ErrIncompatibleBindings name ∈ log Examples.shader0.
Proof.
  apply (processResource_merges_stages Examples.shader0
           Examples.matrices_block Examples.matrices_block
           VK_SHADER_STAGE_VERTEX_BIT VK_SHADER_STAGE_FRAGMENT_BIT);
    reflexivity.
Defined.

(** The merged entry of the example: visible from vertex and fragment stage,
    mask 17. *)
Example matrices_block_two_stages :
  (λ b, (bi_set b, binding (bi_binding b), stageFlags (bi_binding b),
         bi_size b))
  <$> (mUniforms
         (processResource Examples.matrices_block VK_SHADER_STAGE_FRAGMENT_BIT
            (processResource Examples.matrices_block VK_SHADER_STAGE_VERTEX_BIT
               Examples.shader0))
         !! "DefaultMatrices")
  = Some (0, 0, 17, 192).
Proof. vm_compute. reflexivity. Qed.

(** X17. A block of the same name at another set or binding: an error is
    logged and processing goes on; the later declaration replaces the
    earlier one, and the stage mask starts again from the later stage. *)
Lemma processResource_incompatible (s : State) (ubo : UboResource)
  (shaderStage : Z) (e : BindingInfo) :
  mUniforms s !! ubo_name ubo = Some e →
  bi_set e ≠ default 0 (ubo_set ubo)
  ∨ binding (bi_binding e) ≠ default 0 (ubo_binding ubo) →
  ErrIncompatibleBindings (ubo_name ubo)
    ∈ log (processResource ubo shaderStage s)
  ∧ ∃ b, mUniforms (processResource ubo shaderStage s) !! ubo_name ubo = Some b
         ∧ stageFlags (bi_binding b) = shaderStage
         ∧ bi_set b = default 0 (ubo_set ubo)
         ∧ binding (bi_binding b) = default 0 (ubo_binding ubo).
Proof.
  intros He Hbad. split.
  - destruct (processResource_log ubo shaderStage s) as (w & -> & _).
    rewrite He, decide_True by done.
    rewrite !elem_of_app. right. right. left.
  - rewrite processResource_mUniforms, He, lookup_insert_eq.
    eexists. split; [reflexivity|].
    unfold merged_entry. cbn [bi_binding stageFlags bi_set binding].
    by rewrite decide_True by done.
Qed.

(** Every entry reflection writes is a dynamic uniform buffer with a
    descriptor count of one and no immutable samplers. *)
Lemma processResource_reflected (ubo : UboResource) (shaderStage : Z)
  (s : State) :
  map_Forall (λ _, reflected_binding) (mUniforms s) →
  map_Forall (λ _, reflected_binding)
             (mUniforms (processResource ubo shaderStage s)).
Proof.
  intros Hs. rewrite processResource_mUniforms.
  apply map_Forall_insert_2; [|done]. by unfold reflected_binding.
Qed.

(** A block of one name declared at two bindings: the declaration found
    last wins, so the order of discovery shows in mUniforms. *)
Example incompatible_order_matters :
  (λ b, binding (bi_binding b))
    <$> (mUniforms
           (discover
              [(Examples.matrices_block, VK_SHADER_STAGE_VERTEX_BIT);
               (Examples.matrices_block_moved, VK_SHADER_STAGE_FRAGMENT_BIT)]
              Examples.shader0) !! "DefaultMatrices")
  = Some 3
  ∧ (λ b, binding (bi_binding b))
      <$> (mUniforms
             (discover
                [(Examples.matrices_block_moved, VK_SHADER_STAGE_FRAGMENT_BIT);
                 (Examples.matrices_block, VK_SHADER_STAGE_VERTEX_BIT)]
                Examples.shader0) !! "DefaultMatrices")
    = Some 0.
Proof. vm_compute. done. Qed.

(** ** Detecting a changed binary *)

Lemma with_log_nil (s : State) : with_log [] s = s.
Proof. destruct s. unfold with_log. simpl. by rewrite app_nil_r. Qed.

Lemma with_log_with_log (es es' : list LogEntry) (s : State) :
  with_log es' (with_log es s) = with_log (es ++ es') s.
Proof. unfold with_log. simpl. by rewrite app_assoc. Qed.

(** The first time a stage is loaded its hash is stored and the code counts
    as dirty. *)
Lemma isSpirCodeDirty_first_load (Hash64 : list Z → Z → Z)
  (shaderStage : Z) (spirCode : list Z) (s : State) :
  mSpvHash s !! shaderStage = None →
  isSpirCodeDirty Hash64 shaderStage spirCode s
  = (true,
     with_mSpvHash
       (<[shaderStage := Hash64 (spirv_bytes spirCode) 0]> (mSpvHash s)) s).
Proof. intros H. unfold isSpirCodeDirty. by rewrite H. Qed.

(** Later loads are compared with the stored hash, and the stored hash stays
    as it is. *)
Lemma isSpirCodeDirty_later_load (Hash64 : list Z → Z → Z)
  (shaderStage : Z) (spirCode : list Z) (s : State) (stored : Z) :
  mSpvHash s !! shaderStage = Some stored →
  isSpirCodeDirty Hash64 shaderStage spirCode s
  = (bool_decide (stored ≠ Hash64 (spirv_bytes spirCode) 0), s).
Proof. intros H. unfold isSpirCodeDirty. by rewrite H. Qed.

(** A binary whose hash equals the stored one is clean, and nothing
    changes. *)
Lemma isSpirCodeDirty_same_as_stored (Hash64 : list Z → Z → Z)
  (shaderStage : Z) (spirCode : list Z) (s : State) :
  mSpvHash s !! shaderStage = Some (Hash64 (spirv_bytes spirCode) 0) →
  isSpirCodeDirty Hash64 shaderStage spirCode s = (false, s).
Proof.
  intros H. rewrite (isSpirCodeDirty_later_load _ _ _ _ _ H).
  by rewrite bool_decide_eq_false_2 by (intros Hne; by apply Hne).
Qed.

(** C4, on the code. Load a stage for the first time with binary A, then
    with a binary B of another hash, then with B again: the third load finds
    the hash of A still stored and reports the unchanged binary as dirty. *)
Theorem isSpirCodeDirty_keeps_first_hash (Hash64 : list Z → Z → Z)
  (shaderStage : Z) (codeA codeB : list Z) (s : State) :
  mSpvHash s !! shaderStage = None →
  Hash64 (spirv_bytes codeA) 0 ≠ Hash64 (spirv_bytes codeB) 0 →
  ∃ s1 s2 s3,
    isSpirCodeDirty Hash64 shaderStage codeA s = (true, s1)
    ∧ isSpirCodeDirty Hash64 shaderStage codeB s1 = (true, s2)
    ∧ isSpirCodeDirty Hash64 shaderStage codeB s2 = (true, s3)
    ∧ mSpvHash s3 !! shaderStage = Some (Hash64 (spirv_bytes codeA) 0).
Proof.
  intros Hnone Hne.
  rewrite (isSpirCodeDirty_first_load _ _ _ _ Hnone).
  set (s1 := with_mSpvHash _ s).
  assert (H1 : mSpvHash s1 !! shaderStage
               = Some (Hash64 (spirv_bytes codeA) 0)).
  { unfold s1. simpl. apply lookup_insert_eq. }
  exists s1, s1, s1. split; [done|].
  rewrite (isSpirCodeDirty_later_load _ _ _ _ _ H1).
  by rewrite bool_decide_eq_true_2 by done.
Qed.

Lemma isSpirCodeDirty_keeps_first_hash_witness :
  ∃ s1 s2 s3,
    isSpirCodeDirty Examples.toy_hash VK_SHADER_STAGE_VERTEX_BIT [119734787]
      Examples.shader0 = (true, s1)
    ∧ isSpirCodeDirty Examples.toy_hash VK_SHADER_STAGE_VERTEX_BIT [119734788]
        s1 = (true, s2)
    ∧ isSpirCodeDirty Examples.toy_hash VK_SHADER_STAGE_VERTEX_BIT [119734788]
        s2 = (true, s3)
    ∧ mSpvHash s3 !! VK_SHADER_STAGE_VERTEX_BIT
      = Some (Examples.toy_hash (spirv_bytes [119734787]) 0).
Proof.
  apply (isSpirCodeDirty_keeps_first_hash Examples.toy_hash
           VK_SHADER_STAGE_VERTEX_BIT [119734787] [119734788]
           Examples.shader0).
  - reflexivity.
  - vm_compute. discriminate.
Defined.

(** The same through [setup]: the binary on disk changes from A to B before
    the second call and stays B for the third; the third call rebuilds the
    module, reflects and rebuilds the set layouts all the same. *)
Example setup_third_load_rebuilds :
  let s1 := Examples.setup0 (Examples.env_with Examples.binary_A)
              Examples.shader1 in
  let s2 := Examples.setup0 (Examples.env_with Examples.binary_B) s1 in
  let s3 := Examples.setup0 (Examples.env_with Examples.binary_B) s2 in
  steps s3
  = steps s2
      ++ [StepCreateShaderModule VK_SHADER_STAGE_VERTEX_BIT; StepReflect;
          StepBuildSetLayouts].
Proof. vm_compute. reflexivity. Qed.

(** A second load of the binary that was loaded first is skipped. *)
Example setup_second_load_skipped :
  let s1 := Examples.setup0 (Examples.env_with Examples.binary_A)
              Examples.shader1 in
  let s2 := Examples.setup0 (Examples.env_with Examples.binary_A) s1 in
  steps s2 = steps s1.
Proof. vm_compute. reflexivity. Qed.

(** When the stored hash of every source equals the hash of what the file
    loads to now, [setup] only writes log lines: no module is created, and
    neither [reflect] nor [buildSetLayouts] runs. *)
Lemma setup_source_clean (Hash64 : list Z → Z → Z) (env : Env)
  (d : bool) (s : State) (stage : Z) (file : string) :
  file_exists env file = true →
  mSpvHash s !! stage
  = Some (Hash64 (spirv_bytes (getSpirV env stage file []).1) 0) →
  setup_source Hash64 env (d, s) (stage, file)
  = (d, with_log (getSpirV env stage file []).2 s).
Proof.
  intros Hex Hhash. unfold setup_source. rewrite Hex.
  destruct (getSpirV env stage file []) as [spirCode lines].
  rewrite (isSpirCodeDirty_same_as_stored Hash64 stage spirCode
             (with_log lines s)); [|exact Hhash].
  by rewrite orb_false_r.
Qed.

Lemma setup_sources_clean (Hash64 : list Z → Z → Z) (env : Env)
  (l : list (Z * string)) (d : bool) (s : State) :
  (∀ stage file, (stage, file) ∈ l →
     file_exists env file = true
     ∧ mSpvHash s !! stage
       = Some (Hash64 (spirv_bytes (getSpirV env stage file []).1) 0)) →
  ∃ lines, foldl (setup_source Hash64 env) (d, s) l = (d, with_log lines s).
Proof.
  revert s. induction l as [|[stage file] l IH]; intros s Hclean.
  - exists []. simpl. by rewrite with_log_nil.
  - destruct (Hclean stage file) as [Hex Hhash]; [left|].
    change (foldl ?f ?a (?x :: ?l)) with (foldl f (f a x) l).
    rewrite (setup_source_clean Hash64 env d s stage file Hex Hhash).
    destruct (IH (with_log (getSpirV env stage file []).2 s))
      as [lines' Hfold].
    { intros stage' file' Hin. apply Hclean. by right. }
    exists ((getSpirV env stage file []).2 ++ lines').
    by rewrite Hfold, with_log_with_log.
Qed.

(** X24. setup on a shader whose files all exist and whose binaries hash
    to the stored values does nothing but log the loading of each file: no
    module is created, nothing is reflected and no layout is built. *)
Lemma setup_clean (Hash64 : list Z → Z → Z)
  (std_sort : (BindingInfo → BindingInfo → bool) →
              list BindingInfo → list BindingInfo)
  (pod_padding : nat → list Z * list Z) (env : Env) (s : State) :
  (∀ stage file, mSources s !! stage = Some file →
     file_exists env file = true
     ∧ mSpvHash s !! stage
       = Some (Hash64 (spirv_bytes (getSpirV env stage file []).1) 0)) →
  ∃ lines, setup Hash64 std_sort pod_padding env s = with_log lines s.
Proof.
  intros Hclean. unfold setup.
  destruct (setup_sources_clean Hash64 env (items_Z (mSources s)) false s)
    as [lines ->]; [|by exists lines].
  intros stage file Hin. apply Hclean.
  rewrite items_Z_perm in Hin. by apply elem_of_map_to_list in Hin.
Qed.

(** ** The loops of buildSetLayouts *)

Lemma build_layout_fold (Hash64 : list Z → Z → Z)
  (pod_padding : nat → list Z * list Z)
  (l : list (Z * list BindingInfo)) (i : Z) (s : State) :
  log (foldl (build_layout Hash64 pod_padding) (i, s) l).2
  = log s ++ sparse_errors i (l.*1)
  ∧ storedLayouts (foldl (build_layout Hash64 pod_padding) (i, s) l).2
    = storedLayouts s
        ++ ((λ kv, calculateHash Hash64 pod_padding
                     {| bindings := kv.2; key := 0 |}) <$> l)
  ∧ mDescriptorSetLayoutKeys
      (foldl (build_layout Hash64 pod_padding) (i, s) l).2
    = mDescriptorSetLayoutKeys s
        ++ ((λ kv, key (calculateHash Hash64 pod_padding
                          {| bindings := kv.2; key := 0 |})) <$> l).
Proof.
  revert i s. induction l as [|[k vec] l IH]; intros i s.
  - simpl. by rewrite !app_nil_r.
  - change (foldl ?f ?a (?x :: ?l)) with (foldl f (f a x) l).
    cbn [build_layout].
    destruct (IH (u32 (i + 1))
                (with_layout
                   (calculateHash Hash64 pod_padding
                      {| bindings := vec; key := 0 |})
                   (if decide (k ≠ i)
                    then with_log [ErrSparseDescriptorSet i] s else s)))
      as (-> & -> & ->).
    rewrite !fmap_cons. cbn [sparse_errors fst snd].
    case_decide; cbn [log storedLayouts mDescriptorSetLayoutKeys with_layout
                      with_log]; rewrite <- ?app_assoc; done.
Qed.

(** Set numbers that ascend strictly from the counter on either are
    contiguous, and then nothing is logged, or the first line logged names the
    first number that is missing. *)
Lemma sparse_errors_first (ks : list Z) (i0 : Z) :
  StronglySorted Z.lt ks →
  0 ≤ i0 →
  Forall (λ k, i0 ≤ k < 2 ^ 32) ks →
  (sparse_errors i0 ks = [] ∧ ks = seqZ i0 (Z.of_nat (length ks)))
  ∨ (∃ i rest,
       sparse_errors i0 ks = ErrSparseDescriptorSet i :: rest
       ∧ i0 ≤ i ∧ (i ∉ ks) ∧ (∀ j, i0 ≤ j < i → j ∈ ks)
       ∧ ∃ k, k ∈ ks ∧ i < k).
Proof.
  intros Hs. revert i0. induction Hs as [|k ks Hs IH Hk]; intros i0 Hi0 Hr.
  - left. done.
  - apply Forall_cons in Hr as [Hk0 Hr]. rewrite Forall_forall in Hk, Hr.
    cbn [sparse_errors]. destruct (decide (k ≠ i0)) as [Hne|Heq].
    + right. eexists i0, _. split; [reflexivity|]. split; [lia|].
      split; [|split].
      * intros [->|Hin]%elem_of_cons; [done|]. specialize (Hk _ Hin). lia.
      * intros j Hj. lia.
      * exists k. split; [left|lia].
    + assert (k = i0) as -> by (destruct (decide (k = i0)); [done|by destruct Heq]).
      clear Heq. rewrite app_nil_l.
      destruct ks as [|k' ks'].
      { left. split; [done|]. simpl length. by rewrite seqZ_cons, seqZ_nil by lia. }
      assert (Hk' : i0 < k' < 2 ^ 32).
      { split; [apply Hk; left|apply Hr; left]. }
      rewrite u32_small by lia.
      destruct (IH (i0 + 1))
        as [[Herr Hseq]|(i & rest & Herr & Hi & Hnin & Hall & k & Hkin & Hik)];
        [lia| | |].
      { apply Forall_forall. intros y Hy.
        specialize (Hk _ Hy). specialize (Hr _ Hy). lia. }
      * left. split; [done|].
        rewrite seqZ_cons by (simpl length; lia). f_equal.
        rewrite Hseq at 1. f_equal; simpl length; lia.
      * right. exists i, rest. split; [done|]. split; [lia|].
        split; [|split].
        -- intros [->|Hin]%elem_of_cons; [lia|done].
        -- intros j Hj. destruct (decide (j = i0)) as [->|]; [left|].
           right. apply Hall. lia.
        -- exists k. split; [by right|done].
Qed.

(** What the first loop of buildSetLayouts leaves under a set number. *)
Lemma group_by_set_fold_some (l : list (string * BindingInfo))
  (acc : gmap Z (list BindingInfo)) (k : Z) :
  is_Some
    (foldl (λ bindingInfoMap kv,
              <[bi_set kv.2 :=
                  default [] (bindingInfoMap !! bi_set kv.2) ++ [kv.2]]>
                bindingInfoMap) acc l !! k)
  ↔ is_Some (acc !! k) ∨ ∃ kv, kv ∈ l ∧ bi_set kv.2 = k.
Proof.
  revert acc. induction l as [|kv l IH]; intros acc.
  - simpl. split; [by left|]. intros [?|(? & Hin & _)]; [done|].
    by apply elem_of_nil in Hin.
  - change (foldl ?f ?a (?x :: ?l)) with (foldl f (f a x) l).
    rewrite IH. rewrite lookup_insert_is_Some. split.
    + intros [[Heq|[_ Hs]]|(kv' & Hin & Hk)].
      * right. exists kv. split; [left|done].
      * by left.
      * right. exists kv'. split; [by right|done].
    + intros [Hs|(kv' & Hin & Hk)].
      * left. destruct (decide (bi_set kv.2 = k)); [by left|by right].
      * apply elem_of_cons in Hin as [->|Hin].
        -- left. by left.
        -- right. by exists kv'.
Qed.

(** The set numbers the third loop meets are those some binding uses. *)
Lemma observed_sets_used (s : State) (k : Z) :
  k ∈ observed_sets s ↔ set_used s k.
Proof.
  unfold observed_sets, set_used, group_by_set.
  rewrite items_Z_key_elem, group_by_set_fold_some. split.
  - intros [Hs|([name b] & Hin & Hk)].
    + rewrite lookup_empty in Hs. by destruct Hs.
    + apply items_str_elem in Hin. by exists name, b.
  - intros (name & b & Hb & Hk). right. exists (name, b).
    split; [by apply items_str_elem|done].
Qed.

Lemma observed_sets_sorted (s : State) :
  StronglySorted Z.lt (observed_sets s).
Proof. apply items_Z_keys_sorted. Qed.

Lemma buildSetLayouts_log (Hash64 : list Z → Z → Z)
  (std_sort : (BindingInfo → BindingInfo → bool) →
              list BindingInfo → list BindingInfo)
  (pod_padding : nat → list Z * list Z) (s : State) :
  log (buildSetLayouts Hash64 std_sort pod_padding s)
  = log s ++ sparse_errors 0 (observed_sets s).
Proof.
  unfold buildSetLayouts.
  destruct (build_layout_fold Hash64 pod_padding
              (items_Z (sort_sets std_sort (group_by_set (mUniforms s))))
              0 (with_step StepBuildSetLayouts s)) as (-> & _ & _).
  unfold sort_sets. by rewrite items_Z_keys_fmap.
Qed.

Lemma buildSetLayouts_stored (Hash64 : list Z → Z → Z)
  (std_sort : (BindingInfo → BindingInfo → bool) →
              list BindingInfo → list BindingInfo)
  (pod_padding : nat → list Z * list Z) (s : State) :
  storedLayouts (buildSetLayouts Hash64 std_sort pod_padding s)
  = storedLayouts s
      ++ ((λ kv, calculateHash Hash64 pod_padding
                   {| bindings := kv.2; key := 0 |})
            <$> items_Z (sort_sets std_sort (group_by_set (mUniforms s))))
  ∧ mDescriptorSetLayoutKeys (buildSetLayouts Hash64 std_sort pod_padding s)
    = mDescriptorSetLayoutKeys s
        ++ ((λ kv, key (calculateHash Hash64 pod_padding
                          {| bindings := kv.2; key := 0 |}))
              <$> items_Z (sort_sets std_sort (group_by_set (mUniforms s)))).
Proof.
  unfold buildSetLayouts.
  destruct (build_layout_fold Hash64 pod_padding
              (items_Z (sort_sets std_sort (group_by_set (mUniforms s))))
              0 (with_step StepBuildSetLayouts s)) as (_ & -> & ->).
  done.
Qed.

Lemma buildSetLayouts_one_layout_per_set (Hash64 : list Z → Z → Z)
  (std_sort : (BindingInfo → BindingInfo → bool) →
              list BindingInfo → list BindingInfo)
  (pod_padding : nat → list Z * list Z) (s : State) :
  length (storedLayouts (buildSetLayouts Hash64 std_sort pod_padding s))
  = (length (storedLayouts s) + length (observed_sets s))%nat
  ∧ length (mDescriptorSetLayoutKeys
              (buildSetLayouts Hash64 std_sort pod_padding s))
    = (length (mDescriptorSetLayoutKeys s) + length (observed_sets s))%nat.
Proof.
  destruct (buildSetLayouts_stored Hash64 std_sort pod_padding s) as [-> ->].
  rewrite !length_app, !length_fmap. unfold observed_sets.
  rewrite <- (items_Z_keys_fmap (std_sort by_binding_number)).
  by rewrite length_fmap.
Qed.

(** ** Sparse descriptor sets *)

(** C5, as the code has it. When the set numbers in use leave a gap, the
    first line buildSetLayouts logs is an error that names the first missing
    set number; the function goes on all the same and hands one layout and
    one key per set in use to the context. *)
Theorem buildSetLayouts_sparse_sets (Hash64 : list Z → Z → Z)
  (std_sort : (BindingInfo → BindingInfo → bool) →
              list BindingInfo → list BindingInfo)
  (pod_padding : nat → list Z * list Z) (s : State) :
  map_Forall (λ _ b, 0 ≤ bi_set b < 2 ^ 32) (mUniforms s) →
  (∃ k j, set_used s k ∧ 0 ≤ j < k ∧ ¬ set_used s j) →
  ∃ i rest,
    log (buildSetLayouts Hash64 std_sort pod_padding s)
    = log s ++ ErrSparseDescriptorSet i :: rest
    ∧ 0 ≤ i ∧ ¬ set_used s i ∧ (∀ j, 0 ≤ j < i → set_used s j)
    ∧ length (storedLayouts (buildSetLayouts Hash64 std_sort pod_padding s))
      = (length (storedLayouts s) + length (observed_sets s))%nat
    ∧ length (mDescriptorSetLayoutKeys
                (buildSetLayouts Hash64 std_sort pod_padding s))
      = (length (mDescriptorSetLayoutKeys s) + length (observed_sets s))%nat
    ∧ (∀ k, k ∈ observed_sets s ↔ set_used s k)
    ∧ NoDup (observed_sets s).
Proof.
  intros Hrange (k & j & Hk & Hj & Hnj).
  rewrite buildSetLayouts_log.
  destruct (sparse_errors_first (observed_sets s) 0)
    as [[_ Hseq]|(i & rest & Herr & Hi & Hnin & Hall & _)].
  - apply observed_sets_sorted.
  - done.
  - apply Forall_forall. intros x Hx.
    apply observed_sets_used in Hx as (name & b & Hb & <-).
    apply (Hrange name b Hb).
  - destruct Hnj. apply observed_sets_used. rewrite Hseq.
    apply observed_sets_used in Hk. rewrite Hseq in Hk.
    apply elem_of_seqZ in Hk. apply elem_of_seqZ. lia.
  - exists i, rest. rewrite Herr. split; [done|]. split; [done|].
    split; [by rewrite <- observed_sets_used|].
    split; [intros j' Hj'; by apply observed_sets_used, Hall|].
    destruct (buildSetLayouts_one_layout_per_set Hash64 std_sort pod_padding s)
      as [-> ->].
    do 2 (split; [done|]). split; [apply observed_sets_used|].
    apply StronglySorted_lt_NoDup, observed_sets_sorted.
Qed.

Lemma buildSetLayouts_sparse_sets_witness :
  ∃ i rest,
    log (Examples.buildSetLayouts0 Examples.shader_sets_0_2)
    = log Examples.shader_sets_0_2 ++ ErrSparseDescriptorSet i :: rest
    ∧ 0 ≤ i ∧ ¬ set_used Examples.shader_sets_0_2 i
    ∧ (∀ j, 0 ≤ j < i → set_used Examples.shader_sets_0_2 j)
    ∧ length (storedLayouts
                (Examples.buildSetLayouts0 Examples.shader_sets_0_2))
      = (length (storedLayouts Examples.shader_sets_0_2)
         + length (observed_sets Examples.shader_sets_0_2))%nat
    ∧ length (mDescriptorSetLayoutKeys
                (Examples.buildSetLayouts0 Examples.shader_sets_0_2))
      = (length (mDescriptorSetLayoutKeys Examples.shader_sets_0_2)
         + length (observed_sets Examples.shader_sets_0_2))%nat
    ∧ (∀ k, k ∈ observed_sets Examples.shader_sets_0_2
            ↔ set_used Examples.shader_sets_0_2 k)
    ∧ NoDup (observed_sets Examples.shader_sets_0_2).
Proof.
  apply (buildSetLayouts_sparse_sets Examples.toy_hash Examples.merge_sort_by
           Examples.zero_holes Examples.shader_sets_0_2).
  - apply (bool_decide_unpack _). vm_compute. exact I.
  - exists 2, 1. split; [|split; [lia|]].
    + exists "Lights". eexists. split; [vm_compute; reflexivity|reflexivity].
    + rewrite <- observed_sets_used.
      apply (bool_decide_unpack _). vm_compute. exact I.
Defined.

(** C5, as stated, fails. With blocks in sets 0 and 2 the error is logged
    for set 1, and the layout of set 2 is hashed and stored after it: the
    call returns with both layouts handed to the context. *)
Lemma buildSetLayouts_sparse_counterexample :
  observed_sets Examples.shader_sets_0_2 = [0; 2]
  ∧ log (Examples.buildSetLayouts0 Examples.shader_sets_0_2)
    = log Examples.shader_sets_0_2 ++ [ErrSparseDescriptorSet 1]
  ∧ (λ l, bi_set <$> bindings l)
      <$> storedLayouts (Examples.buildSetLayouts0 Examples.shader_sets_0_2)
    = [[0]; [2]]
  ∧ length (mDescriptorSetLayoutKeys
              (Examples.buildSetLayouts0 Examples.shader_sets_0_2)) = 2%nat.
Proof. vm_compute. done. Qed.

(** X19. With set numbers that are contiguous from 0 on, buildSetLayouts
    logs nothing. *)
Lemma buildSetLayouts_contiguous (Hash64 : list Z → Z → Z)
  (std_sort : (BindingInfo → BindingInfo → bool) →
              list BindingInfo → list BindingInfo)
  (pod_padding : nat → list Z * list Z) (s : State) :
  map_Forall (λ _ b, 0 ≤ bi_set b < 2 ^ 32) (mUniforms s) →
  (∀ k j, set_used s k → 0 ≤ j < k → set_used s j) →
  log (buildSetLayouts Hash64 std_sort pod_padding s) = log s.
Proof.
  intros Hrange Hcontig. rewrite buildSetLayouts_log.
  destruct (sparse_errors_first (observed_sets s) 0)
    as [[-> _]|(i & rest & Herr & Hi & Hnin & Hall & k & Hk & Hik)].
  - apply observed_sets_sorted.
  - done.
  - apply Forall_forall. intros x Hx.
    apply observed_sets_used in Hx as (name & b & Hb & <-).
    apply (Hrange name b Hb).
  - by rewrite app_nil_r.
  - destruct Hnin. apply observed_sets_used.
    apply (Hcontig k i); [by apply observed_sets_used|lia].
Qed.

(** ** Order of discovery *)


Lemma discover_cons (d : UboResource * Z) (ds : list (UboResource * Z))
  (s : State) :
  discover (d :: ds) s = discover ds (processResource d.1 d.2 s).
Proof. reflexivity. Qed.


(** What reflection leaves in mUniforms depends on mUniforms alone. *)
Lemma discover_mUniforms_ext (ds : list (UboResource * Z)) (s1 s2 : State) :
  mUniforms s1 = mUniforms s2 →
  mUniforms (discover ds s1) = mUniforms (discover ds s2).
Proof.
  revert s1 s2. induction ds as [|d ds IH]; intros s1 s2 Heq; [done|].
  rewrite !discover_cons. apply IH.
  rewrite !processResource_mUniforms. by rewrite Heq.
Qed.





(** Blocks that are each found once are consistent. *)
Lemma NoDup_names_consistent (ds : list (UboResource * Z)) :
  NoDup ((λ d, ubo_name d.1) <$> ds) → consistent ds.
Proof.
  intros Hnd d d' Hd Hd' Hname.
  apply list_elem_of_lookup in Hd as [i Hi].
  apply list_elem_of_lookup in Hd' as [j Hj].
  assert (i = j) as ->; [|congruence].
  apply (NoDup_lookup _ i j (ubo_name d.1) Hnd).
  - by rewrite list_lookup_fmap, Hi.
  - by rewrite list_lookup_fmap, Hj, Hname.
Qed.



(** The layout of the example: both blocks in set 0, sorted by binding
    number, the block found in two stages visible from both. *)
Example found_fragment_first_layout :
  (λ l, (λ b, (bi_name b, binding (bi_binding b), stageFlags (bi_binding b)))
          <$> bindings l)
    <$> storedLayouts
          (Examples.buildSetLayouts0
             (discover Examples.found_fragment_first Examples.shader0))
  = [[("DefaultMatrices", 0, 17); ("Style", 1, 1)]].
Proof. vm_compute. reflexivity. Qed.

(** [reflect] treats mUniforms as [discover] does on the uniform blocks of
    all stages, taken stage by stage in the order of the stage bits. *)
Lemma foldl_processResource_discover (shaderStage : Z)
  (l : list UboResource) (s : State) :
  foldl (λ acc resource, processResource resource shaderStage acc) s l
  = discover ((λ u, (u, shaderStage)) <$> l) s.
Proof.
  revert s. induction l as [|u l IH]; intros s; [done|].
  rewrite fmap_cons, discover_cons. apply IH.
Qed.

Lemma processVertexInputs_mUniforms (res : ShaderResources) (s : State) :
  mUniforms (processVertexInputs res s) = mUniforms s.
Proof.
  unfold processVertexInputs.
  by destruct (foldl processVertexInput _ _) as [v1 lg].
Qed.

Lemma discover_app (ds1 ds2 : list (UboResource * Z)) (s : State) :
  discover (ds1 ++ ds2) s = discover ds2 (discover ds1 s).
Proof. apply foldl_app. Qed.

Lemma reflect_stage_mUniforms (env : Env) (s : State) (c : Z * list Z) :
  mUniforms (reflect_stage env s c)
  = mUniforms
      (discover ((λ u, (u, c.1))
                   <$> uniform_buffers (get_shader_resources env c.2)) s).
Proof.
  destruct c as [shaderStage ir]. unfold reflect_stage.
  rewrite foldl_processResource_discover.
  case_decide; [rewrite processVertexInputs_mUniforms|];
    by apply discover_mUniforms_ext.
Qed.

Lemma reflect_mUniforms (env : Env) (s : State) :
  mUniforms (reflect env s)
  = mUniforms
      (discover
         (items_Z (mSpvCrossCompilers s) ≫= λ c,
            (λ u, (u, c.1))
              <$> uniform_buffers (get_shader_resources env c.2)) s).
Proof.
  unfold reflect.
  assert (Hgen : ∀ l s1 s2, mUniforms s1 = mUniforms s2 →
    mUniforms (foldl (reflect_stage env) s1 l)
    = mUniforms
        (discover
           (l ≫= λ c, (λ u, (u, c.1))
                        <$> uniform_buffers (get_shader_resources env c.2))
           s2)).
  { induction l as [|c l IH]; intros s1 s2 Heq; [done|].
    change (foldl ?f ?a (?x :: ?l)) with (foldl f (f a x) l).
    rewrite bind_cons, discover_app. apply IH.
    rewrite reflect_stage_mUniforms. by apply discover_mUniforms_ext. }
  by apply Hgen.
Qed.

(** ** The role of the sort *)

Lemma StronglySorted_fmap_inv {A B : Type} (f : A → B) (R1 : relation A)
  (R2 : relation B) (l : list A) :
  (∀ x y, R2 (f x) (f y) → R1 x y) →
  StronglySorted R2 (f <$> l) → StronglySorted R1 l.
Proof.
  intros HR. induction l as [|x l IH]; [constructor|].
  rewrite fmap_cons. intros [Hs Hx]%StronglySorted_inv.
  constructor; [by apply IH|].
  apply Forall_forall. intros y Hy. apply HR.
  rewrite Forall_forall in Hx. apply Hx. by apply list_elem_of_fmap_2.
Qed.

(** With a sort that returns a permutation of its input ordered by the
    comparison, and binding numbers that are unique within the set, the
    sorted vector, and with it the key, is the same for every order in
    which the bindings of the set were collected. *)
Lemma sorted_layout_key_perm (Hash64 : list Z → Z → Z)
  (std_sort : (BindingInfo → BindingInfo → bool) →
              list BindingInfo → list BindingInfo)
  (pod_padding : nat → list Z * list Z) (v1 v2 : list BindingInfo) :
  (∀ l, std_sort by_binding_number l ≡ₚ l) →
  (∀ l, Sorted (λ a b, by_binding_number b a = false)
               (std_sort by_binding_number l)) →
  v1 ≡ₚ v2 →
  NoDup ((λ b, binding (bi_binding b)) <$> v1) →
  std_sort by_binding_number v1 = std_sort by_binding_number v2
  ∧ key (calculateHash Hash64 pod_padding
           {| bindings := std_sort by_binding_number v1; key := 0 |})
    = key (calculateHash Hash64 pod_padding
             {| bindings := std_sort by_binding_number v2; key := 0 |}).
Proof.
  intros Hperm Hsorted Hp Hnd.
  assert (Hcanon : ∀ v, v ≡ₚ v1 →
    StronglySorted (λ a b, binding (bi_binding a) < binding (bi_binding b))
                   (std_sort by_binding_number v)).
  { intros v Hv.
    apply (StronglySorted_fmap_inv (λ b, binding (bi_binding b)) _ Z.lt);
      [done|].
    apply StronglySorted_le_NoDup_lt.
    - apply (StronglySorted_fmap _ (λ a b, by_binding_number b a = false)).
      + intros x y Hxy. unfold by_binding_number in Hxy.
        apply bool_decide_eq_false in Hxy. lia.
      + apply Sorted_StronglySorted; [|apply Hsorted].
        intros x y z. unfold by_binding_number.
        rewrite !bool_decide_eq_false. lia.
    - by rewrite (Hperm v), Hv. }
  assert (Heq : std_sort by_binding_number v1 = std_sort by_binding_number v2).
  { apply (StronglySorted_unique_strong
             (λ a b, binding (bi_binding a) < binding (bi_binding b))).
    - intros; lia.
    - by apply Hcanon.
    - by apply Hcanon.
    - by rewrite !Hperm. }
  split; [done|]. by rewrite Heq.
Qed.

(** The sort used for evaluation honours that contract. *)
Lemma merge_sort_by_contract (l : list BindingInfo) :
  Examples.merge_sort_by by_binding_number l ≡ₚ l
  ∧ Sorted (λ a b, by_binding_number b a = false)
           (Examples.merge_sort_by by_binding_number l).
Proof.
  unfold Examples.merge_sort_by. split; [apply merge_sort_Permutation|].
  apply Sorted_merge_sort. intros a b. unfold by_binding_number.
  rewrite !bool_decide_eq_false. lia.
Qed.

End ShaderFacts.

(* ===================================================================== *)
(** * Facts about device memory *)
(* ===================================================================== *)

Section DeviceFacts.
Import Cxx Vk Device.

(** The mask of memory type [i] picks bit [i] of the type bits. *)
Lemma type_bit_test (bits i : Z) :
  0 ≤ i < 32 →
  Z.land bits (u32 (Z.shiftl 1 i)) ≠ 0 ↔ Z.testbit bits i = true.
Proof.
  intros Hi. rewrite Z.shiftl_1_l.
  rewrite u32_small
    by (split; [apply Z.pow_nonneg; lia|apply Z.pow_lt_mono_r; lia]).
  split.
  - intros Hne. destruct (Z.testbit bits i) eqn:Hb; [done|].
    destruct Hne. apply Z.bits_inj'. intros n Hn.
    rewrite Z.land_spec, Z.bits_0, Z.pow2_bits_eqb by lia.
    destruct (Z.eqb_spec i n) as [->|]; [by rewrite Hb|apply andb_false_r].
  - intros Hb Hz.
    assert (Ht : Z.testbit (Z.land bits (2 ^ i)) i = true).
    { rewrite Z.land_spec, Hb, Z.pow2_bits_true by lia. done. }
    rewrite Hz, Z.bits_0 in Ht. done.
Qed.

(** The loop stops at the first suitable type at or after its starting
    index, or runs to the end when there is none. *)
Lemma search_type_first (props : VkPhysicalDeviceMemoryProperties)
  (memReqs : VkMemoryRequirements) (memProps : Z)
  (remaining : nat) (i0 : Z) :
  0 ≤ i0 →
  i0 + Z.of_nat remaining ≤ 32 →
  i0 + Z.of_nat remaining ≤ Z.of_nat (length (memoryTypes props)) →
  ∃ i, search_type props memReqs memProps remaining i0 = Stopped i
       ∧ i0 ≤ i ≤ i0 + Z.of_nat remaining
       ∧ (i < i0 + Z.of_nat remaining → suitable props memReqs memProps i)
       ∧ ∀ j, i0 ≤ j < i → ¬ suitable props memReqs memProps j.
Proof.
  revert i0. induction remaining as [|n IH]; intros i0 Hi0 H32 Hlen.
  - exists i0. simpl. split; [done|]. split; [lia|]. split; intros; lia.
  - cbn [search_type]. rewrite decide_False by lia.
    assert (Hstep : ∃ i,
      search_type props memReqs memProps n (u32 (i0 + 1)) = Stopped i
      ∧ i0 + 1 ≤ i ≤ i0 + Z.of_nat (S n)
      ∧ (i < i0 + Z.of_nat (S n) → suitable props memReqs memProps i)
      ∧ ∀ j, i0 + 1 ≤ j < i → ¬ suitable props memReqs memProps j).
    { rewrite u32_small by lia.
      destruct (IH (i0 + 1)) as (i & Hs & Hr & Hsuit & Hno); [lia|lia|lia|].
      exists i. split; [done|]. split; [lia|]. split; [|done].
      intros Hlt. apply Hsuit. lia. }
    destruct (lookup_lt_is_Some_2 (memoryTypes props) (Z.to_nat i0))
      as [t Ht]; [lia|].
    rewrite Ht.
    assert (Hskip : ¬ suitable props memReqs memProps i0 →
      ∃ i, search_type props memReqs memProps n (u32 (i0 + 1)) = Stopped i
           ∧ i0 ≤ i ≤ i0 + Z.of_nat (S n)
           ∧ (i < i0 + Z.of_nat (S n) → suitable props memReqs memProps i)
           ∧ ∀ j, i0 ≤ j < i → ¬ suitable props memReqs memProps j).
    { intros Hns. destruct Hstep as (i & Hs & Hr & Hsuit & Hno).
      exists i. split; [done|]. split; [lia|]. split; [done|].
      intros j Hj. destruct (decide (j = i0)) as [->|]; [done|].
      apply Hno. lia. }
    case_decide as Hbit.
    + case_decide as Hflags.
      * exists i0. split; [done|]. split; [lia|]. split; [|intros; lia].
        intros _. split; [by apply type_bit_test; [lia|]|]. by exists t.
      * apply Hskip. intros (_ & t' & Ht' & Hf'). congruence.
    + apply Hskip. intros (Hb & _).
      apply (type_bit_test _ i0) in Hb; [done|lia].
Qed.

(** X1. getMemoryAllocationInfo picks the first memory type that the
    requirements allow and that has all requested properties, and asks for
    the required size; when no type qualifies its assertion fails and the
    size and index of memInfo stay as they were. *)
Theorem getMemoryAllocationInfo_first_suitable
  (props : VkPhysicalDeviceMemoryProperties) (memReqs : VkMemoryRequirements)
  (memProps : Z) (memInfo : VkMemoryAllocateInfo) :
  mem_size memReqs ≠ 0 →
  0 ≤ memoryTypeCount props ≤ 32 →
  memoryTypeCount props ≤ Z.of_nat (length (memoryTypes props)) →
  (∃ i,
     0 ≤ i < memoryTypeCount props
     ∧ suitable props memReqs memProps i
     ∧ (∀ j, 0 ≤ j < i → ¬ suitable props memReqs memProps j)
     ∧ getMemoryAllocationInfo props memReqs memProps memInfo
       = ({| mai_sType := VK_STRUCTURE_TYPE_MEMORY_ALLOCATE_INFO;
             mai_pNext := 0;
             allocationSize := mem_size memReqs;
             memoryTypeIndex := i |}, Returns true))
  ∨ ((∀ j, 0 ≤ j < memoryTypeCount props →
        ¬ suitable props memReqs memProps j)
     ∧ (getMemoryAllocationInfo props memReqs memProps memInfo).2
       = AssertFails
     ∧ allocationSize
         (getMemoryAllocationInfo props memReqs memProps memInfo).1
       = allocationSize memInfo
     ∧ memoryTypeIndex
         (getMemoryAllocationInfo props memReqs memProps memInfo).1
       = memoryTypeIndex memInfo).
Proof.
  intros Hsize Hcount Hlen. unfold getMemoryAllocationInfo.
  rewrite decide_False by done.
  destruct (search_type_first props memReqs memProps
              (Z.to_nat (memoryTypeCount props)) 0)
    as (i & -> & Hr & Hsuit & Hno); [lia|lia|lia|].
  rewrite Z2Nat.id in * by lia. rewrite Z.add_0_l in *.
  case_decide as Hend.
  - right. assert (i = memoryTypeCount props) as -> by lia.
    split; [done|]. done.
  - left. exists i. split; [lia|]. split; [apply Hsuit; lia|]. done.
Qed.

Lemma getMemoryAllocationInfo_first_suitable_witness :
  (∃ i,
     0 ≤ i < memoryTypeCount Examples2.three_types
     ∧ suitable Examples2.three_types Examples2.depth_image_reqs
         VK_MEMORY_PROPERTY_DEVICE_LOCAL_BIT i
     ∧ (∀ j, 0 ≤ j < i →
          ¬ suitable Examples2.three_types Examples2.depth_image_reqs
              VK_MEMORY_PROPERTY_DEVICE_LOCAL_BIT j)
     ∧ getMemoryAllocationInfo Examples2.three_types
         Examples2.depth_image_reqs VK_MEMORY_PROPERTY_DEVICE_LOCAL_BIT
         Examples2.blank_allocate_info
       = ({| mai_sType := VK_STRUCTURE_TYPE_MEMORY_ALLOCATE_INFO;
             mai_pNext := 0;
             allocationSize := mem_size Examples2.depth_image_reqs;
             memoryTypeIndex := i |}, Returns true))
  ∨ ((∀ j, 0 ≤ j < memoryTypeCount Examples2.three_types →
        ¬ suitable Examples2.three_types Examples2.depth_image_reqs
            VK_MEMORY_PROPERTY_DEVICE_LOCAL_BIT j)
     ∧ (getMemoryAllocationInfo Examples2.three_types
          Examples2.depth_image_reqs VK_MEMORY_PROPERTY_DEVICE_LOCAL_BIT
          Examples2.blank_allocate_info).2 = AssertFails
     ∧ allocationSize
         (getMemoryAllocationInfo Examples2.three_types
            Examples2.depth_image_reqs VK_MEMORY_PROPERTY_DEVICE_LOCAL_BIT
            Examples2.blank_allocate_info).1
       = allocationSize Examples2.blank_allocate_info
     ∧ memoryTypeIndex
         (getMemoryAllocationInfo Examples2.three_types
            Examples2.depth_image_reqs VK_MEMORY_PROPERTY_DEVICE_LOCAL_BIT
            Examples2.blank_allocate_info).1
       = memoryTypeIndex Examples2.blank_allocate_info).
Proof.
  apply (getMemoryAllocationInfo_first_suitable Examples2.three_types
           Examples2.depth_image_reqs VK_MEMORY_PROPERTY_DEVICE_LOCAL_BIT
           Examples2.blank_allocate_info).
  - discriminate.
  - simpl. lia.
  - simpl. lia.
Defined.

(** The depth image of the example goes to memory type 1: type 0 is not
    allowed by the requirements and not device local. *)
Example depth_image_memory_type :
  getMemoryAllocationInfo Examples2.three_types Examples2.depth_image_reqs
    VK_MEMORY_PROPERTY_DEVICE_LOCAL_BIT Examples2.blank_allocate_info
  = ({| mai_sType := 5; mai_pNext := 0; allocationSize := 4194304;
        memoryTypeIndex := 1 |}, Returns true).
Proof. vm_compute. reflexivity. Qed.

End DeviceFacts.

(* ===================================================================== *)
(** * Facts about setup buffers, frame buffers and frames *)
(* ===================================================================== *)

Section FrameFacts.
Import Cxx Vk Frame.

(** ** The setup command buffer *)

Lemma createSetupCommandBuffer_balance (allocated vkRes : Z) (m : Members) :
  live_setup_buffer m ++ non_null [allocated]
  = ((createSetupCommandBuffer allocated vkRes m).1.2 ≫= freed_buffers)
      ++ live_setup_buffer (createSetupCommandBuffer allocated vkRes m).1.1.
Proof.
  unfold createSetupCommandBuffer, live_setup_buffer, non_null.
  cbn [fst snd with_mSetupCommandBuffer mSetupCommandBuffer].
  rewrite bind_app. cbn [mbind list_bind freed_buffers app].
  rewrite app_nil_r.
  f_equal. by case_decide.
Qed.

Lemma flushSetupCommandBuffer_balance (errEnd errSubmit errWait mQueue : Z)
  (m : Members) :
  live_setup_buffer m
  = ((flushSetupCommandBuffer errEnd errSubmit errWait mQueue m).1.2
       ≫= freed_buffers)
      ++ live_setup_buffer
           (flushSetupCommandBuffer errEnd errSubmit errWait mQueue m).1.1.
Proof.
  unfold flushSetupCommandBuffer.
  case_decide as Hnull; [done|].
  repeat case_decide; try done.
  cbn [fst snd]. rewrite !bind_app. cbn.
  unfold live_setup_buffer.
  cbn [with_mSetupCommandBuffer mSetupCommandBuffer].
  rewrite decide_True by done. by rewrite decide_False by (by intros []).
Qed.

(** X2. Through any sequence of createSetupCommandBuffer and
    flushSetupCommandBuffer calls, the buffer held at the start followed by
    the non-null handles allocated since are exactly the handles handed to
    vkFreeCommandBuffers, in that order, followed by the buffer still held:
    no setup buffer leaks, none is freed twice, and a null handle is never
    freed. *)
Theorem setup_steps_balance (steps : list SetupStep) (mQueue : Z)
  (m : Members) :
  live_setup_buffer m ++ non_null (setup_steps steps mQueue m).1.2
  = ((setup_steps steps mQueue m).1.1.2 ≫= freed_buffers)
      ++ live_setup_buffer (setup_steps steps mQueue m).1.1.1.
Proof.
  revert m. induction steps as [|st rest IH]; intros m.
  - cbn. by rewrite app_nil_r.
  - cbn [setup_steps].
    destruct st as [allocated vkRes|e1 e2 e3].
    + pose proof (createSetupCommandBuffer_balance allocated vkRes m) as H1.
      destruct (createSetupCommandBuffer allocated vkRes m)
        as [[m1 calls1] ending1].
      cbn [fst snd] in H1. destruct ending1; try exact H1.
      specialize (IH m1).
      destruct (setup_steps rest mQueue m1) as [[[m2 calls2] handles2] e2].
      cbn [fst snd] in *. unfold non_null in *.
      rewrite filter_app, bind_app, app_assoc, H1, <- !app_assoc.
      by rewrite IH.
    + pose proof (flushSetupCommandBuffer_balance e1 e2 e3 mQueue m) as H1.
      destruct (flushSetupCommandBuffer e1 e2 e3 mQueue m)
        as [[m1 calls1] ending1].
      cbn [fst snd] in H1.
      destruct ending1;
        try (cbn [fst snd]; unfold non_null; by rewrite filter_nil, app_nil_r).
      specialize (IH m1).
      destruct (setup_steps rest mQueue m1) as [[[m2 calls2] handles2] e2'].
      cbn [fst snd app] in *.
      rewrite bind_app, H1, <- !app_assoc. by rewrite IH.
Qed.

(** In the example both allocated buffers are freed, the first when the
    second is created, and the second flush has nothing left to do. *)
Example setup_buffer_steps_trace :
  (setup_steps Examples2.setup_buffer_steps 21 Examples2.members0).1.1.2
    ≫= freed_buffers = [501; 502]
  ∧ mSetupCommandBuffer
      (setup_steps Examples2.setup_buffer_steps 21 Examples2.members0).1.1.1
    = VK_NULL_HANDLE.
Proof. vm_compute. done. Qed.

(** ** Frame buffers *)

Lemma create_framebuffers_success (answer : nat → Z * Z) (m : Members)
  (n i : nat) (fbs : list Z) (calls : list Call) :
  length fbs = (i + n)%nat →
  (i + n ≤ length (swapchainViews m))%nat →
  (∀ j, (i ≤ j < i + n)%nat → (answer j).1 = VK_SUCCESS) →
  create_framebuffers answer m n i fbs calls
  = (take i fbs ++ ((λ j, (answer j).2) <$> seq i n),
     calls ++ (framebuffer_call m <$> take n (drop i (swapchainViews m))),
     Renderer.Returned).
Proof.
  revert i fbs calls. induction n as [|n IH]; intros i fbs calls Hlen Hv Hok.
  - cbn. rewrite !app_nil_r, take_ge by lia. done.
  - cbn [create_framebuffers].
    destruct (lookup_lt_is_Some_2 (swapchainViews m) i) as [view Hview];
      [lia|].
    rewrite Hview, decide_False by (rewrite Hok by lia; by intros []).
    rewrite IH.
    + rewrite (take_S_r _ i (answer i).2)
        by (apply list_lookup_insert_eq; lia).
      rewrite take_insert_ge by lia.
      rewrite (drop_S _ view i) by done.
      cbn [seq fmap list_fmap take]. fold (framebuffer_call m view).
      by rewrite <- !app_assoc.
    + rewrite length_insert. lia.
    + lia.
    + intros j Hj. apply Hok. lia.
Qed.

Lemma create_framebuffers_returned (answer : nat → Z * Z) (m : Members)
  (n i : nat) (fbs : list Z) (calls : list Call) :
  (create_framebuffers answer m n i fbs calls).2 = Renderer.Returned →
  ((0 < n)%nat → (i + n ≤ length (swapchainViews m))%nat)
  ∧ ∀ j, (i ≤ j < i + n)%nat → (answer j).1 = VK_SUCCESS.
Proof.
  revert i fbs calls. induction n as [|n IH]; intros i fbs calls Hret.
  - split; intros; lia.
  - cbn [create_framebuffers] in Hret.
    destruct (swapchainViews m !! i) as [view|] eqn:Hview; [|done].
    case_decide as Herr; [done|].
    apply lookup_lt_Some in Hview.
    apply IH in Hret as [Hlen Hok].
    split; [intros _; destruct n; lia|]. intros j Hj.
    destruct (decide (j = i)) as [->|]; [|apply Hok; lia].
    destruct (decide ((answer i).1 = VK_SUCCESS)); [done|]. done.
Qed.

Lemma create_framebuffers_failure (answer : nat → Z * Z) (m : Members)
  (n i k : nat) (fbs : list Z) (calls : list Call) :
  (i ≤ k < i + n)%nat →
  (k < length (swapchainViews m))%nat →
  (∀ j, (i ≤ j < k)%nat → (answer j).1 = VK_SUCCESS) →
  (answer k).1 ≠ VK_SUCCESS →
  (create_framebuffers answer m n i fbs calls).2 = Renderer.AssertFailed
  ∧ (create_framebuffers answer m n i fbs calls).1.2
    = calls
        ++ (framebuffer_call m
              <$> take (S k - i) (drop i (swapchainViews m))).
Proof.
  revert i fbs calls. induction n as [|n IH];
    intros i fbs calls Hk Hv Hok Hbad; [lia|].
  cbn [create_framebuffers].
  destruct (lookup_lt_is_Some_2 (swapchainViews m) i) as [view Hview];
    [lia|].
  rewrite Hview, (drop_S _ view i) by done.
  destruct (decide (k = i)) as [->|Hne].
  - rewrite decide_True by done.
    replace (S i - i)%nat with 1%nat by lia. done.
  - rewrite decide_False by (rewrite Hok by lia; by intros []).
    destruct (IH (S i) (<[i:=(answer i).2]> fbs)
                (calls ++ [framebuffer_call m view])) as [He Hc];
      [lia|done|intros; apply Hok; lia|done|].
    split; [exact He|].
    unfold framebuffer_call in Hc at 1. rewrite Hc.
    replace (S k - i)%nat with (S (S k - S i)) by lia.
    cbn [take fmap list_fmap]. by rewrite <- !app_assoc.
Qed.

(** X3. When the swapchain has an image view for every image and every
    vkCreateFramebuffer succeeds, setupFrameBuffer returns with exactly one
    frame buffer per image, in image order: the i-th call attaches the view
    of image i and the depth stencil view, and the i-th element of
    mFrameBuffers is the handle that call answered. Frame buffers held
    before are overwritten. *)
Theorem setupFrameBuffer_success (answer : nat → Z * Z) (imageCount : nat)
  (m : Members) :
  (imageCount ≤ length (swapchainViews m))%nat →
  (∀ j, (j < imageCount)%nat → (answer j).1 = VK_SUCCESS) →
  setupFrameBuffer answer imageCount m
  = (with_mFrameBuffers ((λ j, (answer j).2) <$> seq 0 imageCount) m,
     framebuffer_call m <$> take imageCount (swapchainViews m),
     Renderer.Returned).
Proof.
  intros Hv Hok. unfold setupFrameBuffer.
  rewrite resize_vec_length, create_framebuffers_success.
  - done.
  - by rewrite resize_vec_length.
  - done.
  - intros j Hj. apply Hok. lia.
Qed.

Lemma setupFrameBuffer_success_witness :
  setupFrameBuffer Examples2.framebuffer_answers 2 Examples2.members0
  = (with_mFrameBuffers [200; 201] Examples2.members0,
     [framebuffer_call Examples2.members0 61;
      framebuffer_call Examples2.members0 62],
     Renderer.Returned).
Proof.
  apply (setupFrameBuffer_success Examples2.framebuffer_answers 2
           Examples2.members0).
  - simpl. lia.
  - intros j Hj. reflexivity.
Defined.

(** X4. setupFrameBuffer stops at the first vkCreateFramebuffer that fails:
    its assertion fails after the calls for the images up to and including
    that one, and no frame buffer is created for a later image. *)
Theorem setupFrameBuffer_first_failure (answer : nat → Z * Z)
  (imageCount k : nat) (m : Members) :
  (k < imageCount)%nat →
  (k < length (swapchainViews m))%nat →
  (∀ j, (j < k)%nat → (answer j).1 = VK_SUCCESS) →
  (answer k).1 ≠ VK_SUCCESS →
  (setupFrameBuffer answer imageCount m).2 = Renderer.AssertFailed
  ∧ (setupFrameBuffer answer imageCount m).1.2
    = framebuffer_call m <$> take (S k) (swapchainViews m).
Proof.
  intros Hk Hv Hok Hbad. unfold setupFrameBuffer.
  rewrite resize_vec_length.
  destruct (create_framebuffers_failure answer m imageCount 0 k
              (resize_vec imageCount 0 (mFrameBuffers m)) [])
    as [He Hc]; [lia|done|intros; apply Hok; lia|done|].
  destruct (create_framebuffers answer m imageCount 0
              (resize_vec imageCount 0 (mFrameBuffers m)) [])
    as [[fbs calls] ending].
  cbn [fst snd] in *. subst. by rewrite Nat.sub_0_r.
Qed.

Lemma setupFrameBuffer_first_failure_witness :
  (setupFrameBuffer Examples2.framebuffer_answers_failing 2
     Examples2.members0).2 = Renderer.AssertFailed
  ∧ (setupFrameBuffer Examples2.framebuffer_answers_failing 2
       Examples2.members0).1.2
    = framebuffer_call Examples2.members0
        <$> take 2 (swapchainViews Examples2.members0).
Proof.
  apply (setupFrameBuffer_first_failure Examples2.framebuffer_answers_failing
           2 1 Examples2.members0).
  - lia.
  - simpl. lia.
  - intros j Hj. assert (j = 0%nat) as -> by lia. reflexivity.
  - vm_compute. discriminate.
Defined.

(** ** Frames *)

Lemma filter_allocation_known (l : list Renderer.Call) :
  List.filter is_allocation (known <$> l) = [].
Proof. induction l as [|c l IH]; [done|]. exact IH. Qed.

Lemma startRender_images (a : StartAnswers) (m : Members)
  (r : Renderer.State) :
  Renderer.swapchainImages (startRender a m r).1.1
  = Renderer.swapchainImages r.
Proof.
  unfold startRender. case_decide; [done|].
  case_decide.
  - destruct (Renderer.mDrawCmdBuffer r !! acquire_index a) as [cmd|] eqn:Hc;
      [|done].
    rewrite Hc. by destruct (beginDrawCommandBuffer _ _ _).
  - destruct (Renderer.written_over _ _ !! acquire_index a); [|done].
    by destruct (beginDrawCommandBuffer _ _ _).
Qed.

Lemma startRender_buffer_count (a : StartAnswers) (m : Members)
  (r : Renderer.State) :
  (startRender a m r).2 = Renderer.Returned →
  length (Renderer.mDrawCmdBuffer (startRender a m r).1.1)
  = length (Renderer.swapchainImages r).
Proof.
  unfold startRender. case_decide; [done|].
  case_decide as Hn.
  - destruct (Renderer.mDrawCmdBuffer r !! acquire_index a) as [cmd|] eqn:Hc;
      [|done].
    rewrite Hc. by destruct (beginDrawCommandBuffer _ _ _).
  - destruct (Renderer.written_over _ _ !! acquire_index a); [|done].
    destruct (beginDrawCommandBuffer _ _ _). intros _. cbn.
    by rewrite written_over_length, resize_vec_length.
Qed.

Lemma beginDrawCommandBuffer_no_allocation (m : Members)
  (r : Renderer.State) (cmd : Z) :
  List.filter is_allocation (beginDrawCommandBuffer m r cmd).1 = [].
Proof.
  unfold beginDrawCommandBuffer.
  by destruct (mFrameBuffers m !! Renderer.currentImageIndex r).
Qed.

Lemma startRender_allocations (a : StartAnswers) (m : Members)
  (r : Renderer.State) :
  (length (List.filter is_allocation (startRender a m r).1.2) ≤ 1)%nat
  ∧ (length (Renderer.mDrawCmdBuffer r)
     = length (Renderer.swapchainImages r) →
     List.filter is_allocation (startRender a m r).1.2 = []).
Proof.
  unfold startRender. case_decide; [cbn; split; [lia|done]|].
  case_decide as Hn.
  - destruct (Renderer.mDrawCmdBuffer r !! acquire_index a) as [cmd|] eqn:Hc;
      [|cbn; split; [lia|done]].
    rewrite Hc.
    pose proof (beginDrawCommandBuffer_no_allocation m
                  (with_frame (acquire_index a) (Renderer.mDrawCmdBuffer r) r)
                  cmd) as Hb.
    destruct (beginDrawCommandBuffer _ _ _) as [calls3 e]. cbn [fst snd] in *.
    rewrite !List.filter_app, Hb. cbn. split; [lia|done].
  - destruct (Renderer.written_over _ _ !! acquire_index a) as [cmd|] eqn:Hc;
      [|cbn; split; [lia|done]].
    match goal with
    | |- context [beginDrawCommandBuffer ?m' ?r' ?c'] =>
        pose proof (beginDrawCommandBuffer_no_allocation m' r' c') as Hb;
        destruct (beginDrawCommandBuffer m' r' c') as [calls3 e]
    end.
    cbn [fst snd] in *.
    rewrite !List.filter_app, Hb. cbn. split; [lia|done].
Qed.

Lemma frame_start (a : FrameAnswers) (m : Members) (r : Renderer.State) :
  (frame a m r).1.1 = (startRender (start a) m r).1.1
  ∧ List.filter is_allocation (frame a m r).1.2
    = List.filter is_allocation (startRender (start a) m r).1.2
  ∧ ((frame a m r).2 = Renderer.Returned →
     (startRender (start a) m r).2 = Renderer.Returned).
Proof.
  unfold frame.
  destruct (startRender (start a) m r) as [[r1 calls1] e1].
  destruct e1; try done.
  destruct (Renderer.finishRender (submit_err a) r1) as [calls2 e2].
  cbn [fst snd].
  by rewrite List.filter_app, filter_allocation_known, app_nil_r.
Qed.

(** X5. Over any number of frames the draw command buffers are allocated at
    most once, whatever the driver answers: startRender allocates only while
    the number of draw command buffers differs from the image count, and
    after a frame that returned the two agree. When they agree from the
    start nothing is allocated at all. *)
Theorem frames_allocate_once (answers : list FrameAnswers) (m : Members)
  (r : Renderer.State) :
  (length (List.filter is_allocation (frames answers m r).1.2) ≤ 1)%nat
  ∧ (length (Renderer.mDrawCmdBuffer r)
     = length (Renderer.swapchainImages r) →
     List.filter is_allocation (frames answers m r).1.2 = []).
Proof.
  revert r. induction answers as [|a rest IH]; intros r.
  - cbn. split; [lia|done].
  - cbn [frames].
    destruct (frame_start a m r) as (Hr1 & Hcalls & Hret).
    destruct (startRender_allocations (start a) m r) as [Hle Hnone].
    pose proof (startRender_buffer_count (start a) m r) as Hcount.
    pose proof (startRender_images (start a) m r) as Himg.
    destruct (frame a m r) as [[r1 calls1] e1]. cbn [fst snd] in *.
    rewrite <- Hcalls in Hle, Hnone.
    destruct e1; try (cbn [fst snd]; by split).
    destruct (IH r1) as [_ IHnone].
    destruct (frames rest m r1) as [[r2 calls2] e2]. cbn [fst snd] in *.
    rewrite List.filter_app, length_app.
    rewrite IHnone by (subst r1; rewrite Hcount, Himg by auto; done).
    rewrite app_nil_r. cbn. split; [lia|]. done.
Qed.

(** In the example the two frames allocate once, for both images. *)
Example two_frames_allocate :
  List.filter is_allocation
    (frames Examples2.two_frames Examples2.members1
       Examples2.renderer_fresh).1.2
  = [vkAllocateCommandBuffers 11 2]
  ∧ (frames Examples2.two_frames Examples2.members1
       Examples2.renderer_fresh).2 = Renderer.Returned.
Proof. vm_compute. done. Qed.

Lemma finishRender_returned (err : Z) (r : Renderer.State)
  (calls : list Renderer.Call) :
  Renderer.finishRender err r = (calls, Renderer.Returned) →
  ∃ cmd post,
    Renderer.mDrawCmdBuffer r !! Renderer.currentImageIndex r = Some cmd
    ∧ calls
      = [Renderer.vkCmdEndRenderPass cmd; Renderer.vkEndCommandBuffer cmd;
         Renderer.Context_end;
         Renderer.vkQueueSubmit (Renderer.mQueue r)
           (Renderer.draw_submitInfo r cmd)] ++ post
    ∧ Renderer.Swapchain_queuePresent (Renderer.mQueue r)
        (Renderer.currentImageIndex r)
        [Renderer.mSemaphoreRenderComplete r] ∈ post.
Proof.
  unfold Renderer.finishRender.
  destruct (Renderer.mDrawCmdBuffer r !! Renderer.currentImageIndex r)
    as [cmd|]; [|done].
  case_decide; [done|].
  destruct (Renderer.swapchainImages r !! Renderer.currentImageIndex r)
    as [imageRef|]; [|done].
  intros [= <-]. exists cmd. eexists. split; [done|]. split.
  - cbn. reflexivity.
  - do 4 apply list_elem_of_further. apply list_elem_of_here.
Qed.

Lemma beginDrawCommandBuffer_returned (m : Members) (r : Renderer.State)
  (cmd : Z) (calls : list Call) :
  beginDrawCommandBuffer m r cmd = (calls, Renderer.Returned) →
  ∃ fb viewport scissor info,
    mFrameBuffers m !! Renderer.currentImageIndex r = Some fb
    ∧ framebuffer info = fb
    ∧ calls = [known (Renderer.vkBeginCommandBuffer cmd);
               vkCmdSetViewport cmd viewport;
               vkCmdSetScissor cmd scissor;
               vkCmdBeginRenderPass cmd info].
Proof.
  unfold beginDrawCommandBuffer, beginRenderPass.
  destruct (mFrameBuffers m !! Renderer.currentImageIndex r) as [fb|];
    [|done].
  intros [= <-]. exists fb. do 3 eexists.
  split; [done|]. split; cycle 1.
  - cbn [app]. reflexivity.
  - done.
Qed.

Lemma startRender_returned (a : StartAnswers) (m : Members)
  (r r' : Renderer.State) (calls : list Call) :
  startRender a m r = (r', calls, Renderer.Returned) →
  ∃ cmds cmd pre fb viewport scissor info,
    r' = with_frame (acquire_index a) cmds r
    ∧ cmds !! acquire_index a = Some cmd
    ∧ mFrameBuffers m !! acquire_index a = Some fb
    ∧ framebuffer info = fb
    ∧ calls
      = Swapchain_acquireNextImage (Renderer.mSemaphorePresentComplete r)
        :: pre
        ++ [Context_begin (acquire_index a);
            known (Renderer.vkBeginCommandBuffer cmd);
            vkCmdSetViewport cmd viewport;
            vkCmdSetScissor cmd scissor;
            vkCmdBeginRenderPass cmd info]
    ∧ (pre = [vkResetCommandBuffer cmd 0]
       ∨ pre = [vkAllocateCommandBuffers (mCommandPool m)
                  (u32 (Z.of_nat (length (Renderer.swapchainImages r))))]).
Proof.
  unfold startRender. case_decide as Hacq; [done|].
  case_decide as Hn.
  - destruct (Renderer.mDrawCmdBuffer r !! acquire_index a) as [cmd|] eqn:Hc;
      [|done].
    rewrite Hc.
    destruct (beginDrawCommandBuffer _ _ _) as [calls3 e] eqn:Hb.
    intros [= <- <- ->].
    apply beginDrawCommandBuffer_returned in Hb
      as (fb & vp & sc & info & Hfb & Hinfo & ->).
    exists (Renderer.mDrawCmdBuffer r), cmd, [vkResetCommandBuffer cmd 0],
      fb, vp, sc, info.
    split; [done|]. split; [done|]. split; [exact Hfb|]. split; [done|].
    split; [done|]. by left.
  - destruct (Renderer.written_over _ _ !! acquire_index a) as [cmd|] eqn:Hc;
      [|done].
    destruct (beginDrawCommandBuffer _ _ _) as [calls3 e] eqn:Hb.
    intros [= <- <- ->].
    apply beginDrawCommandBuffer_returned in Hb
      as (fb & vp & sc & info & Hfb & Hinfo & ->).
    rewrite resize_vec_length.
    eexists _, cmd,
      [vkAllocateCommandBuffers (mCommandPool m)
         (u32 (Z.of_nat (length (Renderer.swapchainImages r))))],
      fb, vp, sc, info.
    split; [reflexivity|]. split; [exact Hc|]. split; [exact Hfb|].
    split; [done|]. split; [reflexivity|]. by right.
Qed.

(** X6. In a frame that returns, the command buffer startRender begins for
    the acquired image is the one that takes the viewport, the scissor and
    the render pass, the one finishRender ends, and the one it submits; the
    submission waits on the semaphore handed to acquireNextImage and signals
    the semaphore the presentation of the acquired image waits on. *)
Theorem frame_one_command_buffer (a : FrameAnswers) (m : Members)
  (r r' : Renderer.State) (calls : list Call) :
  frame a m r = (r', calls, Renderer.Returned) →
  ∃ cmd pre viewport scissor info post,
    Renderer.mDrawCmdBuffer r' !! acquire_index (start a) = Some cmd
    ∧ calls
      = Swapchain_acquireNextImage (Renderer.mSemaphorePresentComplete r)
        :: pre
        ++ [Context_begin (acquire_index (start a));
            known (Renderer.vkBeginCommandBuffer cmd);
            vkCmdSetViewport cmd viewport;
            vkCmdSetScissor cmd scissor;
            vkCmdBeginRenderPass cmd info;
            known (Renderer.vkCmdEndRenderPass cmd);
            known (Renderer.vkEndCommandBuffer cmd);
            known Renderer.Context_end;
            known (Renderer.vkQueueSubmit (Renderer.mQueue r)
                     {| Renderer.pWaitSemaphores :=
                          [Renderer.mSemaphorePresentComplete r];
                        Renderer.pWaitDstStageMask :=
                          [VK_PIPELINE_STAGE_BOTTOM_OF_PIPE_BIT];
                        Renderer.pCommandBuffers := [cmd];
                        Renderer.pSignalSemaphores :=
                          [Renderer.mSemaphoreRenderComplete r] |})]
        ++ post
    ∧ (pre = [vkResetCommandBuffer cmd 0]
       ∨ pre = [vkAllocateCommandBuffers (mCommandPool m)
                  (u32 (Z.of_nat (length (Renderer.swapchainImages r))))])
    ∧ known (Renderer.Swapchain_queuePresent (Renderer.mQueue r)
               (acquire_index (start a))
               [Renderer.mSemaphoreRenderComplete r]) ∈ post.
Proof.
  unfold frame. intros Hf.
  destruct (startRender (start a) m r) as [[r1 calls1] e1] eqn:Hs.
  destruct e1; try done.
  destruct (Renderer.finishRender (submit_err a) r1) as [calls2 e2] eqn:Hfin.
  injection Hf as -> <- ->.
  apply startRender_returned in Hs
    as (cmds & cmd & pre & fb & vp & sc & info & -> & Hc & _ & _ & -> & Hpre).
  apply finishRender_returned in Hfin as (cmd' & post & Hc' & -> & Hin).
  cbn [with_frame Renderer.mDrawCmdBuffer Renderer.currentImageIndex
       Renderer.mQueue Renderer.mSemaphoreRenderComplete] in *.
  rewrite Hc in Hc'. injection Hc' as <-.
  exists cmd, pre, vp, sc, info, (known <$> post).
  split; [exact Hc|]. split.
  - rewrite fmap_app. cbn. rewrite <- !app_assoc. reflexivity.
  - split; [exact Hpre|].
    by apply (list_elem_of_fmap_2 known) in Hin.
Qed.

Lemma frame_one_command_buffer_witness :
  ∃ cmd pre viewport scissor info post,
    Renderer.mDrawCmdBuffer
      (frame {| start :=
                  {| acquire_err := VK_SUCCESS; acquire_index := 1;
                     allocated_buffers := [31; 32] |};
                submit_err := VK_SUCCESS |}
         Examples2.members1 Examples2.renderer_fresh).1.1
      !! 1%nat = Some cmd
    ∧ (frame {| start :=
                  {| acquire_err := VK_SUCCESS; acquire_index := 1;
                     allocated_buffers := [31; 32] |};
                submit_err := VK_SUCCESS |}
         Examples2.members1 Examples2.renderer_fresh).1.2
      = Swapchain_acquireNextImage 21
        :: pre
        ++ [Context_begin 1;
            known (Renderer.vkBeginCommandBuffer cmd);
            vkCmdSetViewport cmd viewport;
            vkCmdSetScissor cmd scissor;
            vkCmdBeginRenderPass cmd info;
            known (Renderer.vkCmdEndRenderPass cmd);
            known (Renderer.vkEndCommandBuffer cmd);
            known Renderer.Context_end;
            known (Renderer.vkQueueSubmit 10
                     {| Renderer.pWaitSemaphores := [21];
                        Renderer.pWaitDstStageMask :=
                          [VK_PIPELINE_STAGE_BOTTOM_OF_PIPE_BIT];
                        Renderer.pCommandBuffers := [cmd];
                        Renderer.pSignalSemaphores := [22] |})]
        ++ post
    ∧ (pre = [vkResetCommandBuffer cmd 0]
       ∨ pre = [vkAllocateCommandBuffers 11 (u32 (Z.of_nat 2))])
    ∧ known (Renderer.Swapchain_queuePresent 10 1 [22]) ∈ post.
Proof.
  apply (frame_one_command_buffer
           {| start :=
                {| acquire_err := VK_SUCCESS; acquire_index := 1;
                   allocated_buffers := [31; 32] |};
              submit_err := VK_SUCCESS |}
           Examples2.members1 Examples2.renderer_fresh).
  vm_compute. reflexivity.
Defined.

(** X7. After setupFrameBuffer returned, the render pass startRender begins
    for the acquired image uses the frame buffer that was created with the
    view of that very image as its colour attachment. *)
Theorem startRender_framebuffer_of_acquired_image (answer : nat → Z * Z)
  (a : StartAnswers) (m m' : Members) (calls_s calls : list Call)
  (r r' : Renderer.State) :
  setupFrameBuffer answer (length (Renderer.swapchainImages r)) m
  = (m', calls_s, Renderer.Returned) →
  startRender a m' r = (r', calls, Renderer.Returned) →
  ∃ view cmd info,
    swapchainViews m !! acquire_index a = Some view
    ∧ calls_s !! acquire_index a = Some (framebuffer_call m view)
    ∧ vkCmdBeginRenderPass cmd info ∈ calls
    ∧ framebuffer info = (answer (acquire_index a)).2.
Proof.
  intros Hsetup Hstart.
  set (n := length (Renderer.swapchainImages r)) in *.
  assert (Hret : (create_framebuffers answer m
                    (length (resize_vec n 0 (mFrameBuffers m))) 0
                    (resize_vec n 0 (mFrameBuffers m)) []).2
                 = Renderer.Returned).
  { unfold setupFrameBuffer in Hsetup.
    destruct (create_framebuffers _ _ _ _ _ _) as [[fbs cs] e].
    by injection Hsetup as _ _ ->. }
  rewrite resize_vec_length in Hret.
  apply create_framebuffers_returned in Hret as [Hlen Hok].
  apply startRender_returned in Hstart
    as (cmds & cmd & pre & fb & vp & sc & info & _ & _ & Hfb & Hinfo & -> & _).
  destruct (decide (n = 0)%nat) as [Hz|Hnz].
  { unfold setupFrameBuffer in Hsetup. rewrite Hz in Hsetup.
    cbn in Hsetup. injection Hsetup as <- _. cbn in Hfb. done. }
  unfold setupFrameBuffer in Hsetup.
  rewrite resize_vec_length, create_framebuffers_success in Hsetup
    by (rewrite ?resize_vec_length; try lia; intros; apply Hok; lia).
  injection Hsetup as <- <-. cbn [take app drop] in *.
  cbn [with_mFrameBuffers mFrameBuffers] in Hfb.
  rewrite list_lookup_fmap in Hfb.
  destruct (seq 0 n !! acquire_index a) as [j|] eqn:Hj; [|done].
  apply lookup_seq in Hj as [-> Hlt]. injection Hfb as <-. cbn in Hinfo.
  destruct (lookup_lt_is_Some_2 (swapchainViews m) (acquire_index a))
    as [view Hview]; [lia|].
  exists view, cmd, info. split; [exact Hview|]. split.
  - rewrite drop_0.
    by rewrite list_lookup_fmap, lookup_take_lt, Hview by lia.
  - split; [|exact Hinfo].
    apply list_elem_of_further. rewrite elem_of_app. right.
    do 4 apply list_elem_of_further. apply list_elem_of_here.
Qed.

Lemma startRender_framebuffer_of_acquired_image_witness :
  ∃ view cmd info,
    swapchainViews Examples2.members0 !! 1%nat = Some view
    ∧ [framebuffer_call Examples2.members0 61;
       framebuffer_call Examples2.members0 62] !! 1%nat
      = Some (framebuffer_call Examples2.members0 view)
    ∧ vkCmdBeginRenderPass cmd info
        ∈ (startRender {| acquire_err := VK_SUCCESS; acquire_index := 1;
                          allocated_buffers := [31; 32] |}
             Examples2.members1 Examples2.renderer_fresh).1.2
    ∧ framebuffer info = (Examples2.framebuffer_answers 1).2.
Proof.
  apply (startRender_framebuffer_of_acquired_image
           Examples2.framebuffer_answers
           {| acquire_err := VK_SUCCESS; acquire_index := 1;
              allocated_buffers := [31; 32] |}
           Examples2.members0 Examples2.members1
           [framebuffer_call Examples2.members0 61;
            framebuffer_call Examples2.members0 62]
           (startRender {| acquire_err := VK_SUCCESS; acquire_index := 1;
                           allocated_buffers := [31; 32] |}
              Examples2.members1 Examples2.renderer_fresh).1.2
           Examples2.renderer_fresh
           (startRender {| acquire_err := VK_SUCCESS; acquire_index := 1;
                           allocated_buffers := [31; 32] |}
              Examples2.members1 Examples2.renderer_fresh).1.1).
  - vm_compute. reflexivity.
  - vm_compute. reflexivity.
Defined.

End FrameFacts.

(* ===================================================================== *)
(** * More facts about of::vk::Shader *)
(* ===================================================================== *)

Section ShaderLoading.
Import Cxx Vk Shader.

Variable Hash64 : list Z → Z → Z.
Variable std_sort :
  (BindingInfo → BindingInfo → bool) → list BindingInfo → list BindingInfo.
Variable pod_padding : nat → list Z * list Z.

(** ** Loading *)

Lemma le_bytes_4_word (b0 b1 b2 b3 : Z) :
  0 ≤ b0 < 256 → 0 ≤ b1 < 256 → 0 ≤ b2 < 256 → 0 ≤ b3 < 256 →
  le_bytes 4 (b0 + 256 * b1 + 65536 * b2 + 16777216 * b3) = [b0; b1; b2; b3].
Proof.
  intros H0 H1 H2 H3.
  assert (Hstep : ∀ b r, 0 ≤ b < 256 →
            (b + 256 * r) mod 256 = b ∧ (b + 256 * r) / 256 = r).
  { intros b r Hb. split.
    - symmetry. apply (Z.mod_unique _ _ r); lia.
    - symmetry. apply (Z.div_unique _ _ _ b); lia. }
  replace (b0 + 256 * b1 + 65536 * b2 + 16777216 * b3)
    with (b0 + 256 * (b1 + 256 * (b2 + 256 * (b3 + 256 * 0)))) by lia.
  cbn [le_bytes].
  destruct (Hstep b0 (b1 + 256 * (b2 + 256 * (b3 + 256 * 0))) H0) as [-> ->].
  destruct (Hstep b1 (b2 + 256 * (b3 + 256 * 0)) H1) as [-> ->].
  destruct (Hstep b2 (b3 + 256 * 0) H2) as [-> ->].
  destruct (Hstep b3 0 H3) as [-> _]. done.
Qed.

Lemma words_of_bytes_bytes (fuel : nat) (bs : list Z) :
  (length bs < 4 * S fuel)%nat →
  Forall (λ b, 0 ≤ b < 256) bs →
  ∃ tail, bs = spirv_bytes (words_of_bytes fuel bs) ++ tail
          ∧ (length tail < 4)%nat.
Proof.
  revert bs. induction fuel as [|fuel IH]; intros bs Hlen Hbytes.
  - exists bs. split; [done|lia].
  - destruct bs as [|b0 [|b1 [|b2 [|b3 rest]]]];
      try (eexists; split; [reflexivity|cbn; lia]).
    apply Forall_cons in Hbytes as [H0 Hbytes].
    apply Forall_cons in Hbytes as [H1 Hbytes].
    apply Forall_cons in Hbytes as [H2 Hbytes].
    apply Forall_cons in Hbytes as [H3 Hbytes].
    destruct (IH rest) as (tail & Hrest & Htail); [cbn in Hlen; lia|done|].
    exists tail. split; [|done].
    cbn [words_of_bytes]. unfold spirv_bytes in *. cbn [flat_map].
    rewrite le_bytes_4_word by done. cbn [app]. by rewrite <- Hrest.
Qed.

(** X8. Loading a SPIR-V file keeps the bytes of the file: the words
    getSpirV assigns, laid out in memory, are the file's bytes without the
    last one, two or three bytes that do not fill a word; isSpirCodeDirty
    hashes exactly these bytes. Nothing is compiled, whatever the stage. *)
Theorem getSpirV_spv_keeps_bytes (env : Env) (shaderStage : Z)
  (fileName : string) (spirCode : list Z) :
  file_extension env fileName = "spv" →
  Forall (λ b, 0 ≤ b < 256) (ofBufferFromFile env fileName) →
  ∃ tail,
    ofBufferFromFile env fileName
    = spirv_bytes (getSpirV env shaderStage fileName spirCode).1 ++ tail
    ∧ (length tail < 4)%nat
    ∧ (getSpirV env shaderStage fileName spirCode).2
      = [NoticeLoadingSpirv fileName].
Proof.
  intros Hext Hbytes. unfold getSpirV. rewrite decide_True by done.
  cbn [fst snd].
  destruct (words_of_bytes_bytes (length (ofBufferFromFile env fileName))
              (ofBufferFromFile env fileName)) as (tail & Hb & Ht);
    [lia|done|].
  by exists tail.
Qed.

Lemma getSpirV_spv_keeps_bytes_witness :
  ∃ tail,
    ofBufferFromFile (Examples.env_with Examples2.ten_bytes) "vert.spv"
    = spirv_bytes
        (getSpirV (Examples.env_with Examples2.ten_bytes)
           VK_SHADER_STAGE_VERTEX_BIT "vert.spv" []).1 ++ tail
    ∧ (length tail < 4)%nat
    ∧ (getSpirV (Examples.env_with Examples2.ten_bytes)
         VK_SHADER_STAGE_VERTEX_BIT "vert.spv" []).2
      = [NoticeLoadingSpirv "vert.spv"].
Proof.
  apply (getSpirV_spv_keeps_bytes (Examples.env_with Examples2.ten_bytes)
           VK_SHADER_STAGE_VERTEX_BIT "vert.spv" []).
  - reflexivity.
  - apply (bool_decide_unpack _). vm_compute. exact I.
Defined.

(** The ten bytes of the example give two words; the last two bytes are
    dropped. *)
Example ten_bytes_two_words :
  (getSpirV (Examples.env_with Examples2.ten_bytes)
     VK_SHADER_STAGE_VERTEX_BIT "vert.spv" []).1 = [119734787; 65536].
Proof. vm_compute. reflexivity. Qed.

Lemma setup_source_missing (env : Env) (d : bool) (s : State) (stage : Z)
  (file : string) :
  file_exists env file = false →
  setup_source Hash64 env (d, s) (stage, file)
  = (d, with_log [ErrShaderFileNotFound file] s).
Proof. intros Hex. unfold setup_source. by rewrite Hex. Qed.

Lemma setup_sources_missing (env : Env) (l : list (Z * string)) (d : bool)
  (s : State) :
  (∀ stage file, (stage, file) ∈ l → file_exists env file = false) →
  foldl (setup_source Hash64 env) (d, s) l
  = (d, with_log ((λ kv, ErrShaderFileNotFound kv.2) <$> l) s).
Proof.
  revert s. induction l as [|[stage file] l IH]; intros s Hmiss.
  - cbn. by rewrite with_log_nil.
  - change (foldl ?f ?a (?x :: ?l)) with (foldl f (f a x) l).
    rewrite setup_source_missing by (apply (Hmiss stage); left).
    rewrite IH by (intros stage' file' Hin; apply (Hmiss stage'); by right).
    by rewrite with_log_with_log.
Qed.

(** X9. When none of the source files exists, setup does nothing but log
    one error per source, in stage order: no hash is stored, no module is
    created, nothing is reflected and no layout is built; the shader is left
    without stages. *)
Theorem setup_missing_files (env : Env) (s : State) :
  (∀ stage file, mSources s !! stage = Some file →
     file_exists env file = false) →
  setup Hash64 std_sort pod_padding env s
  = with_log ((λ kv, ErrShaderFileNotFound kv.2) <$> items_Z (mSources s)) s.
Proof.
  intros Hmiss. unfold setup.
  rewrite setup_sources_missing; [done|].
  intros stage file Hin. apply (Hmiss stage).
  by apply items_Z_elem.
Qed.

(** X10. A GLSL source that fails to compile on the first load of its stage
    is not skipped: the hash of the empty code is stored for the stage, the
    stage counts as dirty, and vkCreateShaderModule is asked to build a
    module from no code at all. *)
Theorem setup_source_failed_compile (env : Env) (d : bool) (s : State)
  (stage : Z) (file : string) :
  file_exists env file = true →
  file_extension env file ≠ "spv" →
  (∀ kind, CompileGlslToSpv env (ofBufferFromFile env file) kind file
           = None) →
  mSpvHash s !! stage = None →
  setup_source Hash64 env (d, s) (stage, file)
  = (true,
     createVkShaderModule env stage file []
       (with_mSpvHash (<[stage := Hash64 [] 0]> (mSpvHash s))
          (with_log [NoticeCompilingGlsl file; ErrShaderCompile file] s))).
Proof.
  intros Hex Hext Hfail Hnew. unfold setup_source, getSpirV.
  rewrite Hex, decide_False by done. rewrite Hfail.
  unfold isSpirCodeDirty. cbn [mSpvHash with_log]. rewrite Hnew.
  by rewrite orb_true_r.
Qed.

End ShaderLoading.

Section ShaderLoadingExamples.
Import Cxx Vk Shader.

Lemma setup_missing_files_witness :
  setup Examples.toy_hash Examples.merge_sort_by Examples.zero_holes
    Examples2.env_missing Examples.shader0
  = with_log
      ((λ kv, ErrShaderFileNotFound kv.2)
         <$> items_Z (mSources Examples.shader0))
      Examples.shader0.
Proof.
  apply (setup_missing_files Examples.toy_hash Examples.merge_sort_by
           Examples.zero_holes Examples2.env_missing Examples.shader0).
  intros stage file _. reflexivity.
Defined.

Lemma setup_source_failed_compile_witness :
  setup_source Examples.toy_hash Examples2.env_broken_glsl
    (false, Examples.shader1) (VK_SHADER_STAGE_VERTEX_BIT, "shader.vert")
  = (true,
     createVkShaderModule Examples2.env_broken_glsl
       VK_SHADER_STAGE_VERTEX_BIT "shader.vert" []
       (with_mSpvHash
          (<[VK_SHADER_STAGE_VERTEX_BIT := Examples.toy_hash [] 0]>
             (mSpvHash Examples.shader1))
          (with_log [NoticeCompilingGlsl "shader.vert";
                     ErrShaderCompile "shader.vert"] Examples.shader1))).
Proof.
  apply (setup_source_failed_compile Examples.toy_hash
           Examples2.env_broken_glsl false Examples.shader1
           VK_SHADER_STAGE_VERTEX_BIT "shader.vert").
  - reflexivity.
  - simpl. discriminate.
  - intros kind. reflexivity.
  - reflexivity.
Defined.

(** The module the example asks for has no code, and a step is recorded
    for it. *)
Example broken_glsl_module :
  mSpvCrossCompilers
    (Examples.setup0 Examples2.env_broken_glsl Examples.shader1)
    !! VK_SHADER_STAGE_VERTEX_BIT = Some []
  ∧ StepCreateShaderModule VK_SHADER_STAGE_VERTEX_BIT
      ∈ steps (Examples.setup0 Examples2.env_broken_glsl Examples.shader1).
Proof.
  split; [vm_compute; reflexivity|].
  vm_compute. apply list_elem_of_here.
Qed.

End ShaderLoadingExamples.

Section ShaderReflection.
Import Cxx Vk Shader.

(** ** Reflection *)

Lemma discover_lookup_other (ds : list (UboResource * Z)) (s : State)
  (name : string) :
  (∀ d, d ∈ ds → ubo_name d.1 ≠ name) →
  mUniforms (discover ds s) !! name = mUniforms s !! name.
Proof.
  revert s. induction ds as [|d ds IH]; intros s Hother; [done|].
  rewrite discover_cons, IH by (intros d' Hd'; apply Hother; by right).
  rewrite processResource_mUniforms.
  apply lookup_insert_ne. apply Hother. left.
Qed.

(** X11. reflect never removes an entry from mUniforms: a uniform block
    that was reflected earlier and that no module declares any longer keeps
    its entry, stage flags and member ranges included, and so keeps its
    place in the layouts built afterwards. *)
Theorem reflect_keeps_undeclared_blocks (env : Env) (s : State)
  (name : string) (b : BindingInfo) :
  mUniforms s !! name = Some b →
  (∀ stage ir u, mSpvCrossCompilers s !! stage = Some ir →
     u ∈ uniform_buffers (get_shader_resources env ir) →
     ubo_name u ≠ name) →
  mUniforms (reflect env s) !! name = Some b.
Proof.
  intros Hb Hother. rewrite reflect_mUniforms, discover_lookup_other; [done|].
  intros d Hd. apply list_elem_of_bind in Hd as ([stage ir] & Hd & Hc).
  apply list_elem_of_fmap in Hd as (u & -> & Hu).
  apply items_Z_elem in Hc. by apply (Hother stage ir u).
Qed.

Lemma reflect_keeps_undeclared_blocks_witness :
  mUniforms
    (reflect (Examples.env_with Examples.binary_A)
       Examples2.shader_with_lights) !! "Lights"
  = Some (merged_entry Examples.lights_block VK_SHADER_STAGE_VERTEX_BIT None).
Proof.
  apply (reflect_keeps_undeclared_blocks (Examples.env_with Examples.binary_A)
           Examples2.shader_with_lights "Lights").
  - vm_compute. reflexivity.
  - intros stage ir u _ Hu. cbn in Hu.
    apply list_elem_of_singleton in Hu as ->. discriminate.
Defined.

Lemma merged_entry_well_formed (ubo : UboResource) (shaderStage : Z)
  (old : option BindingInfo) :
  bi_name (merged_entry ubo shaderStage old) = ubo_name ubo
  ∧ reflected_binding (merged_entry ubo shaderStage old)
  ∧ 0 ≤ bi_size (merged_entry ubo shaderStage old) < 2 ^ 32.
Proof.
  split; [done|]. split; [done|].
  cbn [merged_entry bi_size]. unfold u32. apply Z.mod_pos_bound. lia.
Qed.

Lemma discover_well_formed (ds : list (UboResource * Z)) (s : State) :
  well_formed_uniforms (mUniforms s) →
  well_formed_uniforms (mUniforms (discover ds s)).
Proof.
  revert s. induction ds as [|d ds IH]; intros s Hwf; [done|].
  rewrite discover_cons. apply IH. rewrite processResource_mUniforms.
  apply map_Forall_insert_2; [|done]. apply merged_entry_well_formed.
Qed.

(** X12. reflect keeps mUniforms well formed: every entry is filed under
    the name it carries, is a dynamic uniform buffer with a descriptor count
    of one and no immutable samplers, and has a size within uint32_t. A
    shader starts with an empty map, so this holds after every reflect. *)
Theorem reflect_well_formed (env : Env) (s : State) :
  well_formed_uniforms (mUniforms s) →
  well_formed_uniforms (mUniforms (reflect env s)).
Proof.
  intros Hwf. rewrite reflect_mUniforms. by apply discover_well_formed.
Qed.

Lemma reflect_well_formed_witness :
  well_formed_uniforms
    (mUniforms
       (reflect (Examples.env_with Examples.binary_A)
          Examples2.shader_with_lights)).
Proof.
  apply (reflect_well_formed (Examples.env_with Examples.binary_A)
           Examples2.shader_with_lights).
  apply (discover_well_formed
           [(Examples.lights_block, VK_SHADER_STAGE_VERTEX_BIT)]
           Examples.shader0).
  apply map_Forall_empty.
Defined.

(** ** Vertex inputs *)

Lemma processVertexInput_fold (inputs : list StageInput) (v0 : VertexInfo)
  (lg0 : list LogEntry) :
  (length inputs ≤ length (attribute v0))%nat →
  (length inputs ≤ length (bindingDescription v0))%nat →
  length (attribute
            (foldl processVertexInput (v0, lg0) (imap pair inputs)).1)
  = length (attribute v0)
  ∧ length (bindingDescription
              (foldl processVertexInput (v0, lg0) (imap pair inputs)).1)
    = length (bindingDescription v0)
  ∧ (∀ i input, inputs !! i = Some input →
       ∃ at_ bd,
         attribute (foldl processVertexInput (v0, lg0) (imap pair inputs)).1
           !! i = Some at_
         ∧ bindingDescription
             (foldl processVertexInput (v0, lg0) (imap pair inputs)).1
             !! i = Some bd
         ∧ via_location at_ = default (Z.of_nat i) (si_location input)
         ∧ via_binding at_ = default (Z.of_nat i) (si_location input)
         ∧ vib_binding bd = default (Z.of_nat i) (si_location input)
         ∧ vib_stride bd
           = u32 (u32 ((si_width input / 8) * si_vecsize input)
                  * si_columns input)
         ∧ vib_inputRate bd = VK_VERTEX_INPUT_RATE_VERTEX
         ∧ (si_vecsize input = 3 → via_format at_ = VK_FORMAT_R32G32B32_SFLOAT)
         ∧ (si_vecsize input = 4 →
            via_format at_ = VK_FORMAT_R32G32B32A32_SFLOAT)
         ∧ (si_vecsize input ≠ 3 → si_vecsize input ≠ 4 →
            via_format at_
            = via_format (default attribute_default (attribute v0 !! i))))
  ∧ (∀ i, (length inputs ≤ i)%nat →
       attribute (foldl processVertexInput (v0, lg0) (imap pair inputs)).1
         !! i = attribute v0 !! i
       ∧ bindingDescription
           (foldl processVertexInput (v0, lg0) (imap pair inputs)).1 !! i
         = bindingDescription v0 !! i).
Proof.
  induction inputs as [|x l IH] using rev_ind; intros Ha Hb.
  - cbn. split; [done|]. split; [done|]. split; [|done].
    intros i input Hi. done.
  - rewrite length_app in Ha, Hb. cbn in Ha, Hb.
    destruct IH as (IHa & IHb & IHin & IHout); [lia|lia|].
    rewrite imap_app, foldl_app. cbn [imap foldl].
    rewrite Nat.add_0_r.
    destruct (foldl processVertexInput (v0, lg0) (imap pair l))
      as [v' lg'].
    cbn [fst snd] in *. cbn [processVertexInput fst attribute
                             bindingDescription].
    rewrite !length_insert. split; [done|]. split; [done|]. split.
    + intros i input Hi.
      destruct (decide (i = length l)) as [->|Hne].
      * rewrite lookup_app_r, Nat.sub_diag in Hi by lia.
        injection Hi as ->.
        rewrite !list_lookup_insert_eq by lia.
        eexists _, _. split; [reflexivity|]. split; [reflexivity|].
        cbn [via_location via_binding vib_binding vib_stride vib_inputRate
             via_format].
        destruct (IHout (length l)) as [-> _]; [lia|].
        repeat split; try done.
        -- intros H3. by rewrite decide_True by done.
        -- intros H4. rewrite decide_False by lia.
           by rewrite decide_True by done.
        -- intros H3 H4. by rewrite !decide_False by done.
      * assert (i < length l)%nat as Hlt.
        { apply lookup_lt_Some in Hi. rewrite length_app in Hi. cbn in Hi.
          lia. }
        rewrite lookup_app_l in Hi by lia.
        rewrite !list_lookup_insert_ne by lia. by apply IHin.
    + intros i Hi. rewrite length_app in Hi. cbn in Hi.
      rewrite !list_lookup_insert_ne by lia. apply IHout. lia.
Qed.

(** X13. processVertexInputs leaves exactly one attribute description and
    one binding description per stage input, whatever mVertexInfo held
    before. Input i is described at index i; its location, taken from the
    Location decoration or else the index, is used as attribute location
    and as binding number alike; the stride is width / 8 * vecsize * columns
    in uint32_t arithmetic. The format is set for 3 and 4 component vectors
    only: for any other type the element keeps the format it had, which is
    zero when the vector had to grow. *)
Theorem processVertexInputs_descriptions (res : ShaderResources) (s : State)
  (i : nat) (input : StageInput) :
  stage_inputs res !! i = Some input →
  length (attribute (mVertexInfo (processVertexInputs res s)))
  = length (stage_inputs res)
  ∧ length (bindingDescription (mVertexInfo (processVertexInputs res s)))
    = length (stage_inputs res)
  ∧ ∃ at_ bd,
      attribute (mVertexInfo (processVertexInputs res s)) !! i = Some at_
      ∧ bindingDescription (mVertexInfo (processVertexInputs res s)) !! i
        = Some bd
      ∧ via_location at_ = default (Z.of_nat i) (si_location input)
      ∧ via_binding at_ = default (Z.of_nat i) (si_location input)
      ∧ vib_binding bd = default (Z.of_nat i) (si_location input)
      ∧ vib_stride bd
        = u32 (u32 ((si_width input / 8) * si_vecsize input)
               * si_columns input)
      ∧ vib_inputRate bd = VK_VERTEX_INPUT_RATE_VERTEX
      ∧ (si_vecsize input = 3 → via_format at_ = VK_FORMAT_R32G32B32_SFLOAT)
      ∧ (si_vecsize input = 4 → via_format at_ = VK_FORMAT_R32G32B32A32_SFLOAT)
      ∧ (si_vecsize input ≠ 3 → si_vecsize input ≠ 4 →
         via_format at_
         = via_format
             (default attribute_default
                (attribute (mVertexInfo s) !! i))).
Proof.
  intros Hi. unfold processVertexInputs.
  set (n := length (stage_inputs res)).
  set (v0 := {| attribute :=
                  resize_vec n attribute_default (attribute (mVertexInfo s));
                bindingDescription :=
                  resize_vec n bindingDescription_default
                    (bindingDescription (mVertexInfo s));
                vi_counts := vi_counts (mVertexInfo s) |}).
  destruct (processVertexInput_fold (stage_inputs res) v0
              [NoticeVertexAttributeLocations])
    as (Ha & Hb & Hin & _).
  { subst v0. cbn. by rewrite resize_vec_length. }
  { subst v0. cbn. by rewrite resize_vec_length. }
  destruct (Hin i input Hi)
    as (at_ & bd & H1 & H2 & H3 & H4 & H5 & H6 & H7 & H8 & H9 & H10).
  destruct (foldl processVertexInput (v0, [NoticeVertexAttributeLocations])
              (imap pair (stage_inputs res))) as [v1 lg].
  cbn [fst snd mVertexInfo with_mVertexInfo attribute bindingDescription]
    in *.
  subst v0. cbn [attribute bindingDescription] in *.
  rewrite resize_vec_length in Ha. rewrite resize_vec_length in Hb.
  split; [done|]. split; [done|].
  exists at_, bd. repeat (split; [done|]).
  intros Hn3 Hn4. rewrite (H10 Hn3 Hn4).
  apply lookup_lt_Some in Hi. fold n in Hi.
  unfold resize_vec.
  destruct (decide (i < length (attribute (mVertexInfo s)))%nat) as [Hlt|Hge].
  - rewrite lookup_app_l by (rewrite length_take; lia).
    by rewrite lookup_take_lt by lia.
  - rewrite lookup_app_r by (rewrite length_take; lia).
    rewrite lookup_replicate_2 by (rewrite length_take; lia).
    by rewrite lookup_ge_None_2 by lia.
Qed.

Lemma processVertexInputs_descriptions_witness :
  length (attribute
            (mVertexInfo
               (processVertexInputs Examples2.vertex_resources
                  Examples.shader0)))
  = length (stage_inputs Examples2.vertex_resources)
  ∧ length (bindingDescription
              (mVertexInfo
                 (processVertexInputs Examples2.vertex_resources
                    Examples.shader0)))
    = length (stage_inputs Examples2.vertex_resources)
  ∧ ∃ at_ bd,
      attribute
        (mVertexInfo
           (processVertexInputs Examples2.vertex_resources Examples.shader0))
        !! 1%nat = Some at_
      ∧ bindingDescription
          (mVertexInfo
             (processVertexInputs Examples2.vertex_resources
                Examples.shader0)) !! 1%nat = Some bd
      ∧ via_location at_
        = default (Z.of_nat 1) (si_location Examples2.colour_input)
      ∧ via_binding at_
        = default (Z.of_nat 1) (si_location Examples2.colour_input)
      ∧ vib_binding bd
        = default (Z.of_nat 1) (si_location Examples2.colour_input)
      ∧ vib_stride bd
        = u32 (u32 ((si_width Examples2.colour_input / 8)
                    * si_vecsize Examples2.colour_input)
               * si_columns Examples2.colour_input)
      ∧ vib_inputRate bd = VK_VERTEX_INPUT_RATE_VERTEX
      ∧ (si_vecsize Examples2.colour_input = 3 →
         via_format at_ = VK_FORMAT_R32G32B32_SFLOAT)
      ∧ (si_vecsize Examples2.colour_input = 4 →
         via_format at_ = VK_FORMAT_R32G32B32A32_SFLOAT)
      ∧ (si_vecsize Examples2.colour_input ≠ 3 →
         si_vecsize Examples2.colour_input ≠ 4 →
         via_format at_
         = via_format
             (default attribute_default
                (attribute (mVertexInfo Examples.shader0) !! 1%nat))).
Proof.
  apply (processVertexInputs_descriptions Examples2.vertex_resources
           Examples.shader0 1 Examples2.colour_input).
  reflexivity.
Defined.

(** The vec4 of the example is read from binding 3 with a stride of 16
    bytes. *)
Example colour_input_description :
  bindingDescription
    (mVertexInfo
       (processVertexInputs Examples2.vertex_resources Examples.shader0))
    !! 1%nat
  = Some {| vib_binding := 3; vib_stride := 16; vib_inputRate := 0 |}.
Proof. vm_compute. reflexivity. Qed.

End ShaderReflection.

Section ShaderLayouts.
Import Cxx Vk Shader.

Variable Hash64 : list Z → Z → Z.
Variable std_sort :
  (BindingInfo → BindingInfo → bool) → list BindingInfo → list BindingInfo.
Variable pod_padding : nat → list Z * list Z.

(** ** What a layout holds *)

(** The entries of a map are its keys, each with the value found under
    it. *)
Lemma items_Z_by_key {V : Type} (d : V) (m : gmap Z V) :
  items_Z m = (λ k, (k, default d (m !! k))) <$> (items_Z m).*1.
Proof.
  rewrite <- list_fmap_compose.
  rewrite <- (list_fmap_id (items_Z m)) at 1.
  apply list_fmap_ext. intros i [k v] Hi. cbn.
  apply list_elem_of_lookup_2, items_Z_elem in Hi. by rewrite Hi.
Qed.

Lemma group_by_set_fold_lookup (l : list (string * BindingInfo))
  (acc : gmap Z (list BindingInfo)) (k : Z) :
  foldl (λ bindingInfoMap kv,
           <[bi_set kv.2 :=
               default [] (bindingInfoMap !! bi_set kv.2) ++ [kv.2]]>
             bindingInfoMap) acc l !! k
  = match filter (λ b, bi_set b = k) (l.*2) with
    | [] => acc !! k
    | new => Some (default [] (acc !! k) ++ new)
    end.
Proof.
  revert acc. induction l as [|kv l IH]; intros acc; [done|].
  change (foldl ?f ?a (?x :: ?l)) with (foldl f (f a x) l).
  rewrite IH, fmap_cons, filter_cons.
  case_decide as Hk.
  - rewrite Hk, lookup_insert_eq. cbn [default].
    destruct (filter (λ b, bi_set b = k) (l.*2)) as [|b new]; [done|].
    unfold id. by rewrite <- app_assoc.
  - by rewrite lookup_insert_ne by done.
Qed.

Lemma group_by_set_lookup (s : State) (k : Z) :
  group_by_set (mUniforms s) !! k
  = match bindings_of_set s k with
    | [] => None
    | new => Some new
    end.
Proof.
  unfold group_by_set, bindings_of_set.
  rewrite group_by_set_fold_lookup, lookup_empty. done.
Qed.

Lemma sorted_sets_by_key (s : State) :
  items_Z (sort_sets std_sort (group_by_set (mUniforms s)))
  = (λ k, (k, std_sort by_binding_number (bindings_of_set s k)))
      <$> observed_sets s.
Proof.
  rewrite (items_Z_by_key [] (sort_sets std_sort _)).
  unfold sort_sets at 2. rewrite items_Z_keys_fmap.
  fold (observed_sets s).
  apply list_fmap_ext. intros i k Hi. f_equal.
  apply list_elem_of_lookup_2 in Hi.
  apply items_Z_key_elem in Hi as [l Hl].
  unfold sort_sets. rewrite lookup_fmap, Hl. cbn.
  rewrite group_by_set_lookup in Hl.
  destruct (bindings_of_set s k); [done|]. by injection Hl as <-.
Qed.

(** X14. What buildSetLayouts hands over: for every descriptor set number
    in use, in ascending order, one layout that holds exactly the entries of
    mUniforms in that set, collected in name order and then sorted by
    binding number, together with the hash of these bindings as its key; the
    keys are pushed in the same order. No binding is dropped and none
    appears in the layout of another set. *)
Theorem buildSetLayouts_layout_contents (s : State) :
  storedLayouts (buildSetLayouts Hash64 std_sort pod_padding s)
  = storedLayouts s
      ++ ((λ k, calculateHash Hash64 pod_padding
                  {| bindings :=
                       std_sort by_binding_number (bindings_of_set s k);
                     key := 0 |})
            <$> observed_sets s)
  ∧ mDescriptorSetLayoutKeys (buildSetLayouts Hash64 std_sort pod_padding s)
    = mDescriptorSetLayoutKeys s
        ++ ((λ k, key (calculateHash Hash64 pod_padding
                         {| bindings :=
                              std_sort by_binding_number
                                (bindings_of_set s k);
                            key := 0 |}))
              <$> observed_sets s)
  ∧ (∀ name b, mUniforms s !! name = Some b →
       bi_set b ∈ observed_sets s ∧ b ∈ bindings_of_set s (bi_set b))
  ∧ (∀ k b, b ∈ bindings_of_set s k →
       bi_set b = k ∧ ∃ name, mUniforms s !! name = Some b).
Proof.
  destruct (buildSetLayouts_stored Hash64 std_sort pod_padding s) as [-> ->].
  rewrite sorted_sets_by_key, <- !list_fmap_compose.
  split; [done|]. split; [done|]. split.
  - intros name b Hb. split.
    + apply observed_sets_used. by exists name, b.
    + unfold bindings_of_set. apply list_elem_of_filter. split; [done|].
      apply list_elem_of_fmap. exists (name, b). split; [done|].
      by apply items_str_elem.
  - intros k b Hb. unfold bindings_of_set in Hb.
    apply list_elem_of_filter in Hb as [Hk Hb]. split; [done|].
    apply list_elem_of_fmap in Hb as ([name b'] & -> & Hin).
    exists name. by apply items_str_elem.
Qed.

(** The two layouts of the example: set 0 with the block at binding 0, set
    2 with the block at binding 0. *)
Example layout_contents_sets_0_2 :
  (λ l, (λ b, (bi_name b, binding (bi_binding b))) <$> bindings l)
    <$> storedLayouts (Examples.buildSetLayouts0 Examples.shader_sets_0_2)
  = [[("DefaultMatrices", 0)]; [("Lights", 0)]].
Proof. vm_compute. reflexivity. Qed.




(** In the example a second build doubles the two keys. *)
Example keys_after_two_builds :
  length (mDescriptorSetLayoutKeys
            (Examples.buildSetLayouts0
               (Examples.buildSetLayouts0 Examples.shader_sets_0_2)))
  = 4%nat.
Proof. vm_compute. reflexivity. Qed.

End ShaderLayouts.

Section ShaderWitnesses.
Import Cxx Vk Shader.

Lemma processResource_incompatible_witness :
  ErrIncompatibleBindings (ubo_name Examples.matrices_block_moved)
    ∈ log (processResource Examples.matrices_block_moved
             VK_SHADER_STAGE_FRAGMENT_BIT
             (discover [(Examples.matrices_block, VK_SHADER_STAGE_VERTEX_BIT)]
                Examples.shader0))
  ∧ ∃ b, mUniforms
           (processResource Examples.matrices_block_moved
              VK_SHADER_STAGE_FRAGMENT_BIT
              (discover
                 [(Examples.matrices_block, VK_SHADER_STAGE_VERTEX_BIT)]
                 Examples.shader0))
           !! ubo_name Examples.matrices_block_moved = Some b
         ∧ stageFlags (bi_binding b) = VK_SHADER_STAGE_FRAGMENT_BIT
         ∧ bi_set b = default 0 (ubo_set Examples.matrices_block_moved)
         ∧ binding (bi_binding b)
           = default 0 (ubo_binding Examples.matrices_block_moved).
Proof.
  apply (processResource_incompatible
           (discover [(Examples.matrices_block, VK_SHADER_STAGE_VERTEX_BIT)]
              Examples.shader0)
           Examples.matrices_block_moved VK_SHADER_STAGE_FRAGMENT_BIT
           (merged_entry Examples.matrices_block VK_SHADER_STAGE_VERTEX_BIT
              None)).
  - vm_compute. reflexivity.
  - right. simpl. lia.
Defined.

Lemma calculateHash_reflected_bindings_witness :
  key (calculateHash Examples.toy_hash Examples.zero_holes
         (Examples.layout_of Examples.matrices_info))
  = key (calculateHash Examples.toy_hash Examples.zero_holes
           (Examples.layout_of Examples.matrices_info_renamed)).
Proof.
  apply (calculateHash_reflected_bindings Examples.toy_hash
           Examples.zero_holes (Examples.layout_of Examples.matrices_info)
           (Examples.layout_of Examples.matrices_info_renamed)).
  - repeat constructor.
  - repeat constructor.
  - repeat constructor.
Defined.

Lemma buildSetLayouts_contiguous_witness :
  log (buildSetLayouts Examples.toy_hash Examples.merge_sort_by
         Examples.zero_holes
         (discover Examples.found_vertex_first Examples.shader0))
  = log (discover Examples.found_vertex_first Examples.shader0).
Proof.
  apply (buildSetLayouts_contiguous Examples.toy_hash Examples.merge_sort_by
           Examples.zero_holes
           (discover Examples.found_vertex_first Examples.shader0)).
  - apply (bool_decide_unpack _). vm_compute. exact I.
  - intros k j Hk Hj. apply observed_sets_used in Hk.
    assert (Hobs : observed_sets
                     (discover Examples.found_vertex_first Examples.shader0)
                   = [0]) by (vm_compute; reflexivity).
    rewrite Hobs in Hk. apply list_elem_of_singleton in Hk. lia.
Defined.

Lemma setup_clean_witness :
  ∃ lines,
    setup Examples.toy_hash Examples.merge_sort_by Examples.zero_holes
      (Examples.env_with Examples.binary_A) Examples2.shader_loaded
    = with_log lines Examples2.shader_loaded.
Proof.
  apply (setup_clean Examples.toy_hash Examples.merge_sort_by
           Examples.zero_holes (Examples.env_with Examples.binary_A)
           Examples2.shader_loaded).
  apply (bool_decide_unpack _). vm_compute. exact I.
Defined.

End ShaderWitnesses.

(* ===================================================================== *)
(** * More facts about ofVkRenderer *)
(* ===================================================================== *)

Section RendererTraces.
Import Cxx Vk Renderer.

(** X20. A finishRender that returns hands the image of the current index
    to presentation in the layout PRESENT_SRC and takes it back afterwards:
    the pre-present barrier moves that image from COLOR_ATTACHMENT_OPTIMAL
    to PRESENT_SRC and is recorded, ended and submitted before the present;
    the post-present barrier moves the same image back and is recorded,
    ended and submitted after it; nothing else is recorded in between, and
    the last call waits for the queue to idle. *)
Theorem finishRender_presents_between_barriers (err : Z) (r : State)
  (calls : list Call) :
  finishRender err r = (calls, Returned) →
  ∃ image before,
    swapchainImages r !! currentImageIndex r = Some image
    ∧ (∀ c, c ∈ before → is_barrier c = false ∧ is_present c = false)
    ∧ calls
      = before
        ++ [vkBeginCommandBuffer (mPrePresentCommandBuffer r);
            vkCmdPipelineBarrier (mPrePresentCommandBuffer r)
              VK_PIPELINE_STAGE_TOP_OF_PIPE_BIT
              VK_PIPELINE_STAGE_TOP_OF_PIPE_BIT
              (createImageBarrier image VK_IMAGE_ASPECT_COLOR_BIT
                 VK_IMAGE_LAYOUT_COLOR_ATTACHMENT_OPTIMAL
                 VK_IMAGE_LAYOUT_PRESENT_SRC_KHR);
            vkEndCommandBuffer (mPrePresentCommandBuffer r);
            vkQueueSubmit (mQueue r)
              (plain_submitInfo (mPrePresentCommandBuffer r));
            Swapchain_queuePresent (mQueue r) (currentImageIndex r)
              [mSemaphoreRenderComplete r];
            vkBeginCommandBuffer (mPostPresentCommandBuffer r);
            vkCmdPipelineBarrier (mPostPresentCommandBuffer r)
              VK_PIPELINE_STAGE_ALL_COMMANDS_BIT
              VK_PIPELINE_STAGE_TOP_OF_PIPE_BIT
              (postPresentBarrier 0 VK_ACCESS_COLOR_ATTACHMENT_WRITE_BIT
                 VK_IMAGE_LAYOUT_PRESENT_SRC_KHR
                 VK_IMAGE_LAYOUT_COLOR_ATTACHMENT_OPTIMAL image);
            vkEndCommandBuffer (mPostPresentCommandBuffer r);
            vkQueueSubmit (mQueue r)
              (plain_submitInfo (mPostPresentCommandBuffer r));
            vkQueueWaitIdle (mQueue r)].
Proof.
  unfold finishRender.
  destruct (mDrawCmdBuffer r !! currentImageIndex r) as [cmd|]; [|done].
  case_decide; [done|].
  destruct (swapchainImages r !! currentImageIndex r) as [image|]; [|done].
  intros [= <-]. exists image.
  exists [vkCmdEndRenderPass cmd; vkEndCommandBuffer cmd; Context_end;
          vkQueueSubmit (mQueue r) (draw_submitInfo r cmd)].
  split; [done|]. split; [|reflexivity].
  intros c Hc. explicit_elem Hc; by subst c.
Qed.

Lemma finishRender_presents_between_barriers_witness :
  ∃ image before,
    swapchainImages Examples.renderer0
      !! currentImageIndex Examples.renderer0 = Some image
    ∧ (∀ c, c ∈ before → is_barrier c = false ∧ is_present c = false)
    ∧ (finishRender 0 Examples.renderer0).1
      = before
        ++ [vkBeginCommandBuffer 41;
            vkCmdPipelineBarrier 41
              VK_PIPELINE_STAGE_TOP_OF_PIPE_BIT
              VK_PIPELINE_STAGE_TOP_OF_PIPE_BIT
              (createImageBarrier image VK_IMAGE_ASPECT_COLOR_BIT
                 VK_IMAGE_LAYOUT_COLOR_ATTACHMENT_OPTIMAL
                 VK_IMAGE_LAYOUT_PRESENT_SRC_KHR);
            vkEndCommandBuffer 41;
            vkQueueSubmit 10 (plain_submitInfo 41);
            Swapchain_queuePresent 10 1 [22];
            vkBeginCommandBuffer 42;
            vkCmdPipelineBarrier 42
              VK_PIPELINE_STAGE_ALL_COMMANDS_BIT
              VK_PIPELINE_STAGE_TOP_OF_PIPE_BIT
              (postPresentBarrier 0 VK_ACCESS_COLOR_ATTACHMENT_WRITE_BIT
                 VK_IMAGE_LAYOUT_PRESENT_SRC_KHR
                 VK_IMAGE_LAYOUT_COLOR_ATTACHMENT_OPTIMAL image);
            vkEndCommandBuffer 42;
            vkQueueSubmit 10 (plain_submitInfo 42);
            vkQueueWaitIdle 10].
Proof.
  apply (finishRender_presents_between_barriers 0 Examples.renderer0).
  vm_compute. reflexivity.
Defined.

(** X21. When the submission of the draw command buffer fails, finishRender
    does not return, and up to that point nothing was presented and no
    layout transition was recorded. *)
Theorem finishRender_failed_submit (err : Z) (r : State) :
  err ≠ VK_SUCCESS →
  (finishRender err r).2 ≠ Returned
  ∧ ∀ c, c ∈ (finishRender err r).1 →
      is_present c = false ∧ is_barrier c = false.
Proof.
  intros Herr. unfold finishRender.
  destruct (mDrawCmdBuffer r !! currentImageIndex r) as [cmd|].
  - rewrite decide_True by done. split; [done|].
    intros c Hc. cbn in Hc. explicit_elem Hc; by subst c.
  - split; [done|]. intros c Hc. by apply elem_of_nil in Hc.
Qed.

Lemma finishRender_failed_submit_witness :
  (finishRender (-4) Examples.renderer0).2 ≠ Returned
  ∧ ∀ c, c ∈ (finishRender (-4) Examples.renderer0).1 →
      is_present c = false ∧ is_barrier c = false.
Proof.
  apply (finishRender_failed_submit (-4) Examples.renderer0).
  unfold VK_SUCCESS. lia.
Defined.

(** X22. Everything draw records goes into the draw command buffer of the
    current swapchain image, never into the buffer of another image; when
    there is no such buffer, or no shader, descriptor set or pipeline
    layout, it records nothing at all. *)
Theorem draw_records_into_current_buffer (c : ContextAnswers)
  (mesh_ : ofMesh) (r : State) :
  (∀ call cmd, call ∈ (draw c mesh_ r).1 →
     command_buffer_of call = Some cmd →
     mDrawCmdBuffer r !! currentImageIndex r = Some cmd)
  ∧ (mShaders r = [] ∨ mDescriptorSets r = [] ∨ mPipelineLayouts r = []
     ∨ mDrawCmdBuffer r !! currentImageIndex r = None →
     draw c mesh_ r = ([], OutOfRange)).
Proof.
  unfold draw. split.
  - intros call cmd' Hin Hcmd.
    destruct (mShaders r) as [|sh shs];
      [by apply elem_of_nil in Hin|].
    destruct (mDescriptorSets r) as [|set0 sets];
      [by apply elem_of_nil in Hin|].
    destruct (mDrawCmdBuffer r !! currentImageIndex r) as [cmd|];
      [|by apply elem_of_nil in Hin].
    destruct (mPipelineLayouts r) as [|pl pls];
      [by apply elem_of_nil in Hin|].
    destruct (storeMesh c mesh_) as [vertexOffsets indexOffsets].
    destruct indexOffsets as [|io ios].
    + cbn in Hin. explicit_elem Hin; subst call; by simplify_eq.
    + destruct (replicate (length vertexOffsets) (getVkBuffer c))
        as [|b0 bs].
      * cbn in Hin. explicit_elem Hin; subst call; by simplify_eq.
      * cbn in Hin. explicit_elem Hin; subst call; by simplify_eq.
  - intros [Hs|[Hd|[Hp|Hc]]].
    + by rewrite Hs.
    + rewrite Hd. by destruct (mShaders r).
    + rewrite Hp. destruct (mShaders r); [done|].
      destruct (mDescriptorSets r); [done|].
      by destruct (mDrawCmdBuffer r !! currentImageIndex r).
    + rewrite Hc. destruct (mShaders r); [done|].
      by destruct (mDescriptorSets r).
Qed.

(** X23. querySurfaceCapabilities returns only when the counting call
    succeeded, at least one format was reported and the second call
    succeeded; in every other case the window colour format is left as it
    was, and a failed count or an empty list ends the process with exit
    code 1 after one error line. *)
Theorem querySurfaceCapabilities_failures (a : SurfaceAnswers)
  (old : VkSurfaceFormatKHR) :
  ((querySurfaceCapabilities a old).2 = Returned
   ↔ err_count a = VK_SUCCESS ∧ surfaceFormats a ≠ []
     ∧ err_formats a = VK_SUCCESS)
  ∧ ((querySurfaceCapabilities a old).2 ≠ Returned →
     (querySurfaceCapabilities a old).1.1 = old)
  ∧ (err_count a ≠ VK_SUCCESS ∨ surfaceFormats a = [] →
     querySurfaceCapabilities a old = (old, [ErrNoValidFormat], Exited 1)).
Proof.
  unfold querySurfaceCapabilities.
  destruct (surfaceFormats a) as [|first rest] eqn:Hf.
  - rewrite decide_True by (by right). cbn.
    split; [split; [done|by intros (_ & ? & _)]|]. split; done.
  - case_decide as H1.
    + destruct H1 as [H1|H1]; [|done]. cbn.
      split; [split; [done|by intros (? & _)]|]. split; done.
    + assert (err_count a = VK_SUCCESS) as Hc
        by (destruct (decide (err_count a = VK_SUCCESS)); [done|];
            destruct H1; by left).
      case_decide as H2; cbn.
      * split; [split; [done|by intros (_ & _ & ?)]|].
        split; [done|]. by intros [?|?].
      * assert (err_formats a = VK_SUCCESS) as He
          by (destruct (decide (err_formats a = VK_SUCCESS)); [done|];
              by destruct H2).
        split; [by split|]. split; [done|]. by intros [?|?].
Qed.

End RendererTraces.

Section ShaderModules.
Import Cxx Vk Shader.

Variable Hash64 : list Z → Z → Z.
Variable std_sort :
  (BindingInfo → BindingInfo → bool) → list BindingInfo → list BindingInfo.
Variable pod_padding : nat → list Z * list Z.

(** ** Modules and stages *)

Lemma same_modules_trans (s1 s2 s3 : State) :
  same_modules s1 s2 → same_modules s2 s3 → same_modules s1 s3.
Proof.
  intros (H1 & H2 & H3) (H4 & H5 & H6). unfold same_modules.
  by rewrite H1, H2, H3, H4, H5, H6.
Qed.

Lemma same_modules_consistent (s1 s2 : State) :
  same_modules s1 s2 → modules_consistent s2 → modules_consistent s1.
Proof.
  intros (H1 & H2 & H3). unfold modules_consistent.
  by rewrite H1, H2, H3.
Qed.

Lemma processResource_same_modules (ubo : UboResource) (shaderStage : Z)
  (s : State) :
  same_modules (processResource ubo shaderStage s) s.
Proof.
  unfold processResource.
  destruct (mUniforms s !! ubo_name ubo) as [e|]; [case_decide|]; done.
Qed.

Lemma discover_same_modules (ds : list (UboResource * Z)) (s : State) :
  same_modules (discover ds s) s.
Proof.
  revert s. induction ds as [|d ds IH]; intros s; [done|].
  rewrite discover_cons.
  eapply same_modules_trans; [apply IH|apply processResource_same_modules].
Qed.

Lemma processVertexInputs_same_modules (res : ShaderResources) (s : State) :
  same_modules (processVertexInputs res s) s.
Proof.
  unfold processVertexInputs.
  by destruct (foldl processVertexInput _ _).
Qed.

Lemma reflect_stage_same_modules (env : Env) (s : State) (c : Z * list Z) :
  same_modules (reflect_stage env s c) s.
Proof.
  destruct c as [shaderStage ir]. unfold reflect_stage.
  rewrite foldl_processResource_discover.
  assert (same_modules
            (discover
               ((λ u, (u, shaderStage))
                  <$> uniform_buffers (get_shader_resources env ir))
               (with_log
                  (if decide (Z.land shaderStage VK_SHADER_STAGE_VERTEX_BIT ≠ 0)
                   then [NoticeStageBanner VK_SHADER_STAGE_VERTEX_BIT]
                   else if decide
                             (Z.land shaderStage VK_SHADER_STAGE_FRAGMENT_BIT
                              ≠ 0)
                        then [NoticeStageBanner VK_SHADER_STAGE_FRAGMENT_BIT]
                        else []) s)) s) as Hd.
  { eapply same_modules_trans; [apply discover_same_modules|done]. }
  case_decide; [|exact Hd].
  eapply same_modules_trans; [apply processVertexInputs_same_modules|].
  exact Hd.
Qed.

Lemma reflect_same_modules (env : Env) (s : State) :
  same_modules (reflect env s) s.
Proof.
  unfold reflect.
  assert (∀ l s0, same_modules (foldl (reflect_stage env) s0 l) s0) as Hfold.
  { induction l as [|c l IH]; intros s0; [done|].
    change (foldl ?f ?a (?x :: ?l)) with (foldl f (f a x) l).
    eapply same_modules_trans; [apply IH|apply reflect_stage_same_modules]. }
  eapply same_modules_trans; [apply Hfold|done].
Qed.

Lemma buildSetLayouts_same_modules (s : State) :
  same_modules (buildSetLayouts Hash64 std_sort pod_padding s) s.
Proof.
  unfold buildSetLayouts.
  assert (∀ l i s0,
            same_modules
              (foldl (build_layout Hash64 pod_padding) (i, s0) l).2 s0)
    as Hfold.
  { induction l as [|[k vec] l IH]; intros i s0; [done|].
    change (foldl ?f ?a (?x :: ?l)) with (foldl f (f a x) l).
    cbn [build_layout].
    eapply same_modules_trans; [apply IH|]. by case_decide. }
  eapply same_modules_trans; [apply Hfold|done].
Qed.

Lemma createVkShaderModule_consistent (env : Env) (shaderType : Z)
  (fileName : string) (spirCode : list Z) (s : State) :
  modules_consistent s →
  modules_consistent (createVkShaderModule env shaderType fileName spirCode s)
  ∧ ∃ new, mStages (createVkShaderModule env shaderType fileName spirCode s)
           = mStages s ++ new.
Proof.
  intros [Hdom Hin]. unfold createVkShaderModule.
  destruct (vkCreateShaderModule env spirCode) as [err module].
  case_decide.
  - split; [|by exists [(shaderType, module)]]. split.
    + intros stage. cbn [with_module mModules mSpvCrossCompilers with_step].
      rewrite !lookup_insert_is_Some. by rewrite Hdom.
    + intros stage m.
      cbn [with_module mModules mStages with_step].
      destruct (decide (shaderType = stage)) as [->|Hne].
      * rewrite lookup_insert_eq. intros [= <-].
        apply elem_of_app. right. apply list_elem_of_here.
      * rewrite lookup_insert_ne by done. intros Hm.
        apply elem_of_app. left. by apply Hin.
  - split; [done|]. exists []. by rewrite app_nil_r.
Qed.

Lemma setup_source_consistent (env : Env) (d : bool) (s : State)
  (source : Z * string) :
  modules_consistent s →
  modules_consistent (setup_source Hash64 env (d, s) source).2
  ∧ ∃ new, mStages (setup_source Hash64 env (d, s) source).2
           = mStages s ++ new.
Proof.
  intros Hc. destruct source as [stage file]. unfold setup_source.
  destruct (file_exists env file);
    [|split; [done|exists []; by rewrite app_nil_r]].
  destruct (getSpirV env stage file []) as [spirCode lines].
  unfold isSpirCodeDirty. cbn [mSpvHash with_log].
  destruct (mSpvHash s !! stage) as [stored|].
  - destruct (bool_decide (stored ≠ _)).
    + exact (createVkShaderModule_consistent env stage file spirCode
               (with_log lines s) Hc).
    + split; [done|]. exists []. by rewrite app_nil_r.
  - exact (createVkShaderModule_consistent env stage file spirCode
             (with_mSpvHash _ (with_log lines s)) Hc).
Qed.

Lemma setup_sources_consistent (env : Env) (l : list (Z * string))
  (d : bool) (s : State) :
  modules_consistent s →
  modules_consistent (foldl (setup_source Hash64 env) (d, s) l).2
  ∧ ∃ new, mStages (foldl (setup_source Hash64 env) (d, s) l).2
           = mStages s ++ new.
Proof.
  revert d s. induction l as [|source l IH]; intros d s Hc.
  - split; [done|]. exists []. by rewrite app_nil_r.
  - change (foldl ?f ?a (?x :: ?l)) with (foldl f (f a x) l).
    destruct (setup_source_consistent env d s source Hc) as [Hc1 [new1 Hn1]].
    destruct (setup_source Hash64 env (d, s) source) as [d1 s1].
    cbn [snd] in *.
    destruct (IH d1 s1 Hc1) as [Hc2 [new2 Hn2]].
    split; [done|]. exists (new1 ++ new2).
    by rewrite Hn2, Hn1, <- app_assoc.
Qed.

(** X16. setup keeps modules, reflection compilers and pipeline stages
    together, whatever the files and the driver answer: afterwards a stage
    has a module exactly when it has a compiler to reflect on, and the
    module of every stage is among the pipeline stages. The pipeline stages
    only grow: createVkShaderModule pushes one for every module it creates
    and none is ever removed, so a stage that is loaded again is listed
    once more. *)
Theorem setup_modules_consistent (env : Env) (s : State) :
  modules_consistent s →
  modules_consistent (setup Hash64 std_sort pod_padding env s)
  ∧ ∃ new, mStages (setup Hash64 std_sort pod_padding env s)
           = mStages s ++ new.
Proof.
  intros Hc. unfold setup.
  destruct (setup_sources_consistent env (items_Z (mSources s)) false s Hc)
    as [Hc1 [new Hn]].
  destruct (foldl (setup_source Hash64 env) (false, s) (items_Z (mSources s)))
    as [shaderDirty s1].
  cbn [snd] in *. destruct shaderDirty; [|split; [done|by exists new]].
  assert (same_modules
            (buildSetLayouts Hash64 std_sort pod_padding (reflect env s1)) s1)
    as Hsame.
  { eapply same_modules_trans;
      [apply buildSetLayouts_same_modules|apply reflect_same_modules]. }
  split; [by apply (same_modules_consistent _ s1)|].
  exists new. destruct Hsame as (_ & -> & _). done.
Qed.

End ShaderModules.

Section ShaderModulesExamples.
Import Cxx Vk Shader.

Lemma setup_modules_consistent_witness :
  modules_consistent
    (setup Examples.toy_hash Examples.merge_sort_by Examples.zero_holes
       (Examples.env_with Examples.binary_B) Examples2.shader_loaded)
  ∧ ∃ new,
      mStages
        (setup Examples.toy_hash Examples.merge_sort_by Examples.zero_holes
           (Examples.env_with Examples.binary_B) Examples2.shader_loaded)
      = mStages Examples2.shader_loaded ++ new.
Proof.
  apply (setup_modules_consistent Examples.toy_hash Examples.merge_sort_by
           Examples.zero_holes (Examples.env_with Examples.binary_B)
           Examples2.shader_loaded).
  apply (setup_modules_consistent Examples.toy_hash Examples.merge_sort_by
           Examples.zero_holes (Examples.env_with Examples.binary_A)
           Examples.shader1).
  split.
  - intros stage. cbn. by rewrite !lookup_empty.
  - intros stage module. cbn. by rewrite lookup_empty.
Defined.

(** Reloading the vertex stage with another binary lists it twice. *)
Example reload_lists_stage_twice :
  mStages
    (Examples.setup0 (Examples.env_with Examples.binary_B)
       Examples2.shader_loaded)
  = [(VK_SHADER_STAGE_VERTEX_BIT, 500); (VK_SHADER_STAGE_VERTEX_BIT, 500)].
Proof. vm_compute. reflexivity. Qed.

End ShaderModulesExamples.

(* ===================================================================== *)
(** * Facts about the depth stencil image *)
(* ===================================================================== *)

Section DepthFacts.
Import Cxx Vk Device Depth.

(** X25. A setupDepthStencil that returns has made exactly six calls, in
    this order: it creates the image, asks for its memory requirements,
    allocates the required size from the first memory type that the
    requirements allow and that is device local, binds that memory to that
    image at offset 0, records into the setup command buffer the barrier
    that moves the image from UNDEFINED to DEPTH_STENCIL_ATTACHMENT_OPTIMAL,
    and creates the view of that image. What the uninitialised local
    memInfo held does not matter, and mDepthStencil holds the three handles
    the driver answered. *)
Theorem setupDepthStencil_returned (a : Answers)
  (memInfo : VkMemoryAllocateInfo) (m m' : Members) (calls : list Call) :
  mem_size (memReqs a) ≠ 0 →
  0 ≤ memoryTypeCount (mPhysicalDeviceMemoryProperties m) ≤ 32 →
  memoryTypeCount (mPhysicalDeviceMemoryProperties m)
  ≤ Z.of_nat (length (memoryTypes (mPhysicalDeviceMemoryProperties m))) →
  setupDepthStencil a memInfo m = (m', calls, Renderer.Returned) →
  ∃ i image_info view_info,
    suitable (mPhysicalDeviceMemoryProperties m) (memReqs a)
      VK_MEMORY_PROPERTY_DEVICE_LOCAL_BIT i
    ∧ (∀ j, 0 ≤ j < i →
         ¬ suitable (mPhysicalDeviceMemoryProperties m) (memReqs a)
             VK_MEMORY_PROPERTY_DEVICE_LOCAL_BIT j)
    ∧ calls
      = [vkCreateImage image_info;
         vkGetImageMemoryRequirements (new_image a);
         vkAllocateMemory
           {| mai_sType := VK_STRUCTURE_TYPE_MEMORY_ALLOCATE_INFO;
              mai_pNext := 0;
              allocationSize := mem_size (memReqs a);
              memoryTypeIndex := i |};
         vkBindImageMemory (new_image a) (new_mem a) 0;
         known (Renderer.vkCmdPipelineBarrier (mSetupCommandBuffer m)
                  VK_PIPELINE_STAGE_TOP_OF_PIPE_BIT
                  VK_PIPELINE_STAGE_TOP_OF_PIPE_BIT
                  (Renderer.createImageBarrier (new_image a)
                     (Z.lor VK_IMAGE_ASPECT_DEPTH_BIT
                            VK_IMAGE_ASPECT_STENCIL_BIT)
                     VK_IMAGE_LAYOUT_UNDEFINED
                     VK_IMAGE_LAYOUT_DEPTH_STENCIL_ATTACHMENT_OPTIMAL));
         vkCreateImageView view_info]
    ∧ extent image_info = (mWindowWidth m, mWindowHeight m, 1)
    ∧ img_format image_info = mDepthFormat m
    ∧ view_format view_info = mDepthFormat m
    ∧ view_image view_info = new_image a
    ∧ mDepthStencil m'
      = {| image := new_image a; mem := new_mem a; view := new_view a |}.
Proof.
  intros Hsize Hcount Hlen. unfold setupDepthStencil, getMemoryAllocationInfo.
  case_decide; [done|].
  rewrite decide_False by done.
  destruct (search_type_first (mPhysicalDeviceMemoryProperties m) (memReqs a)
              VK_MEMORY_PROPERTY_DEVICE_LOCAL_BIT
              (Z.to_nat (memoryTypeCount (mPhysicalDeviceMemoryProperties m)))
              0)
    as (i & -> & Hr & Hsuit & Hno); [lia|lia|lia|].
  rewrite Z2Nat.id in * by lia. rewrite Z.add_0_l in *.
  case_decide; [done|].
  case_decide; [done|]. case_decide; [done|]. case_decide; [done|].
  intros [= <- <-]. exists i. eexists _, _.
  split; [apply Hsuit; lia|]. split; [exact Hno|].
  split; [reflexivity|]. done.
Qed.

Lemma setupDepthStencil_returned_witness :
  ∃ i image_info view_info,
    suitable Examples2.three_types Examples2.depth_image_reqs
      VK_MEMORY_PROPERTY_DEVICE_LOCAL_BIT i
    ∧ (∀ j, 0 ≤ j < i →
         ¬ suitable Examples2.three_types Examples2.depth_image_reqs
             VK_MEMORY_PROPERTY_DEVICE_LOCAL_BIT j)
    ∧ (setupDepthStencil Examples2.depth_answers
         Examples2.blank_allocate_info Examples2.depth_members).1.2
      = [vkCreateImage image_info;
         vkGetImageMemoryRequirements 301;
         vkAllocateMemory
           {| mai_sType := VK_STRUCTURE_TYPE_MEMORY_ALLOCATE_INFO;
              mai_pNext := 0;
              allocationSize := 4194304;
              memoryTypeIndex := i |};
         vkBindImageMemory 301 302 0;
         known (Renderer.vkCmdPipelineBarrier 501
                  VK_PIPELINE_STAGE_TOP_OF_PIPE_BIT
                  VK_PIPELINE_STAGE_TOP_OF_PIPE_BIT
                  (Renderer.createImageBarrier 301
                     (Z.lor VK_IMAGE_ASPECT_DEPTH_BIT
                            VK_IMAGE_ASPECT_STENCIL_BIT)
                     VK_IMAGE_LAYOUT_UNDEFINED
                     VK_IMAGE_LAYOUT_DEPTH_STENCIL_ATTACHMENT_OPTIMAL));
         vkCreateImageView view_info]
    ∧ extent image_info = (800, 600, 1)
    ∧ img_format image_info = 129
    ∧ view_format view_info = 129
    ∧ view_image view_info = 301
    ∧ mDepthStencil
        (setupDepthStencil Examples2.depth_answers
           Examples2.blank_allocate_info Examples2.depth_members).1.1
      = {| image := 301; mem := 302; view := 303 |}.
Proof.
  apply (setupDepthStencil_returned Examples2.depth_answers
           Examples2.blank_allocate_info Examples2.depth_members).
  - discriminate.
  - simpl. lia.
  - simpl. lia.
  - vm_compute. reflexivity.
Defined.

(** X26. When no memory type is both allowed by the requirements of the
    depth image and device local, setupDepthStencil stops in the assertion
    of getMemoryAllocationInfo: the image was created and asked for its
    requirements, but no memory is allocated, nothing is bound or recorded
    and no view is created. *)
Theorem setupDepthStencil_no_memory_type (a : Answers)
  (memInfo : VkMemoryAllocateInfo) (m : Members) :
  err_image a = VK_SUCCESS →
  mem_size (memReqs a) ≠ 0 →
  0 ≤ memoryTypeCount (mPhysicalDeviceMemoryProperties m) ≤ 32 →
  memoryTypeCount (mPhysicalDeviceMemoryProperties m)
  ≤ Z.of_nat (length (memoryTypes (mPhysicalDeviceMemoryProperties m))) →
  (∀ j, 0 ≤ j < memoryTypeCount (mPhysicalDeviceMemoryProperties m) →
     ¬ suitable (mPhysicalDeviceMemoryProperties m) (memReqs a)
         VK_MEMORY_PROPERTY_DEVICE_LOCAL_BIT j) →
  ∃ image_info,
    setupDepthStencil a memInfo m
    = (with_mDepthStencil
         {| image := new_image a; mem := mem (mDepthStencil m);
            view := view (mDepthStencil m) |} m,
       [vkCreateImage image_info;
        vkGetImageMemoryRequirements (new_image a)],
       Renderer.AssertFailed).
Proof.
  intros Himg Hsize Hcount Hlen Hnone.
  unfold setupDepthStencil, getMemoryAllocationInfo.
  rewrite decide_False by (by intros []).
  rewrite decide_False by done.
  destruct (search_type_first (mPhysicalDeviceMemoryProperties m) (memReqs a)
              VK_MEMORY_PROPERTY_DEVICE_LOCAL_BIT
              (Z.to_nat (memoryTypeCount (mPhysicalDeviceMemoryProperties m)))
              0)
    as (i & -> & Hr & Hsuit & Hno); [lia|lia|lia|].
  rewrite Z2Nat.id in * by lia. rewrite Z.add_0_l in *.
  case_decide as Hend; [by eexists|].
  destruct (Hnone i); [lia|]. apply Hsuit. lia.
Qed.

Lemma setupDepthStencil_no_memory_type_witness :
  ∃ image_info,
    setupDepthStencil
      {| err_image := VK_SUCCESS; new_image := 301;
         memReqs := {| mem_size := 4194304; mem_alignment := 256;
                       memoryTypeBits := 1 |};
         err_alloc := VK_SUCCESS; new_mem := 302; err_bind := VK_SUCCESS;
         err_view := VK_SUCCESS; new_view := 303 |}
      Examples2.blank_allocate_info Examples2.depth_members
    = (with_mDepthStencil
         {| image := 301; mem := mem (mDepthStencil Examples2.depth_members);
            view := view (mDepthStencil Examples2.depth_members) |}
         Examples2.depth_members,
       [vkCreateImage image_info; vkGetImageMemoryRequirements 301],
       Renderer.AssertFailed).
Proof.
  apply (setupDepthStencil_no_memory_type
           {| err_image := VK_SUCCESS; new_image := 301;
              memReqs := {| mem_size := 4194304; mem_alignment := 256;
                            memoryTypeBits := 1 |};
              err_alloc := VK_SUCCESS; new_mem := 302;
              err_bind := VK_SUCCESS;
              err_view := VK_SUCCESS; new_view := 303 |}
           Examples2.blank_allocate_info Examples2.depth_members).
  - reflexivity.
  - discriminate.
  - simpl. lia.
  - simpl. lia.
  - intros j Hj (Hbit & t & Ht & Hflags). cbn in Hj, Hbit, Ht, Hflags.
    assert (j = 0 ∨ j = 1 ∨ j = 2) as [-> | [-> | ->]] by lia.
    + cbn in Ht. injection Ht as <-. cbn in Hflags. discriminate.
    + cbn in Hbit. discriminate.
    + cbn in Hbit. discriminate.
Defined.

End DepthFacts.
